(** * MCNPy / MontePy: cards, numbered objects, materials and lattice inputs

    A shallow embedding of
    - [mcnpy/mcnp_card.py]              ([MCNP_Card]),
    - [montepy/numbered_mcnp_object.py] ([Numbered_MCNP_Object.clone]),
    - [mcnpy/data_inputs/material.py]   ([Material]),
    - [mcnpy/data_inputs/lattice_input.py] ([LatticeInput]),
    with the properties their specification states about them.

    Python objects are records; a method that assigns to [self] is a
    state transformer that returns the object as it is when the method
    returns or raises; exceptions are values of [result]. *)

From Stdlib Require Import ZArith QArith Qabs Ascii.
From stdpp Require Import base tactics option list strings gmap pretty sorting.

#[local] Open Scope Z_scope.

(** ** Python prelude: exceptions, results, mutation *)

Module Py.

(** The exception classes the four modules raise or let through.
    [RedundantDefinitionError] is a name of the specification: none of the
    four modules raises it, only the check of redundant definitions that
    is modelled from the specification does. [IllegalState] is the class
    the specification calls ValidationError. *)
Inductive exn_kind :=
| TypeError
| ValueError
| AttributeError
| IndexError
| KeyError
| StopIteration
| UnboundLocalError
| MalformedInputError
| NumberConflictError
| IllegalState
| RedundantDefinitionError.

#[global] Instance exn_kind_eq_dec : EqDecision exn_kind.
Proof. solve_decision. Defined.

Record exn := Exn { kind : exn_kind; message : string }.

#[global] Instance exn_eq_dec : EqDecision exn.
Proof. solve_decision. Defined.

Inductive result (A : Type) : Type :=
| Ok (a : A)
| Raise (e : exn).
Arguments Ok {A} a.
Arguments Raise {A} e.

#[global] Instance result_ret : MRet result := @Ok.
#[global] Instance result_bind : MBind result :=
  λ A B f r, match r with Ok a => f a | Raise e => Raise e end.
#[global] Instance result_fmap : FMap result :=
  λ A B f r, match r with Ok a => Ok (f a) | Raise e => Raise e end.

Definition raise {A} (k : exn_kind) (msg : string) : result A :=
  Raise (Exn k msg).

Definition raises {A} (r : result A) (k : exn_kind) : Prop :=
  match r with Ok _ => False | Raise e => kind e = k end.

(** A method that mutates [self : S]: the object after the call comes
    back whether the call returned or raised. *)
Definition method (S A : Type) : Type := S → result A * S.

Definition ret_m {S A} (a : A) : method S A := λ s, (Ok a, s).
Definition raise_m {S A} (k : exn_kind) (msg : string) : method S A :=
  λ s, (raise k msg, s).
Definition bind_m {S A B} (m : method S A) (f : A → method S B) : method S B :=
  λ s, match m s with
       | (Ok a, s') => f a s'
       | (Raise e, s') => (Raise e, s')
       end.
Definition assign {S} (f : S → S) : method S unit := λ s, (Ok tt, f s).
Definition read {S A} (f : S → A) : method S A := λ s, (Ok (f s), s).
(** A pure computation that may raise, run inside a method. *)
Definition lift_m {S A} (r : result A) : method S A := λ s, (r, s).

(** Values a caller can hand to a setter: integers, floats, strings and
    [None]. (Python's booleans, which are integers too, are left out.) *)
Inductive value :=
| PyInt (z : Z)
| PyFloat (q : Q)
| PyStr (s : string)
| PyNone.

(** [isinstance(v, int)] *)
Definition isinstance_int (v : value) : bool :=
  match v with PyInt _ => true | _ => false end.

(** The integer that [v] is, when [isinstance_int v]. *)
Definition int_of (v : value) : Z :=
  match v with
  | PyInt z => z
  | _ => 0
  end.

(** [itertools.zip_longest(xs, ys, fillvalue=None)] *)
Fixpoint zip_longest {A B} (xs : list A) (ys : list B) : list (option A * option B) :=
  match xs with
  | [] => (λ y, (None, Some y)) <$> ys
  | x :: xs' =>
      match ys with
      | [] => (Some x, None) :: zip_longest xs' []
      | y :: ys' => (Some x, Some y) :: zip_longest xs' ys'
      end
  end.

End Py.
Import Py.

Notation "x ←ₘ m ; k" := (bind_m m (λ x, k))
  (at level 20, m at level 100, k at level 200, only parsing).
Notation "m ;;ₘ k" := (bind_m m (λ _, k))
  (at level 100, k at level 200, right associativity, only parsing).

(** ** Strings as Python uses them *)

Module Str.

Definition len (s : string) : Z := Z.of_nat (String.length s).

(** [s[:n]] and [s[n:]] for [0 <= n] *)
Fixpoint take (n : nat) (s : string) : string :=
  match n, s with
  | S n', String c s' => String c (take n' s')
  | _, _ => EmptyString
  end.

Fixpoint drop (n : nat) (s : string) : string :=
  match n, s with
  | S n', String _ s' => drop n' s'
  | _, _ => s
  end.

(** [sep.join(parts)] *)
Definition join (sep : string) (parts : list string) : string :=
  String.concat sep parts.

(** [" " * n] *)
Fixpoint spaces (n : nat) : string :=
  match n with
  | O => EmptyString
  | S n' => String " "%char (spaces n')
  end.

Fixpoint all_chars (p : ascii → bool) (s : string) : bool :=
  match s with
  | EmptyString => true
  | String c s' => p c && all_chars p s'
  end.

(** [str.isspace] on the code points below 256: tab, line feed, vertical
    tab, form feed, carriage return, the four separators 28-31, space,
    next-line and no-break space. *)
Definition isspace (c : ascii) : bool :=
  let n := N_of_ascii c in
  ((9 <=? n) && (n <=? 13) || (28 <=? n) && (n <=? 32)
   || (n =? 133) || (n =? 160))%N.

(** [s.strip() == ''] *)
Definition is_blank (s : string) : bool := all_chars isspace s.

(** [s.rfind(c, 0, stop)] for [0 <= stop]: the last index below [stop]
    that holds [c], or [-1]. *)
Fixpoint rfind_from (c : ascii) (s : string) (i : Z) (stop : nat) (found : Z) : Z :=
  match stop, s with
  | S stop', String d s' =>
      rfind_from c s' (i + 1) stop' (if Ascii.eqb c d then i else found)
  | _, _ => found
  end.

Definition rfind (c : ascii) (s : string) (stop : nat) : Z :=
  rfind_from c s 0 stop (-1).

(** [f"{s:<n}"] and [f"{s:>n}"] *)
Definition ljust (n : nat) (s : string) : string :=
  s +:+ spaces (n - String.length s).
Definition rjust (n : nat) (s : string) : string :=
  spaces (n - String.length s) +:+ s.

End Str.

(** ** [textwrap.TextWrapper], as [MCNP_Card] configures it

    [wrap_string_for_mcnp] sets [width], [initial_indent] and
    [subsequent_indent]; the other options keep their defaults
    ([break_long_words], [drop_whitespace], [break_on_hyphens] on,
    [max_lines] off). [_wrap_chunks] and [_handle_long_word] follow the
    standard library (CPython 3.11); the regular expression that cuts the
    text into chunks is an interface here. *)

Module TextWrap.

Record TextWrapper := {
  width : Z;
  initial_indent : string;
  subsequent_indent : string
}.

(** [wordsep_re.split]: the munged text cut at the places where a line
    may break. *)
Class Chunker := wordsep_split : string → list string.

(** The inner [while chunks] loop: chunks move to the current line as
    long as they fit. *)
Fixpoint fill_line (avail : Z) (cur_line : list string) (cur_len : Z)
    (chunks : list string) : list string * Z * list string :=
  match chunks with
  | [] => (cur_line, cur_len, [])
  | c :: rest =>
      if cur_len + Str.len c <=? avail
      then fill_line avail (cur_line ++ [c]) (cur_len + Str.len c) rest
      else (cur_line, cur_len, chunks)
  end.

(** [_handle_long_word] with [break_long_words] and [break_on_hyphens]:
    the head of [chunks] is cut after [space_left] characters, or after
    the last hyphen in that range if there is one with a non-hyphen
    before it. Returns [(chunks, cur_line)]. *)
Definition _handle_long_word (chunks cur_line : list string) (cur_len avail : Z)
    : list string * list string :=
  let space_left := if avail <? 1 then 1 else avail - cur_len in
  match chunks with
  | [] => (chunks, cur_line)
  | chunk :: rest =>
      let hyphen :=
        if Str.len chunk >? space_left
        then Str.rfind "-"%char chunk (Z.to_nat space_left)
        else -1 in
      let end_ :=
        if (hyphen >? 0)
           && negb (Str.all_chars (Ascii.eqb "-"%char) (Str.take (Z.to_nat hyphen) chunk))
        then hyphen + 1
        else space_left in
      (Str.drop (Z.to_nat end_) chunk :: rest,
       cur_line ++ [Str.take (Z.to_nat end_) chunk])
  end.

(** One round of the outer [while chunks] loop of [_wrap_chunks], for
    non-empty [chunks]: returns the lines so far and the chunks left. *)
Definition wrap_line (w : TextWrapper) (lines chunks : list string)
    : list string * list string :=
  let indent :=
    match lines with [] => initial_indent w | _ => subsequent_indent w end in
  let avail := width w - Str.len indent in
  let chunks :=
    match chunks, lines with
    | c :: rest, _ :: _ => if Str.is_blank c then rest else chunks
    | _, _ => chunks
    end in
  let '(cur_line, cur_len, chunks) := fill_line avail [] 0 chunks in
  let '(chunks, cur_line) :=
    match chunks with
    | c :: _ =>
        if Str.len c >? avail
        then _handle_long_word chunks cur_line cur_len avail
        else (chunks, cur_line)
    | [] => (chunks, cur_line)
    end in
  let cur_line :=
    match last cur_line with
    | Some c => if Str.is_blank c then removelast cur_line else cur_line
    | None => cur_line
    end in
  match cur_line with
  | [] => (lines, chunks)
  | _ => (lines ++ [indent +:+ Str.join "" cur_line], chunks)
  end.

Fixpoint wrap_loop (fuel : nat) (w : TextWrapper) (lines chunks : list string)
    : option (list string) :=
  match chunks with
  | [] => Some lines
  | _ =>
      match fuel with
      | O => None
      | S fuel' =>
          let '(lines', chunks') := wrap_line w lines chunks in
          wrap_loop fuel' w lines' chunks'
      end
  end.

(** Every round removes a chunk or at least one character of one. *)
Definition weight (chunks : list string) : nat :=
  foldr (λ c n, S (String.length c + n)) O chunks.

(** [TextWrapper._wrap_chunks]. [None] stands for a loop that never
    ends, as the library's does when an indent is wider than the line and
    the text starts with white space; [wrap_loop_total] shows that
    [weight chunks] rounds suffice otherwise. *)
Definition _wrap_chunks (w : TextWrapper) (chunks : list string)
    : option (result (list string)) :=
  if width w <=? 0
  then Some (raise ValueError
               ("invalid width " +:+ pretty (width w) +:+ " (must be > 0)"))
  else Ok <$> wrap_loop (weight chunks) w [] chunks.

(** [_munge_whitespace]: [expandtabs] with tab stops every 8 columns,
    then each of tab, line feed, vertical tab, form feed, carriage return
    becomes a space. *)
Fixpoint _munge_whitespace (col : nat) (text : string) : string :=
  match text with
  | EmptyString => EmptyString
  | String c rest =>
      if Ascii.eqb c "009"%char then
        let n := (8 - col `mod` 8)%nat in
        Str.spaces n +:+ _munge_whitespace (col + n) rest
      else if Ascii.eqb c "010"%char || Ascii.eqb c "013"%char then
        String " "%char (_munge_whitespace O rest)
      else if Ascii.eqb c "011"%char || Ascii.eqb c "012"%char then
        String " "%char (_munge_whitespace (S col) rest)
      else String c (_munge_whitespace (S col) rest)
  end.

Definition nonempty (s : string) : bool :=
  match s with EmptyString => false | _ => true end.

(** [_split_chunks]: munge, split, and drop the empty chunks. *)
Definition _split_chunks `{Chunker} (text : string) : list string :=
  filter (λ c, nonempty c = true) (wordsep_split (_munge_whitespace O text)).

(** [TextWrapper.wrap] *)
Definition wrap `{Chunker} (w : TextWrapper) (text : string)
    : option (result (list string)) :=
  _wrap_chunks w (_split_chunks text).

(** [wordsep_re.split] on text without hyphens: maximal runs of spaces
    and of other characters. It is used to run [wrap] on concrete
    hyphen-free strings. *)
Fixpoint runs (cur : string) (cur_space : bool) (text : string) : list string :=
  match text with
  | EmptyString => match cur with EmptyString => [] | _ => [cur] end
  | String c rest =>
      let sp := Ascii.eqb c " "%char in
      match cur with
      | EmptyString => runs (String c EmptyString) sp rest
      | _ =>
          if Bool.eqb sp cur_space
          then runs (cur +:+ String c EmptyString) cur_space rest
          else cur :: runs (String c EmptyString) sp rest
      end
  end.

Definition split_plain : Chunker := runs EmptyString false.

End TextWrap.

(** ** [mcnpy/mcnp_card.py] *)

Module MCNP_Card.
Import TextWrap.

(** [mcnp_version]: a tuple of integers, [(6, 2, 0)] for MCNP 6.2. *)
Definition version := list Z.

(** What [MCNP_Card] reads of [mcnpy.input_parser.mcnp_input.Comment]. *)
Record Comment := {
  lines : list string;
  is_cutting_comment : bool;
  card_line : Z
}.

(** [Comment.format_for_mcnp_input], defined in the input parser. *)
Class CommentFormat := comment_format : Comment → version → list string.

(** What [MCNP_Card] reads of [mcnpy.input_parser.mcnp_input.Card]. *)
Record Card := { input_lines : list string }.

Record MCNP_Card := {
  _input_lines : list string;
  _mutated : bool;
  _comments : list Comment
}.

(** The [comments] argument of [__init__]: [None], one [Comment], or a list. *)
Inductive comments_arg :=
| NoComments
| OneComment (c : Comment)
| CommentList (cs : list Comment).

(** [MCNP_Card.__init__] with an input card: a lone [Comment] is
    wrapped in a list, and an empty list or [None] leaves [[]]. *)
Definition __init__ (input_card : Card) (comments : comments_arg) : MCNP_Card :=
  let comments :=
    match comments with
    | NoComments => []
    | OneComment c => [c]
    | CommentList cs => cs
    end in
  {| _input_lines := input_lines input_card;
     _mutated := false;
     _comments := comments |}.

(** [MCNP_Card.__init__] without an input card ([input_card=None]), as
    programmatic construction calls it, with a list of comments or [None]. *)
Definition __init__blank (comments : option (list Comment)) : MCNP_Card :=
  {| _input_lines := [];
     _mutated := true;
     _comments := default [] comments |}.

(** The [comments] setter *)
Definition set_comments (comments : list Comment) (self : MCNP_Card) : MCNP_Card :=
  {| _input_lines := _input_lines self;
     _mutated := true;
     _comments := comments |}.

Definition set_mutated (self : MCNP_Card) : MCNP_Card :=
  {| _input_lines := _input_lines self;
     _mutated := true;
     _comments := _comments self |}.

Section formatting.
Context `{CommentFormat}.

(** [MCNP_Card.format_for_mcnp_input]: the leading comment of an
    untouched card, every comment of a mutated one. *)
Definition format_for_mcnp_input (self : MCNP_Card) (mcnp_version : version)
    : list string :=
  match _comments self with
  | [] => []
  | c0 :: _ =>
      if negb (_mutated self)
      then comment_format c0 mcnp_version
      else foldl (λ ret comment, ret ++ comment_format comment mcnp_version)
                 [] (_comments self)
  end.

(** The dictionary built by the first loop of
    [_format_for_mcnp_unmutated]: a later comment replaces an earlier one
    with the same [card_line]. *)
Definition cutting_comments (comments : list Comment) : gmap Z Comment :=
  foldl (λ comments_dict comment,
           if is_cutting_comment comment
           then <[card_line comment := comment]> comments_dict
           else comments_dict)
        ∅ comments.

(** [enumerate(xs)] *)
Definition enumerate {A} (xs : list A) : list (Z * A) :=
  zip (seqZ 0 (Z.of_nat (length xs))) xs.

(** [MCNP_Card._format_for_mcnp_unmutated] *)
Definition _format_for_mcnp_unmutated (self : MCNP_Card) (mcnp_version : version)
    : list string :=
  let comments_dict := cutting_comments (_comments self) in
  let ret :=
    match _comments self with
    | [] => []
    | c0 :: _ => comment_format c0 mcnp_version
    end in
  foldl (λ ret '(i, line),
           match comments_dict !! i with
           | Some comment => ret ++ comment_format comment mcnp_version
           | None => ret
           end ++ [line])
        ret (enumerate (_input_lines self)).

End formatting.

(** [mcnp_version[:2] == (6, 2)] *)
Definition is_6_2 (mcnp_version : version) : bool :=
  bool_decide (take 2 mcnp_version = [6; 2]).

(** [MCNP_Card.wrap_string_for_mcnp] *)
Definition wrap_string_for_mcnp `{Chunker}
    (string_ : string) (mcnp_version : version) (is_first_line : bool)
    : option (result (list string)) :=
  let line_length := if is_6_2 mcnp_version then 128 else 0 in
  let indent_length := if is_6_2 mcnp_version then 5%nat else 0%nat in
  let initial_indent := if is_first_line then 0%nat else indent_length in
  let wrapper :=
    {| width := line_length;
       initial_indent := Str.spaces initial_indent;
       subsequent_indent := Str.spaces indent_length |} in
  wrap wrapper string_.

(** [MCNP_Card.wrap_words_for_mcnp] *)
Definition wrap_words_for_mcnp `{Chunker}
    (words : list string) (mcnp_version : version) (is_first_line : bool)
    : option (result (list string)) :=
  wrap_string_for_mcnp (Str.join " " words) mcnp_version is_first_line.

End MCNP_Card.

(** ** [montepy/numbered_mcnp_object.py] *)

Module Numbered.

(** Modelled from the spec: the registry of one kind of numbered entity
    (the [materials], [cells], ... collection of a problem), which is not
    among the source files. It holds the numbers that the live entities
    have at the time it is asked;
    [check_number] fails with [NumberConflictError] when the number is
    held, and [request_number] scans [start, start+step, ...] for the
    first number that is not. *)
Record Numbered_Object_Collection := { numbers : gset Z }.

(** Modelled from the spec: [check_number] of the registry. *)
Definition check_number (collection : Numbered_Object_Collection) (number : Z)
    : result unit :=
  if decide (number ∈ numbers collection)
  then raise NumberConflictError ("Number " +:+ pretty number +:+ " is already in use")
  else Ok tt.

(** Modelled from the spec: the scan of [request_number], for at most
    [fuel] probes. *)
Fixpoint request_number_scan (fuel : nat) (held : gset Z) (number step : Z)
    : option Z :=
  match fuel with
  | O => None
  | S fuel' =>
      if decide (number ∈ held)
      then request_number_scan fuel' held (number + step) step
      else Some number
  end.

(** Modelled from the spec: [request_number] of the registry. A set of
    [n] numbers is left after at most [n + 1] probes unless [step] is 0;
    [None] is a scan that never ends. *)
Definition request_number (collection : Numbered_Object_Collection)
    (start_num step : Z) : option Z :=
  request_number_scan (S (size (numbers collection))) (numbers collection)
    start_num step.

(** The abstract properties of [Numbered_MCNP_Object] and what [clone]
    reaches through the object: [collection] is the collection for
    [type(self)] of [ret._problem], [None] when there is no problem. *)
Class Numbered_MCNP_Object (A : Type) := {
  number : A → Z;
  old_number : A → option Z;
  number_setter : value → method A unit;
  collection : A → option Numbered_Object_Collection
}.

Section clone.
Context {A : Type} `{Numbered_MCNP_Object A}.

(** [for number in itertools.count(starting_number, step=1)]: the first
    number the setter accepts is kept; only [NumberConflictError] is
    caught. [fuel] bounds the number of rounds; [None] when it runs out. *)
Fixpoint clone_count (fuel : nat) (number : Z) (ret : A) : option (result A) :=
  match fuel with
  | O => None
  | S fuel' =>
      match number_setter (PyInt number) ret with
      | (Ok _, ret') => Some (Ok ret')
      | (Raise e, ret') =>
          if decide (kind e = NumberConflictError)
          then clone_count fuel' (number + 1) ret'
          else Some (Raise e)
      end
  end.

(** [Numbered_MCNP_Object.clone]. [copy.deepcopy] copies the object
    with all that it reaches, its problem included: [ret] and
    [ret._problem] are an object and a problem of their own, the problem
    holding [ret] where the problem of [self] holds [self]. An object
    here is a value that carries its problem, so that the copy is the
    value itself; what [ret] and its problem undergo does not reach
    [self]. The collection is the one of [ret._problem], and the setter
    reads it anew in every round. *)
Definition clone (fuel : nat) (self : A) (starting_number step : Z)
    : option (result A) :=
  let ret := self in
  match collection ret with
  | Some collection =>
      match request_number collection starting_number step with
      | None => None
      | Some requested =>
          match number_setter (PyInt requested) ret with
          | (Ok _, ret) => clone_count fuel starting_number ret
          | (Raise e, _) => Some (Raise e)
          end
      end
  | None => clone_count fuel starting_number ret
  end.

End clone.

End Numbered.

(** ** [mcnpy/data_inputs/material.py] *)

Module Material.
Import MCNP_Card Numbered.

(** *** What the module imports from files that are not among the sources *)

(** [mcnpy.data_inputs.isotope.Isotope]: the constructor applied to a
    word, [__lt__], [__str__] and [mcnp_str]. The constructor returns the
    new object or raises, [MalformedInputError] and [ValueError] among
    the exceptions that [Material.__init__] handles. Its first argument
    here is the number of isotopes the caller has made before: it stands
    for the identity of the new object, by which an instance can keep
    apart two objects made from the same word. Two isotopes are the same
    dictionary key when they are equal in [Isotope]; for a class that
    defines neither [__eq__] nor [__hash__] these are the same object. *)
Class IsotopeClass (Isotope : Type) := {
  Isotope_eq_dec :: EqDecision Isotope;
  Isotope_init : nat → string → result Isotope;
  Isotope_lt : Isotope → Isotope → bool;
  Isotope_str : Isotope → string;
  mcnp_str : Isotope → string
}.

(** [mcnpy.data_inputs.material_component.MaterialComponent.__init__]:
    the checks the constructor makes of its arguments before it stores
    them. It refuses a fraction of 0 with [ValueError]. *)
Class MaterialComponentClass (Isotope : Type) := {
  MaterialComponent_check : Isotope → Q → result unit;
  MaterialComponent_zero isotope fraction :
    (fraction == 0)%Q → raises (MaterialComponent_check isotope fraction) ValueError
}.

(** [str(x)] of a float, as an f-string writes it *)
Class FloatStr := float_str : Q → string.

(** [mcnpy.utilities.fortran_float]: [None] when it raises [ValueError].
    A fraction is a finite float, taken as the rational it denotes: its
    sign tests and [abs] are exact. *)
Class Utilities := fortran_float : string → option Q.

(** [f"{x:.4g}"] *)
Class FloatFormat := format_4g : Q → string.

(** [thermal_scattering.ThermalScatteringLaw] and its [format_for_mcnp_input] *)
Class ThermalScatteringClass (Law : Type) :=
  law_format : Law → version → list string.

(** Python's [hash] on the values [Material.__hash__] builds. *)
Inductive hashable :=
| HStr (s : string)
| HInt (z : Z)
| HFloat (q : Q)
| HTuple2 (a b : hashable)
| HTuple3 (a b c : hashable).

Class PyHash := hash : hashable → Z.

(** *** Comparisons of fractions *)

Definition Qgtb (x y : Q) : bool := negb (Qle_bool x y).
Definition Qltb (x y : Q) : bool := negb (Qle_bool y x).

(** *** Dictionaries in insertion order *)

Fixpoint dict_set {K V} `{EqDecision K} (k : K) (v : V) (d : list (K * V))
    : list (K * V) :=
  match d with
  | [] => [(k, v)]
  | (k', v') :: d' =>
      if decide (k = k') then (k', v) :: d' else (k', v') :: dict_set k v d'
  end.

Fixpoint dict_get {K V} `{EqDecision K} (k : K) (d : list (K * V)) : option V :=
  match d with
  | [] => None
  | (k', v') :: d' => if decide (k = k') then Some v' else dict_get k d'
  end.

(** [sorted(xs)] by [__lt__]: a stable insertion sort. *)
Fixpoint insert_sorted {K} (lt : K → K → bool) (x : K) (xs : list K) : list K :=
  match xs with
  | [] => [x]
  | y :: xs' => if lt y x then y :: insert_sorted lt x xs' else x :: xs
  end.

Definition sorted {K} (lt : K → K → bool) (xs : list K) : list K :=
  foldr (insert_sorted lt) [] xs.

(** *** The class *)

Record MaterialComponent (Isotope : Type) := {
  isotope : Isotope;
  fraction : Q
}.
Arguments isotope {Isotope} _.
Arguments fraction {Isotope} _.

(** What [Material] reads of its [Input]: the card, its words and the
    number parsed from the first word (by [DataInputAbstract]). *)
Record Input := {
  input_card : Card;
  words : list string;
  _input_number : Z
}.

(** What a material reaches through [_problem]: the collection
    [materials] of the problem, whose numbers are those its materials
    have at present, and whether the material that holds the link is one
    of these materials ([holds_self]). The collection reads a number off
    the material each time it is asked, so the number it has for a
    material it holds is the number of that material as it stands. *)
Record Problem := {
  materials : Numbered_Object_Collection;
  holds_self : bool
}.

(** The problem after one of its materials went from [old] to [number],
    as seen from that material. *)
Definition renumber (old number : Z) (problem : Problem) : Problem :=
  if holds_self problem
  then {| materials :=
            {| numbers := {[number]} ∪ (numbers (materials problem) ∖ {[old]}) |};
          holds_self := true |}
  else problem.

Record Material (Isotope Law : Type) := {
  card : MCNP_Card;
  _problem : option Problem;
  _material_components : list (Isotope * MaterialComponent Isotope);
  _thermal_scattering : option Law;
  _material_number : Z;
  _old_material_number : option Z;
  _is_atom_fraction : option bool;
  _parameter_string : option string
}.
Arguments card {Isotope Law} _.
Arguments _problem {Isotope Law} _.
Arguments _material_components {Isotope Law} _.
Arguments _thermal_scattering {Isotope Law} _.
Arguments _material_number {Isotope Law} _.
Arguments _old_material_number {Isotope Law} _.
Arguments _is_atom_fraction {Isotope Law} _.
Arguments _parameter_string {Isotope Law} _.

Section material.
Context {Isotope Law : Type}.
Context `{IsotopeClass Isotope} `{MaterialComponentClass Isotope}.
Context `{Utilities} `{FloatFormat} `{FloatStr}.
Context `{ThermalScatteringClass Law} `{CommentFormat} `{PyHash}.

#[local] Abbreviation Material := (Material Isotope Law).

Definition mutated (self : Material) : bool := _mutated (card self).

(** Assignments to single attributes *)
Definition set_card (c : MCNP_Card) (self : Material) : Material :=
  {| card := c; _problem := _problem self;
     _material_components := _material_components self;
     _thermal_scattering := _thermal_scattering self;
     _material_number := _material_number self;
     _old_material_number := _old_material_number self;
     _is_atom_fraction := _is_atom_fraction self;
     _parameter_string := _parameter_string self |}.

(** [self._material_number = n]. A problem that holds the material shows
    the new number in place of the old one from then on. *)
Definition set_material_number (n : Z) (self : Material) : Material :=
  {| card := card self;
     _problem := renumber (_material_number self) n <$> _problem self;
     _material_components := _material_components self;
     _thermal_scattering := _thermal_scattering self;
     _material_number := n;
     _old_material_number := _old_material_number self;
     _is_atom_fraction := _is_atom_fraction self;
     _parameter_string := _parameter_string self |}.

Definition set_is_atom_fraction (b : bool) (self : Material) : Material :=
  {| card := card self; _problem := _problem self;
     _material_components := _material_components self;
     _thermal_scattering := _thermal_scattering self;
     _material_number := _material_number self;
     _old_material_number := _old_material_number self;
     _is_atom_fraction := Some b;
     _parameter_string := _parameter_string self |}.

Definition set_parameter_string (s : string) (self : Material) : Material :=
  {| card := card self; _problem := _problem self;
     _material_components := _material_components self;
     _thermal_scattering := _thermal_scattering self;
     _material_number := _material_number self;
     _old_material_number := _old_material_number self;
     _is_atom_fraction := _is_atom_fraction self;
     _parameter_string := Some s |}.

Definition set_component (i : Isotope) (c : MaterialComponent Isotope)
    (self : Material) : Material :=
  {| card := card self; _problem := _problem self;
     _material_components := dict_set i c (_material_components self);
     _thermal_scattering := _thermal_scattering self;
     _material_number := _material_number self;
     _old_material_number := _old_material_number self;
     _is_atom_fraction := _is_atom_fraction self;
     _parameter_string := _parameter_string self |}.

(** [MaterialComponent(isotope, fraction)] *)
Definition MaterialComponent_init (isotope : Isotope) (fraction : Q)
    : result (MaterialComponent Isotope) :=
  MaterialComponent_check isotope fraction ;;
  Ok {| isotope := isotope; fraction := fraction |}.

(** The body of [for isotope_str in words_iter] in [__init__], with the
    words the iterator still holds, the number of isotopes made so far
    and the local [fraction], which is unbound until the first fraction
    is read. [next(words_iter)] on an exhausted iterator raises
    [StopIteration], which no handler catches. The handler of
    [ValueError] reads [fraction] as the last assignment left it: the
    word when [fortran_float] raised, the float of the round before
    when [Isotope] did, and nothing in the first round, where reading it
    raises [UnboundLocalError]. What the handlers do not catch
    propagates, as does what [MaterialComponent] raises outside the
    [try]. *)
Fixpoint parse_components (words_iter : list string) (set_atom_frac : bool)
    (made : nat) (fraction : option Q) (self : Material) : result Material :=
  match words_iter with
  | [] => Ok self
  | isotope_str :: words_iter =>
      match Isotope_init made isotope_str with
      | Raise e =>
          if decide (kind e = MalformedInputError) then
            Ok (set_parameter_string
                  (default "" (_parameter_string self)
                   +:+ Str.join " " (isotope_str :: words_iter)) self)
          else if decide (kind e = ValueError) then
            match fraction with
            | Some fraction =>
                raise MalformedInputError
                  (float_str fraction +:+ " could not be parsed as a material fraction")
            | None =>
                raise UnboundLocalError
                  "cannot access local variable 'fraction' where it is not associated with a value"
            end
          else Raise e
      | Ok isotope =>
          match words_iter with
          | [] => raise StopIteration ""
          | fraction_str :: words_iter =>
              match fortran_float fraction_str with
              | None =>
                  raise MalformedInputError
                    (fraction_str +:+ " could not be parsed as a material fraction")
              | Some fraction =>
                  self ←
                    (if negb set_atom_frac
                     then Ok (set_is_atom_fraction (Qgtb fraction 0) self)
                     else
                       let is_atom := default false (_is_atom_fraction self) in
                       if Qgtb fraction 0 && negb is_atom
                          || Qltb fraction 0 && is_atom
                       then raise MalformedInputError
                              "Material definitons cannot use atom and mass fraction at the same time"
                       else Ok self);
                  component ← MaterialComponent_init isotope (Qabs fraction);
                  parse_components words_iter true (S made) (Some fraction)
                    (set_component isotope component self)
              end
          end
      end
  end.

(** [Material.__init__] with an input *)
Definition __init__ (input : Input) (comment : comments_arg) : result Material :=
  let num := _input_number input in
  parse_components (tail (words input)) false 0 None
    {| card := MCNP_Card.__init__ (input_card input) comment;
       _problem := None;
       _material_components := [];
       _thermal_scattering := None;
       _material_number := num;
       _old_material_number := Some num;
       _is_atom_fraction := None;
       _parameter_string := Some "" |}.

(** [Material.__init__] without an input: the attributes assigned under
    [if input] stay unset. *)
Definition __init__blank (comment : option (list Comment)) : Material :=
  {| card := MCNP_Card.__init__blank comment;
     _problem := None;
     _material_components := [];
     _thermal_scattering := None;
     _material_number := -1;
     _old_material_number := None;
     _is_atom_fraction := None;
     _parameter_string := None |}.

(** The [number] setter *)
Definition number_setter (number : value) : method Material unit :=
  if negb (isinstance_int number) then raise_m TypeError "number must be an int"
  else if int_of number <=? 0 then raise_m ValueError "number must be > 0"
  else
    problem ←ₘ read _problem;
    (match problem with
     | Some problem => lift_m (check_number (materials problem) (int_of number))
     | None => ret_m tt
     end) ;;ₘ
    assign (λ self, set_card (set_mutated (card self)) self) ;;ₘ
    assign (set_material_number (int_of number)).

#[export] Instance Material_numbered : Numbered_MCNP_Object Material := {|
  Numbered.number := _material_number;
  Numbered.old_number := _old_material_number;
  Numbered.number_setter := number_setter;
  Numbered.collection := λ self, materials <$> _problem self
|}.

(** [Material.validate] *)
Definition validate (self : Material) : result unit :=
  if (length (_material_components self) =? 0)%nat
  then raise IllegalState
         ("Material: " +:+ pretty (_material_number self)
          +:+ " does not have any components defined.")
  else Ok tt.

Definition component_of (self : Material) (i : Isotope)
    : result (MaterialComponent Isotope) :=
  match dict_get i (_material_components self) with
  | Some c => Ok c
  | None => raise KeyError ""
  end.

(** [Material.format_for_mcnp_input]. [MCNP_Object.format_for_mcnp_input]
    is the method of [mcnp_card.py]. *)
Definition format_for_mcnp_input (self : Material) (mcnp_version : version)
    : result (list string) :=
  validate self ;;
  let ret := MCNP_Card.format_for_mcnp_input (card self) mcnp_version in
  ret ←
    (if mutated self then
       let sorted_isotopes := sorted Isotope_lt (fst <$> _material_components self) in
       match sorted_isotopes with
       | [] => raise IndexError "list index out of range"
       | first :: rest =>
           first_component ← component_of self first;
           rest_lines ←
             mapM (λ i,
                     component ← component_of self i;
                     Ok (Str.rjust 18 (mcnp_str (isotope component)) +:+ " "
                         +:+ Str.rjust 11 (format_4g (fraction component))))
                  rest;
           Ok (ret
               ++ ["m" +:+ Str.ljust 8 (pretty (_material_number self)) +:+ " "
                   +:+ Str.rjust 8 (mcnp_str (isotope first_component)) +:+ " "
                   +:+ Str.rjust 11 (format_4g (fraction first_component))]
               ++ rest_lines)
       end
     else Ok (_format_for_mcnp_unmutated (card self) mcnp_version));
  Ok (match _thermal_scattering self with
      | Some law => ret ++ law_format law mcnp_version
      | None => ret
      end).

(** [Material.__hash__]: [temp_hash] starts as the empty string and is
    an integer from the first isotope on. *)
Definition __hash__ (self : Material) : Z :=
  let sorted_isotopes := sorted Isotope_lt (fst <$> _material_components self) in
  let temp_hash :=
    foldl (λ temp_hash isotope,
             HInt (hash (HTuple3
               temp_hash
               (HStr (Isotope_str isotope))
               (HFloat (default 0%Q
                          (fraction <$> dict_get isotope (_material_components self)))))))
          (HStr "") sorted_isotopes in
  hash (HTuple2 temp_hash (HInt (_material_number self))).

(** [Material.__eq__] *)
Definition __eq__ (self other : Material) : bool :=
  bool_decide (__hash__ self = __hash__ other).

End material.

(** *** Thermal scattering pointers and element names *)

(** [ThermalScatteringLaw.old_number]: the material number an [MT] input
    was read with. *)
Class ThermalScatteringNumber (Law : Type) := law_old_number : Law → Z.

(** What [_get_material_elements] reads of an isotope: [isotope.element],
    a member of a hashable class, and [element.name]. *)
Class ElementClass (Isotope Element : Type) := {
  Element_eq_dec :: EqDecision Element;
  element : Isotope → Element;
  element_name : Element → string
}.

(** An item of the list of data inputs of a problem: a
    [ThermalScatteringLaw], or an input of another class. *)
Inductive data_input (Law Other : Type) :=
| MT (law : Law)
| OtherInput (other : Other).
Arguments MT {Law Other} law.
Arguments OtherInput {Law Other} other.

#[global] Instance data_input_eq_dec {Law Other}
  `{EqDecision Law} `{EqDecision Other} : EqDecision (data_input Law Other).
Proof. solve_decision. Defined.

(** [xs.remove(x)]: the first item equal to [x] is taken out;
    [ValueError] when there is none. *)
Fixpoint list_remove {A} `{EqDecision A} (x : A) (xs : list A) : result (list A) :=
  match xs with
  | [] => raise ValueError "list.remove(x): x not in list"
  | y :: ys => if decide (x = y) then Ok ys else (y ::.) <$> list_remove x ys
  end.

Section pointers.
Context {Isotope Law Other Element : Type}.
Context `{IsotopeClass Isotope} `{ThermalScatteringNumber Law}.
Context `{EqDecision Law} `{EqDecision Other} `{ElementClass Isotope Element}.

#[local] Abbreviation Material := (Material Isotope Law).

Definition set_thermal_scattering (law : Law) (self : Material) : Material :=
  {| card := card self; _problem := _problem self;
     _material_components := _material_components self;
     _thermal_scattering := Some law;
     _material_number := _material_number self;
     _old_material_number := _old_material_number self;
     _is_atom_fraction := _is_atom_fraction self;
     _parameter_string := _parameter_string self |}.

(** The loop of [update_pointers] over the copy [list(data_inputs)]; the
    state is the material and the caller's list. A law object counts as
    true in [if not self._thermal_scattering]. The law that the material
    takes is the object that was in the list: its [_parent_material] is
    the material that holds it. *)
Fixpoint update_pointers_loop (inputs : list (data_input Law Other))
    : method (Material * list (data_input Law Other)) unit :=
  match inputs with
  | [] => ret_m tt
  | input :: inputs =>
      (match input with
       | MT law =>
           λ '(self, data_inputs),
             if decide (law_old_number law = _material_number self) then
               match _thermal_scattering self with
               | None =>
                   let self := set_thermal_scattering law self in
                   match list_remove input data_inputs with
                   | Ok data_inputs => (Ok tt, (self, data_inputs))
                   | Raise e => (Raise e, (self, data_inputs))
                   end
               | Some _ =>
                   (raise MalformedInputError
                      "Multiple MT inputs were specified for this material.",
                    (self, data_inputs))
               end
             else (Ok tt, (self, data_inputs))
       | OtherInput _ => ret_m tt
       end) ;;ₘ
      update_pointers_loop inputs
  end.

(** [Material.update_pointers] *)
Definition update_pointers
    : method (Material * list (data_input Law Other)) unit :=
  λ '(self, data_inputs), update_pointers_loop data_inputs (self, data_inputs).

(** The order of the tuples [(iso, component.fraction)]: by isotope, and
    by fraction between equal isotopes. *)
Definition component_lt (x y : Isotope * Q) : bool :=
  if decide (x.1 = y.1) then Qltb x.2 y.2 else Isotope_lt x.1 y.1.

(** [Material._get_material_elements] *)
Definition _get_material_elements (self : Material) : list string :=
  let sortable_components :=
    (λ '(iso, component), (iso, fraction component)) <$> _material_components self in
  let sorted_comps := sorted component_lt sortable_components in
  (foldl (λ '(elements_set, elements) '(isotope, _),
            if decide (element isotope ∈ elements_set)
            then (elements_set, elements)
            else (element isotope :: elements_set,
                  elements ++ [element_name (element isotope)]))
         (([] : list Element), []) sorted_comps).2.

End pointers.

End Material.

(** ** [mcnpy/data_inputs/lattice_input.py] *)

Module LatticeInput.
Import MCNP_Card.

(** Modelled from the spec: [mcnpy.data_inputs.lattice.Lattice], which is
    not among the source files, is the enumeration of the two lattice
    kinds the format knows, with the values 1 and 2 (the source reports
    "Cell Lattice must be 1 or 2"); [Lattice(n)] raises [ValueError] for
    any other [n]. *)
Inductive Lattice := HEXAHEDRA | HEXAGONAL.

#[global] Instance Lattice_eq_dec : EqDecision Lattice.
Proof. solve_decision. Defined.

Definition Lattice_of (n : Z) : result Lattice :=
  if n =? 1 then Ok HEXAHEDRA
  else if n =? 2 then Ok HEXAGONAL
  else raise ValueError (pretty n +:+ " is not a valid Lattice").

(** An entry of a data-block [LAT] input: a lattice, or a [Jump]. *)
Inductive entry :=
| Value (lattice : Lattice)
| Jump.

#[global] Instance entry_eq_dec : EqDecision entry.
Proof. solve_decision. Defined.

(** [self._lattice]: [None], one [Lattice] (cell block), or the list of
    entries of a data-block input. *)
Inductive lattice_attr :=
| NoLattice
| One (lattice : Lattice)
| Many (entries : list entry).

Record LatticeInput := {
  card : MCNP_Card;
  _in_cell_block : bool;
  _set_in_cell_block : bool;
  _lattice : lattice_attr;
  _starting_num_cells : option nat
}.

(** What [LatticeInput] reaches of a problem: its cells, each with the
    [LatticeInput] of its own cell card ([cell._lattice]). *)
Record Cell := {
  cell_number : Z;
  cell_lattice_input : LatticeInput
}.

Record Problem := { cells : list Cell }.

Definition set_lattice_attr (v : lattice_attr) (self : LatticeInput) : LatticeInput :=
  {| card := set_mutated (card self);
     _in_cell_block := _in_cell_block self;
     _set_in_cell_block := _set_in_cell_block self;
     _lattice := v;
     _starting_num_cells := _starting_num_cells self |}.

Definition set_starting_num_cells (n : nat) (self : LatticeInput) : LatticeInput :=
  {| card := card self;
     _in_cell_block := _in_cell_block self;
     _set_in_cell_block := _set_in_cell_block self;
     _lattice := _lattice self;
     _starting_num_cells := Some n |}.

(** What a caller can assign to [lattice]: a [Lattice] or any other value. *)
Inductive lattice_arg :=
| ALattice (lattice : Lattice)
| AValue (v : value).

(** The [lattice] setter *)
Definition lattice_setter (value : lattice_arg) : method LatticeInput unit :=
  match value with
  | ALattice l => assign (set_lattice_attr (One l))
  | AValue PyNone => assign (set_lattice_attr NoLattice)
  | AValue v =>
      if isinstance_int v then
        match Lattice_of (int_of v) with
        | Ok l => assign (set_lattice_attr (One l))
        | Raise _ => raise_m ValueError "Value: {value} is not a valid Lattice number"
        end
      else raise_m TypeError
             "lattice must be set to a Lattice, or an integer, {value} given"
  end.

(** The [lattice] deleter *)
Definition lattice_deleter : method LatticeInput unit :=
  assign (set_lattice_attr NoLattice).

(** Modelled from the spec: [Cell.lattice = value], of the cell class
    that is not among the source files; the cell hands the value to the
    setter of its own lattice input. *)
Definition cell_lattice_setter (value : lattice_arg) : method Cell unit :=
  λ cell,
    let '(r, input) := lattice_setter value (cell_lattice_input cell) in
    (r, {| cell_number := cell_number cell; cell_lattice_input := input |}).

(** Modelled from the spec: [CellModifierInput._check_redundant_definitions],
    not among the source files; an attribute given in the data block must
    not also be set on a cell card. *)
Definition _check_redundant_definitions (cells : list Cell) : result unit :=
  match filter (λ c, _set_in_cell_block (cell_lattice_input c) = true) cells with
  | [] => Ok tt
  | c :: _ =>
      raise RedundantDefinitionError
        ("Cell: " +:+ pretty (cell_number c)
         +:+ " provides LAT data when those data were in the data block")
  end.

(** The loop of [push_to_cells] over
    [itertools.zip_longest(cells, self._lattice, fillvalue=None)]; the
    cell of the [i]-th pair is the [i]-th cell of the problem, and is
    updated in place. A pair past the last cell has [cell = None], on
    which the assignment raises [AttributeError]. *)
Fixpoint push_pairs (i : nat) (pairs : list (option Cell * option entry))
    : method (list Cell) unit :=
  match pairs with
  | [] => ret_m tt
  | (cell, lattice) :: pairs =>
      (match lattice with
       | Some (Value l) =>
           match cell with
           | Some cell =>
               λ cells,
                 let '(r, cell') := cell_lattice_setter (ALattice l) cell in
                 (r, <[i := cell']> cells)
           | None =>
               raise_m AttributeError "'NoneType' object has no attribute 'lattice'"
           end
       | Some Jump | None => ret_m tt
       end) ;;ₘ
      push_pairs (S i) pairs
  end.

(** [LatticeInput.push_to_cells]: the state is the input and the problem
    it belongs to, if any. *)
Definition push_to_cells : method (LatticeInput * option Problem) unit :=
  λ '(self, problem),
    match problem with
    | Some problem =>
        if negb (_in_cell_block self) then
          let self := set_starting_num_cells (length (cells problem)) self in
          let iterate (entries : option (list entry)) :=
            match _check_redundant_definitions (cells problem) with
            | Raise e => (Raise e, (self, Some problem))
            | Ok _ =>
                match entries with
                | None =>
                    (raise TypeError "'Lattice' object is not iterable",
                     (self, Some problem))
                | Some entries =>
                    let '(r, cells') :=
                      push_pairs 0 (zip_longest (cells problem) entries)
                        (cells problem) in
                    (r, (self, Some {| cells := cells' |}))
                end
            end in
          match _lattice self with
          | NoLattice | Many [] => (Ok tt, (self, Some problem))
          | One _ => iterate None
          | Many entries => iterate (Some entries)
          end
        else (Ok tt, (self, Some problem))
    | None => (Ok tt, (self, None))
    end.

(** [LatticeInput.merge] *)
Definition merge (other : LatticeInput) : method LatticeInput unit :=
  raise_m MalformedInputError "Cannot have two lattice inputs for the problem".

(** *** Reading a [LAT] input *)

(** What [__init__] reads of a [ValueNode] of the parser: the integer its
    [value] is after [_convert_to_int] ([None] when that raises
    [ValueError]), and its text. *)
Class ValueNodeClass (ValueNode : Type) := {
  _convert_to_int : ValueNode → option Z;
  ValueNode_str : ValueNode → string
}.

(** A word of [self.data]: a [ValueNode], a [Jump], or an object of
    another class, given by its text. *)
Inductive word (ValueNode : Type) :=
| WordValue (node : ValueNode)
| WordJump
| WordOther (text : string).
Arguments WordValue {ValueNode} node.
Arguments WordJump {ValueNode}.
Arguments WordOther {ValueNode} text.

(** [self._lattice = v], which sets no flag *)
Definition assign_lattice (v : lattice_attr) (self : LatticeInput) : LatticeInput :=
  {| card := card self;
     _in_cell_block := _in_cell_block self;
     _set_in_cell_block := _set_in_cell_block self;
     _lattice := v;
     _starting_num_cells := _starting_num_cells self |}.

Section init.
Context {ValueNode : Type} `{ValueNodeClass ValueNode}.

(** [Lattice(value.value)] after [value._convert_to_int()]: [None] when
    one of the two raises [ValueError]. *)
Definition lattice_of_node (node : ValueNode) : option Lattice :=
  n ← _convert_to_int node;
  match Lattice_of n with
  | Ok lattice => Some lattice
  | Raise _ => None
  end.

(** The loop [for word in words] of [__init__], with the list built so far. *)
Fixpoint parse_words (words : list (word ValueNode)) (lattice : list entry)
    : result (list entry) :=
  match words with
  | [] => Ok lattice
  | WordValue node :: words =>
      match lattice_of_node node with
      | Some l => parse_words words (lattice ++ [Value l])
      | None =>
          raise MalformedInputError
            ("Cell lattice must be 1 or 2. " +:+ ValueNode_str node +:+ " given.")
      end
  | WordJump :: words => parse_words words (lattice ++ [Jump])
  | WordOther text :: words =>
      raise TypeError
        ("Word: " +:+ text +:+ " cannot be parsed as a lattice as a str, or Jump")
  end.

(** [LatticeInput.__init__] after [super().__init__]: [self] is the
    object as the base class leaves it, [input] the words [self.data] of
    the input if there is one, [val] is [value["data"][0]]. *)
Definition __init__ (self : LatticeInput) (input : option (list (word ValueNode)))
    (key : option string) (val : ValueNode) : result LatticeInput :=
  let self := assign_lattice NoLattice self in
  if _in_cell_block self then
    match key with
    | Some (String _ _) =>
        match lattice_of_node val with
        | Some lattice => Ok (assign_lattice (One lattice) self)
        | None => raise ValueError "Cell Lattice must be 1 or 2"
        end
    | _ => Ok self
    end
  else
    match input with
    | Some words =>
        lattice ← parse_words words [];
        Ok (assign_lattice (Many lattice) self)
    | None => Ok self
    end.

End init.

End LatticeInput.

(** ** Instances for running the definitions on concrete cards

    The classes above stand for code outside the four modules. The
    instances here are small stand-ins with which the definitions compute
    on examples: an isotope is an object with its ZAID word, a fraction a
    plain decimal, a comment is written as its lines behind ["C "]. *)

Module Demo.
Import TextWrap MCNP_Card Material.

Definition is_digit (c : ascii) : bool :=
  let n := N_of_ascii c in ((48 <=? n) && (n <=? 57))%N.

Fixpoint has_dot (s : string) : bool :=
  match s with
  | EmptyString => false
  | String c s' => Ascii.eqb c "."%char || has_dot s'
  end.

(** An isotope object: its identity and its ZAID word. A word that
    starts with a digit makes an isotope; of the others, one with a dot
    is refused with [ValueError] and one without with
    [MalformedInputError]. Isotopes are ordered by their words. *)
Definition zaid : Type := nat * string.

#[export] Instance zaid_isotope : IsotopeClass zaid := {|
  Isotope_init := λ made s,
    match s with
    | String c _ =>
        if is_digit c then Ok (made, s)
        else if has_dot s
        then raise ValueError ("ZAID: " +:+ s +:+ " could not be parsed as a valid isotope")
        else raise MalformedInputError s
    | EmptyString => raise MalformedInputError s
    end;
  Isotope_lt := λ a b, String.ltb a.2 b.2;
  Isotope_str := snd;
  mcnp_str := snd
|}.

(** A component needs a fraction above 0. *)
Definition positive_fraction (isotope : zaid) (fraction : Q) : result unit :=
  if Qle_bool fraction 0 then raise ValueError "fraction must be > 0" else Ok tt.

Lemma positive_fraction_zero (isotope : zaid) (fraction : Q) :
  (fraction == 0)%Q → raises (positive_fraction isotope fraction) ValueError.
Proof.
  intros Hzero. unfold positive_fraction.
  assert (Qle_bool fraction 0 = true) as ->; [|by eexists].
  apply Qle_bool_iff. rewrite Hzero. apply Qle_refl.
Qed.

#[export] Instance positive_component : MaterialComponentClass zaid := {|
  MaterialComponent_check := positive_fraction;
  MaterialComponent_zero := positive_fraction_zero
|}.

Fixpoint decimal (s : string) (num : Z) (den : positive) (after_dot : bool)
    : option Q :=
  match s with
  | EmptyString => Some (num # den)
  | String c s' =>
      if Ascii.eqb c "."%char
      then if after_dot then None else decimal s' num den true
      else if is_digit c
           then decimal s' (10 * num + Z.of_N (N_of_ascii c - 48))
                  (if after_dot then 10 * den else den) after_dot
           else None
  end.

#[export] Instance decimal_float : Utilities := λ s,
  match s with
  | EmptyString => None
  | String c s' =>
      if Ascii.eqb c "-"%char then Qopp <$> decimal s' 0 1 false
      else decimal s 0 1 false
  end.

#[export] Instance ratio_format : FloatFormat := λ q,
  pretty (Qnum q) +:+ "/" +:+ pretty (Z.pos (Qden q)).

#[export] Instance ratio_str : FloatStr := λ q,
  pretty (Qnum q) +:+ "/" +:+ pretty (Z.pos (Qden q)).

#[export] Instance lines_law : ThermalScatteringClass (list string) := λ law _, law.

#[export] Instance c_comment : CommentFormat := λ c _, (λ l, "C " +:+ l) <$> lines c.

Fixpoint sum_hash (h : hashable) : Z :=
  match h with
  | HStr s => Z.of_nat (String.length s)
  | HInt z => z
  | HFloat q => Qnum q + Z.pos (Qden q)
  | HTuple2 a b => 31 * sum_hash a + sum_hash b
  | HTuple3 a b c => 31 * (31 * sum_hash a + sum_hash b) + sum_hash c
  end.

#[export] Instance demo_hash : PyHash := sum_hash.

#[export] Existing Instance split_plain.

Definition DemoMaterial := Material.Material zaid (list string).

(** The card [m1 1001.80c 0.5 8016.80c 0.5] *)
Definition water_input : Input := {|
  input_card := {| input_lines := ["m1 1001.80c 0.5 8016.80c 0.5"] |};
  words := ["m1"; "1001.80c"; "0.5"; "8016.80c"; "0.5"];
  _input_number := 1
|}.

(** A mass-fraction card, one that switches convention, and one whose
    first fraction is 0 *)
Definition steel_input : Input := {|
  input_card := {| input_lines := ["m3 26056.80c -0.75 6012.80c -0.25"] |};
  words := ["m3"; "26056.80c"; "-0.75"; "6012.80c"; "-0.25"];
  _input_number := 3
|}.

Definition mixed_input : Input := {|
  input_card := {| input_lines := ["m4 26056.80c -0.75 6012.80c 0.25"] |};
  words := ["m4"; "26056.80c"; "-0.75"; "6012.80c"; "0.25"];
  _input_number := 4
|}.

Definition zero_first_input (last : string) : Input := {|
  input_card := {| input_lines := ["m5 1001.80c 0 8016.80c " +:+ last] |};
  words := ["m5"; "1001.80c"; "0"; "8016.80c"; last];
  _input_number := 5
|}.

(** The card [m2] with no component *)
Definition empty_input : Input := {|
  input_card := {| input_lines := ["m2"] |};
  words := ["m2"];
  _input_number := 2
|}.

(** A material as [__init__] leaves it, linked to a problem whose
    materials hold the numbers in [held]; the material is one of them
    when its number is in [held]. *)
Definition linked (held : gset Z) (m : DemoMaterial) : DemoMaterial :=
  {| Material.card := Material.card m;
     _problem := Some {| materials := {| Numbered.numbers := held |};
                         holds_self := bool_decide (_material_number m ∈ held) |};
     _material_components := _material_components m;
     _thermal_scattering := _thermal_scattering m;
     _material_number := _material_number m;
     _old_material_number := _old_material_number m;
     _is_atom_fraction := _is_atom_fraction m;
     _parameter_string := _parameter_string m |}.

Definition parsed (input : Input) : DemoMaterial :=
  match Material.__init__ input NoComments with
  | Ok m => m
  | Raise _ => Material.__init__blank None
  end.

(** Proves that given words are read as isotopes and fractions. *)
Ltac solve_component_words :=
  repeat constructor; simpl;
  try (intros ?; eexists; reflexivity); try (eexists; reflexivity).

End Demo.

(** * Properties *)

(** ** Lattice inputs *)

Module LatticeInputFacts.
Import MCNP_Card LatticeInput.

(** The data-block input [LAT 1 1 2] as parsing leaves it. *)
Definition data_block (line : string) (entries : list entry) : LatticeInput := {|
  card := MCNP_Card.__init__ {| input_lines := [line] |} NoComments;
  _in_cell_block := false;
  _set_in_cell_block := false;
  _lattice := Many entries;
  _starting_num_cells := None
|}.

Definition lat_1_1_2 : LatticeInput :=
  data_block "LAT 1 1 2" [Value HEXAHEDRA; Value HEXAHEDRA; Value HEXAGONAL].

Definition lat_1_2 : LatticeInput :=
  data_block "LAT 1 2" [Value HEXAHEDRA; Value HEXAGONAL].

(** A cell whose own card says nothing about its lattice. *)
Definition plain_cell (n : Z) : Cell := {|
  cell_number := n;
  cell_lattice_input := {|
    card := MCNP_Card.__init__ {| input_lines := [pretty n +:+ " 0 -1"] |} NoComments;
    _in_cell_block := true;
    _set_in_cell_block := false;
    _lattice := NoLattice;
    _starting_num_cells := None
  |}
|}.

(** The lattice a cell carries after [push_to_cells]. *)
Definition lattice_of_cell (c : Cell) : lattice_attr :=
  _lattice (cell_lattice_input c).

(** C4, as amended: merging a second [LAT] data input into one already
    declared for the problem always fails, with [MalformedInputError]
    and the message of the source, and leaves the first input as it was. *)
Theorem merge_raises_MalformedInputError (self other : LatticeInput) :
  merge other self
  = (raise MalformedInputError "Cannot have two lattice inputs for the problem",
     self).
Proof. reflexivity. Qed.

(** C4 as stated does not hold: the error of [merge] is not a
    [RedundantDefinitionError]. *)
Lemma merge_not_RedundantDefinitionError :
  ¬ raises (merge lat_1_2 lat_1_1_2).1 RedundantDefinitionError.
Proof. cbn. discriminate. Qed.

(** C5: with one cell and the two entries of [LAT 1 2], the second pair
    of [zip_longest] has no cell; [push_to_cells] raises [AttributeError]
    after it has given the first cell its lattice. *)
Theorem push_to_cells_entry_past_last_cell :
  ∃ msg self' cell',
    push_to_cells (lat_1_2, Some {| cells := [plain_cell 1] |})
    = (raise AttributeError msg, (self', Some {| cells := [cell'] |}))
    ∧ lattice_of_cell cell' = One HEXAHEDRA.
Proof. do 3 eexists. split; [vm_compute; reflexivity | reflexivity]. Qed.

(** The cell after [cell.lattice = lattice]. *)
Definition with_lattice (lattice : Lattice) (cell : Cell) : Cell :=
  {| cell_number := cell_number cell;
     cell_lattice_input := set_lattice_attr (One lattice) (cell_lattice_input cell) |}.

(** The cells paired with the entries of the list, position by
    position: a cell whose entry is a lattice receives it, a cell whose
    entry is a jump, or that has no entry, stays as it is. *)
Fixpoint push_each (cells : list Cell) (entries : list entry) : list Cell :=
  match cells, entries with
  | cell :: cells', Value lattice :: entries' =>
      with_lattice lattice cell :: push_each cells' entries'
  | cell :: cells', Jump :: entries' => cell :: push_each cells' entries'
  | _, _ => cells
  end.

Lemma push_pairs_jumps (entries : list entry) (i : nat) (cells : list Cell) :
  Forall (λ e, e = Jump) entries →
  push_pairs i (zip_longest [] entries) cells = (Ok tt, cells).
Proof.
  intros Hjumps. revert i.
  induction Hjumps as [|e entries -> _ IH]; intros i; [done|].
  simpl. unfold bind_m, ret_m. simpl. apply IH.
Qed.

Lemma push_pairs_no_entries (rest : list Cell) :
  ∀ (i : nat) (cells : list Cell),
    push_pairs i (zip_longest rest ([] : list entry)) cells = (Ok tt, cells).
Proof.
  induction rest as [|c rest IH]; intros i cells; [done|].
  simpl. unfold bind_m, ret_m. simpl. apply IH.
Qed.

(** The result of the loop: an error when a lattice stands past the
    last cell. *)
Definition push_result (cells : list Cell) (entries : list entry) : result unit :=
  if decide (Forall (λ e, e = Jump) (drop (length cells) entries))
  then Ok tt
  else raise AttributeError "'NoneType' object has no attribute 'lattice'".

Lemma push_pairs_past_last_cell (entries : list entry) :
  ∀ (i : nat) (cells : list Cell),
    ¬ Forall (λ e, e = Jump) entries →
    push_pairs i (zip_longest [] entries) cells
    = (raise AttributeError "'NoneType' object has no attribute 'lattice'", cells).
Proof.
  induction entries as [|e entries IH]; intros i cells Hvalue.
  - destruct Hvalue. constructor.
  - destruct e as [l|]; [done|].
    simpl. unfold bind_m, ret_m. simpl. apply IH.
    intros Hjumps. apply Hvalue. by constructor.
Qed.

(** The loop of [push_to_cells]: the cells receive the entries position
    by position, whether or not the loop then raises. *)
Lemma push_pairs_positional (rest : list Cell) :
  ∀ (entries : list entry) (done : list Cell),
    push_pairs (length done) (zip_longest rest entries) (done ++ rest)
    = (push_result rest entries, done ++ push_each rest entries).
Proof.
  unfold push_result.
  induction rest as [|c rest IH]; intros entries done.
  - rewrite drop_0. case_decide.
    + rewrite push_pairs_jumps by done. by destruct entries.
    + rewrite push_pairs_past_last_cell by done. by destruct entries.
  - destruct entries as [|e entries].
    { rewrite push_pairs_no_entries. rewrite decide_True; [done|].
      rewrite drop_nil. constructor. }
    destruct e as [l|]; simpl; unfold bind_m, ret_m; simpl.
    + rewrite insert_app_r_alt, Nat.sub_diag by lia. simpl.
      specialize (IH entries (done ++ [with_lattice l c])).
      rewrite length_app, Nat.add_1_r, <- !app_assoc in IH. exact IH.
    + specialize (IH entries (done ++ [c])).
      rewrite length_app, Nat.add_1_r, <- !app_assoc in IH. exact IH.
Qed.

(** X2: what [push_to_cells] does for a data-block input of a problem
    none of whose cells sets the lattice on its own card: the cells receive the
    entries of the list position by position ([push_each]: a lattice is
    assigned, a jump and a missing entry leave the cell as it is), and
    the call raises [AttributeError] exactly when a lattice stands past
    the last cell. *)
Theorem push_to_cells_positional (self : LatticeInput) (problem : Problem)
    (entries : list entry) :
  _in_cell_block self = false →
  _lattice self = Many entries →
  Forall (λ c, _set_in_cell_block (cell_lattice_input c) = false) (cells problem) →
  push_to_cells (self, Some problem)
  = (push_result (cells problem) entries,
     (set_starting_num_cells (length (cells problem)) self,
      Some {| cells := push_each (cells problem) entries |})).
Proof.
  intros Hblock Hlattice Hcells. unfold push_to_cells.
  rewrite Hblock. simpl. rewrite Hlattice.
  destruct entries as [|e entries].
  { unfold push_result. rewrite drop_nil, decide_True by constructor.
    f_equal. f_equal. destruct problem as [cells]. simpl. by destruct cells. }
  unfold _check_redundant_definitions.
  assert (filter (λ c, _set_in_cell_block (cell_lattice_input c) = true)
                 (cells problem) = []) as ->.
  { apply elem_of_nil_inv. intros c [Hset Hin]%list_elem_of_filter.
    rewrite Forall_forall in Hcells. specialize (Hcells c Hin). congruence. }
  pose proof (push_pairs_positional (cells problem) (e :: entries) []) as Hloop.
  simpl in Hloop. by rewrite Hloop.
Qed.

(** On three plain cells, [LAT 1 1 2] gives each cell its lattice and
    [LAT 1 J] leaves the second and the third alone; on one cell,
    [LAT 1 2] raises. *)
Lemma push_to_cells_positional_witness :
  (push_to_cells (lat_1_1_2, Some {| cells := plain_cell <$> [1; 2; 3] |})).1 = Ok tt
  ∧ lattice_of_cell
    <$> push_each (plain_cell <$> [1; 2; 3])
          [Value HEXAHEDRA; Value HEXAHEDRA; Value HEXAGONAL]
    = [One HEXAHEDRA; One HEXAHEDRA; One HEXAGONAL]
  ∧ lattice_of_cell <$> push_each (plain_cell <$> [1; 2; 3]) [Value HEXAHEDRA; Jump]
    = [One HEXAHEDRA; NoLattice; NoLattice]
  ∧ raises (push_to_cells (lat_1_2, Some {| cells := [plain_cell 1] |})).1 AttributeError.
Proof.
  split_and!.
  - rewrite (push_to_cells_positional lat_1_1_2
               {| cells := plain_cell <$> [1; 2; 3] |}
               [Value HEXAHEDRA; Value HEXAHEDRA; Value HEXAGONAL]
               eq_refl eq_refl).
    + reflexivity.
    + repeat constructor.
  - reflexivity.
  - reflexivity.
  - rewrite (push_to_cells_positional lat_1_2 {| cells := [plain_cell 1] |}
               [Value HEXAHEDRA; Value HEXAGONAL] eq_refl eq_refl).
    + reflexivity.
    + repeat constructor.
Defined.

End LatticeInputFacts.

(** ** Materials: the number setter and validation *)

Module MaterialFacts.
Import MCNP_Card Numbered Material.

Section setter.
Context {Isotope Law : Type}.
Context `{IsotopeClass Isotope} `{Utilities} `{FloatFormat}.
Context `{ThermalScatteringClass Law} `{CommentFormat} `{PyHash}.

#[local] Abbreviation Material := (Material.Material Isotope Law).

(** The material after an accepted [number = n]. *)
Definition renumbered (n : Z) (self : Material) : Material :=
  set_material_number n (set_card (set_mutated (card self)) self).

(** The calls [self.number = v] for each [v] of [calls], in order, each
    error caught by the caller. *)
Definition assign_numbers (calls : list value) (self : Material) : Material :=
  foldl (λ self v, (number_setter v self).2) self calls.

Lemma number_setter_cases (number : value) (self : Material) :
  number_setter number self
  = if negb (isinstance_int number)
    then (raise TypeError "number must be an int", self)
    else if int_of number <=? 0
    then (raise ValueError "number must be > 0", self)
    else match _problem self with
         | Some problem =>
             if decide (int_of number ∈ numbers (materials problem))
             then (raise NumberConflictError
                     ("Number " +:+ pretty (int_of number) +:+ " is already in use"),
                   self)
             else (Ok tt, renumbered (int_of number) self)
         | None => (Ok tt, renumbered (int_of number) self)
         end.
Proof.
  unfold number_setter.
  destruct (isinstance_int number); simpl; [|done].
  destruct (int_of number <=? 0); [done|].
  unfold bind_m, read, lift_m, assign, ret_m, check_number; simpl.
  destruct (_problem self) as [problem|]; [|done].
  destruct (decide (int_of number ∈ numbers (materials problem))); done.
Qed.

(** C6: the number setter raises [TypeError] for an argument that is not
    an int, [ValueError] for an int that is not positive, and
    [NumberConflictError] for a number the registry holds. It raises
    nothing else, and whenever it raises the material is exactly as
    before the call (its number and its mutated flag included). Every
    other call returns and sets the number, so only a valid,
    conflict-free assignment changes it; a sequence of calls that all
    raise leaves the material unchanged. *)
Theorem number_setter_errors_leave_material (self : Material) (number : value) :
  (isinstance_int number = false →
     number_setter number self = (raise TypeError "number must be an int", self))
  ∧ (isinstance_int number = true → int_of number ≤ 0 →
     number_setter number self = (raise ValueError "number must be > 0", self))
  ∧ (∀ problem, isinstance_int number = true → 0 < int_of number →
     _problem self = Some problem →
     int_of number ∈ numbers (materials problem) →
     ∃ msg, number_setter number self = (raise NumberConflictError msg, self))
  ∧ (isinstance_int number = true → 0 < int_of number →
     (∀ problem, _problem self = Some problem →
                 int_of number ∉ numbers (materials problem)) →
     number_setter number self = (Ok tt, renumbered (int_of number) self)
     ∧ _material_number (renumbered (int_of number) self) = int_of number)
  ∧ (∀ e self', number_setter number self = (Raise e, self') →
     kind e ∈ [TypeError; ValueError; NumberConflictError]
     ∧ self' = self
     ∧ _material_number self' = _material_number self
     ∧ mutated self' = mutated self)
  ∧ (∀ calls : list value,
     Forall (λ v, ∃ e, (number_setter v self).1 = Raise e) calls →
     assign_numbers calls self = self).
Proof.
  assert (Herr : ∀ v e self', number_setter v self = (Raise e, self') → self' = self).
  { intros v e self'. rewrite number_setter_cases.
    repeat case_match; intros [= ? ?]; simplify_eq; done. }
  split_and!.
  - intros Hint. rewrite number_setter_cases, Hint. done.
  - intros Hint Hle. rewrite number_setter_cases, Hint. simpl.
    destruct (Z.leb_spec (int_of number) 0); [done|lia].
  - intros problem Hint Hpos Hp Hin. rewrite number_setter_cases, Hint, Hp. simpl.
    destruct (Z.leb_spec (int_of number) 0); [lia|].
    rewrite decide_True by done. eauto.
  - intros Hint Hpos Hfree. split; [|done].
    rewrite number_setter_cases, Hint. simpl.
    destruct (Z.leb_spec (int_of number) 0); [lia|].
    destruct (_problem self) as [problem|] eqn:Hp; [|done].
    rewrite decide_False; [done|]. by apply Hfree.
  - intros e self' Hcall. split.
    + rewrite number_setter_cases in Hcall.
      destruct (negb (isinstance_int number));
        [injection Hcall as <- _; repeat constructor|].
      destruct (int_of number <=? 0);
        [injection Hcall as <- _; repeat constructor|].
      destruct (_problem self) as [problem|]; [|done].
      destruct (decide (int_of number ∈ numbers (materials problem))); [|done].
      injection Hcall as <- _. repeat constructor.
    + apply Herr in Hcall. by subst.
  - induction 1 as [|v calls [e He] _ IH]; [done|].
    unfold assign_numbers in *. simpl.
    destruct (number_setter v self) as [r s] eqn:Hv. simpl in He. subst r.
    apply Herr in Hv. subst s. exact IH.
Qed.

(** C8: a material with no component cannot be written: for any version
    [format_for_mcnp_input] raises [IllegalState] with a message that
    gives the material's number, whether the material is mutated or not. *)
Theorem format_without_components_is_illegal
    (self : Material) (mcnp_version : version) :
  _material_components self = [] →
  format_for_mcnp_input self mcnp_version
  = raise IllegalState
      ("Material: " +:+ pretty (_material_number self)
       +:+ " does not have any components defined.").
Proof.
  intros Hnone. unfold format_for_mcnp_input, validate. rewrite Hnone. done.
Qed.

End setter.

(** ** Materials: parsing the components *)

Section parsing.
Context {Isotope Law : Type}.
Context `{IsotopeClass Isotope} `{MaterialComponentClass Isotope}.
Context `{Utilities} `{FloatFormat} `{FloatStr}.
Context `{ThermalScatteringClass Law} `{CommentFormat} `{PyHash}.

#[local] Abbreviation Material := (Material.Material Isotope Law).

(** The words of a run of [isotope fraction] pairs. *)
Definition flatten (pairs : list (string * string)) : list string :=
  pairs ≫= λ p, [p.1; p.2].

(** A word of which [Isotope] makes an isotope, however many were made
    before. *)
Definition isotope_word (w : string) : Prop :=
  ∀ made, ∃ isotope, Isotope_init made w = Ok isotope.

(** A pair the loop reads as a component: the first word is an isotope,
    the second a number. *)
Definition component_words (p : string * string) : Prop :=
  isotope_word p.1 ∧ is_Some (fortran_float p.2).

(** The isotope and the float that the loop reads from each pair of
    words, [made] isotopes having been made before, up to the first pair
    it does not read as a component. *)
Fixpoint readings (made : nat) (words_iter : list string) : list (Isotope * Q) :=
  match words_iter with
  | isotope_str :: fraction_str :: words_iter =>
      match Isotope_init made isotope_str, fortran_float fraction_str with
      | Ok isotope, Some fraction =>
          (isotope, fraction) :: readings (S made) words_iter
      | _, _ => []
      end
  | _ => []
  end.

(** The component of a reading, and the dictionary after the components
    of the readings [rs] were stored into [d], one after the other. *)
Definition component_of_reading (r : Isotope * Q) : MaterialComponent Isotope :=
  {| isotope := r.1; fraction := Qabs r.2 |}.

Definition store_all (rs : list (Isotope * Q))
    (d : list (Isotope * MaterialComponent Isotope))
    : list (Isotope * MaterialComponent Isotope) :=
  foldl (λ d r, dict_set r.1 (component_of_reading r) d) d rs.

(** The material when the loop of [__init__] starts. *)
Definition started (input : Input) (comment : comments_arg) : Material :=
  {| card := MCNP_Card.__init__ (input_card input) comment;
     _problem := None;
     _material_components := [];
     _thermal_scattering := None;
     _material_number := _input_number input;
     _old_material_number := Some (_input_number input);
     _is_atom_fraction := None;
     _parameter_string := Some "" |}.

(** The value of the local [fraction] after a run of component pairs. *)
Definition fraction_after (fraction : option Q) (pairs : list (string * string))
    : option Q :=
  match last pairs with
  | Some p => fortran_float p.2
  | None => fraction
  end.

(** The sign convention: atom fractions are not negative, mass fractions
    not positive. *)
Definition agrees (is_atom : bool) (q : Q) : Prop :=
  if is_atom then (0 <= q)%Q else (q <= 0)%Q.

(** A fraction on the wrong side of the convention. *)
Definition conflicts (is_atom : bool) (q : Q) : Prop :=
  if is_atom then (q < 0)%Q else (0 < q)%Q.

Lemma result_bind_assoc {A B C} (r : result A) (f : A → result B) (g : B → result C) :
  (r ≫= f) ≫= g = r ≫= λ a, f a ≫= g.
Proof. by destruct r. Qed.

Lemma Qgtb_true (q : Q) : Qgtb q 0 = true ↔ (0 < q)%Q.
Proof.
  unfold Qgtb. rewrite negb_true_iff, <- not_true_iff_false, Qle_bool_iff.
  split; [apply Qnot_le_lt | apply Qlt_not_le].
Qed.

Lemma Qltb_true (q : Q) : Qltb q 0 = true ↔ (q < 0)%Q.
Proof.
  unfold Qltb. rewrite negb_true_iff, <- not_true_iff_false, Qle_bool_iff.
  split; [apply Qnot_le_lt | apply Qlt_not_le].
Qed.

Lemma Qgtb_false (q : Q) : Qgtb q 0 = false ↔ (q <= 0)%Q.
Proof. unfold Qgtb. by rewrite negb_false_iff, Qle_bool_iff. Qed.

Lemma Qltb_false (q : Q) : Qltb q 0 = false ↔ (0 <= q)%Q.
Proof. unfold Qltb. by rewrite negb_false_iff, Qle_bool_iff. Qed.

(** The test [(fraction > 0 and not atom) or (fraction < 0 and atom)] *)
Lemma switch_test (is_atom : bool) (q : Q) :
  Qgtb q 0 && negb is_atom || Qltb q 0 && is_atom = true ↔ conflicts is_atom q.
Proof.
  destruct is_atom; simpl.
  - rewrite andb_false_r, andb_true_r. simpl. apply Qltb_true.
  - rewrite andb_false_r, andb_true_r, orb_false_r. apply Qgtb_true.
Qed.

Lemma switch_test_false (is_atom : bool) (q : Q) :
  Qgtb q 0 && negb is_atom || Qltb q 0 && is_atom = false ↔ agrees is_atom q.
Proof.
  destruct is_atom; simpl.
  - rewrite andb_false_r, andb_true_r. simpl. apply Qltb_false.
  - rewrite andb_false_r, andb_true_r, orb_false_r. apply Qgtb_false.
Qed.

(** Lists of words are read two at a time. *)
Lemma pairs_ind (P : list string → Prop) :
  P [] → (∀ w, P [w]) → (∀ w1 w2 ws, P ws → P (w1 :: w2 :: ws)) →
  ∀ ws, P ws.
Proof.
  intros Hnil Hone Hstep ws.
  assert (P ws ∧ ∀ w, P (w :: ws)) as [? _]; [|done].
  induction ws as [|w ws [IH1 IH2]]; split; auto.
Qed.

(** The test of the sign convention in one round of the loop. *)
Definition convention_round (set_atom_frac : bool) (q : Q) (self : Material)
    : result Material :=
  if negb set_atom_frac
  then Ok (set_is_atom_fraction (Qgtb q 0) self)
  else if Qgtb q 0 && negb (default false (_is_atom_fraction self))
          || Qltb q 0 && default false (_is_atom_fraction self)
       then raise MalformedInputError
              "Material definitons cannot use atom and mass fraction at the same time"
       else Ok self.

(** One round of the loop on a pair of component words. *)
Lemma parse_components_pair (i f : string) (ws : list string) (iso : Isotope)
    (q : Q) (set_atom_frac : bool) (made : nat) (fr : option Q) (self : Material) :
  Isotope_init made i = Ok iso → fortran_float f = Some q →
  parse_components (i :: f :: ws) set_atom_frac made fr self
  = convention_round set_atom_frac q self
    ≫= λ self, MaterialComponent_init iso (Qabs q)
    ≫= λ component, parse_components ws true (S made) (Some q)
                      (set_component iso component self).
Proof. intros Hi Hf. simpl. rewrite Hi, Hf. done. Qed.

(** A word that [Isotope] refuses ends the loop. *)
Lemma parse_components_refused (w : string) (ws : list string) (e : exn)
    (set_atom_frac : bool) (made : nat) (fr : option Q) (self : Material) :
  Isotope_init made w = Raise e →
  parse_components (w :: ws) set_atom_frac made fr self
  = if decide (kind e = MalformedInputError) then
      Ok (set_parameter_string
            (default "" (_parameter_string self) +:+ Str.join " " (w :: ws)) self)
    else if decide (kind e = ValueError) then
      match fr with
      | Some fraction =>
          raise MalformedInputError
            (float_str fraction +:+ " could not be parsed as a material fraction")
      | None =>
          raise UnboundLocalError
            "cannot access local variable 'fraction' where it is not associated with a value"
      end
    else Raise e.
Proof. intros Hw. simpl. by rewrite Hw. Qed.

Lemma convention_round_frame (set_atom_frac : bool) (q : Q) (self self' : Material) :
  convention_round set_atom_frac q self = Ok self' →
  card self' = card self ∧ _problem self' = _problem self
  ∧ _material_components self' = _material_components self
  ∧ _thermal_scattering self' = _thermal_scattering self
  ∧ _material_number self' = _material_number self
  ∧ _old_material_number self' = _old_material_number self
  ∧ _parameter_string self' = _parameter_string self.
Proof.
  unfold convention_round. destruct (negb set_atom_frac); [by intros [= <-]|].
  case_match; [done|]. by intros [= <-].
Qed.

Lemma MaterialComponent_init_Ok (iso : Isotope) (q : Q)
    (component : MaterialComponent Isotope) :
  MaterialComponent_init iso q = Ok component →
  component = {| isotope := iso; fraction := q |} ∧ ¬ (q == 0)%Q.
Proof.
  unfold MaterialComponent_init. intros Hinit. split.
  - destruct (MaterialComponent_check iso q); [|done]. by injection Hinit as <-.
  - intros Hzero. apply (MaterialComponent_zero iso) in Hzero.
    by destruct (MaterialComponent_check iso q).
Qed.

Lemma Forall_dict_set {K V} `{EqDecision K} (P : V → Prop) (k : K) (v : V)
    (d : list (K * V)) :
  P v → Forall (λ kv, P kv.2) d → Forall (λ kv, P kv.2) (dict_set k v d).
Proof.
  intros Hv. induction 1 as [|[k' v'] d Hkv Hd IH]; simpl.
  - by repeat constructor.
  - case_decide; constructor; done.
Qed.

Lemma store_all_magnitudes (rs : list (Isotope * Q)) :
  ∀ d, Forall (λ kv, (0 <= fraction kv.2)%Q) d →
       Forall (λ kv, (0 <= fraction kv.2)%Q) (store_all rs d).
Proof.
  induction rs as [|r rs IH]; intros d Hd; [done|].
  apply IH. apply (Forall_dict_set (λ c, (0 <= fraction c)%Q)); [|done].
  apply Qabs_nonneg.
Qed.

(** The loop stores the component of each reading, in the order of the
    card. *)
Lemma parse_components_stores (ws : list string) :
  ∀ (set_atom_frac : bool) (made : nat) (fr : option Q) (self m : Material),
    parse_components ws set_atom_frac made fr self = Ok m →
    _material_components m
    = store_all (readings made ws) (_material_components self).
Proof.
  induction ws as [|w|i f ws IH] using pairs_ind; intros saf made fr self m.
  - by intros [= <-].
  - destruct (Isotope_init made w) as [iso|e] eqn:Hw.
    + simpl. by rewrite Hw.
    + rewrite (parse_components_refused _ _ e) by done.
      repeat case_match; try done. by intros [= <-].
  - destruct (Isotope_init made i) as [iso|e] eqn:Hi.
    + destruct (fortran_float f) as [q|] eqn:Hf.
      * rewrite (parse_components_pair _ _ _ iso q) by done.
        cbn [readings]. rewrite Hi, Hf.
        destruct (convention_round saf q self) as [self'|] eqn:Hround; [|done].
        apply convention_round_frame in Hround as (_ & _ & Hsame & _).
        cbn [mbind result_bind].
        destruct (MaterialComponent_init iso (Qabs q)) as [c|] eqn:Hc; [|done].
        apply MaterialComponent_init_Ok in Hc as [-> _].
        cbn [mbind result_bind]. intros Hm. apply IH in Hm. rewrite Hm.
        simpl. by rewrite Hsame.
      * simpl. by rewrite Hi, Hf.
    + rewrite (parse_components_refused _ _ e) by done.
      cbn [readings]. rewrite Hi.
      repeat case_match; try done. by intros [= <-].
Qed.

(** Once the convention is fixed the loop never changes it. *)
Lemma parse_components_keeps_convention (ws : list string) :
  ∀ (made : nat) (fr : option Q) (self m : Material),
    parse_components ws true made fr self = Ok m →
    _is_atom_fraction m = _is_atom_fraction self.
Proof.
  induction ws as [|w|i f ws IH] using pairs_ind; intros made fr self m.
  - by intros [= <-].
  - destruct (Isotope_init made w) as [iso|e] eqn:Hw.
    + simpl. by rewrite Hw.
    + rewrite (parse_components_refused _ _ e) by done.
      repeat case_match; try done. by intros [= <-].
  - destruct (Isotope_init made i) as [iso|e] eqn:Hi.
    + destruct (fortran_float f) as [q|] eqn:Hf.
      * rewrite (parse_components_pair _ _ _ iso q) by done.
        unfold convention_round. cbn [negb]. case_match; [done|].
        cbn [mbind result_bind].
        destruct (MaterialComponent_init iso (Qabs q)) as [c|]; [|done].
        cbn [mbind result_bind]. intros Hm. by apply IH in Hm.
      * simpl. by rewrite Hi, Hf.
    + rewrite (parse_components_refused _ _ e) by done.
      repeat case_match; try done. by intros [= <-].
Qed.

(** A parse that succeeds has met no fraction against the convention. *)
Lemma parse_components_agree (ws : list string) :
  ∀ (made : nat) (fr : option Q) (self m : Material) (is_atom : bool),
    _is_atom_fraction self = Some is_atom →
    parse_components ws true made fr self = Ok m →
    Forall (λ r, agrees is_atom r.2) (readings made ws).
Proof.
  induction ws as [|w|i f ws IH] using pairs_ind;
    intros made fr self m is_atom Hatom; [done..|].
  cbn [readings].
  destruct (Isotope_init made i) as [iso|e] eqn:Hi; [|done].
  destruct (fortran_float f) as [q|] eqn:Hf; [|done].
  rewrite (parse_components_pair _ _ _ iso q) by done.
  unfold convention_round. cbn [negb]. rewrite Hatom. simpl.
  destruct (_ || _) eqn:Htest; [done|]. cbn [mbind result_bind].
  destruct (MaterialComponent_init iso (Qabs q)) as [c|]; [|done].
  cbn [mbind result_bind]. intros Hm.
  apply switch_test_false in Htest. constructor; [done|].
  eapply IH; [|exact Hm]. done.
Qed.

Lemma readings_pair (i f : string) (ws : list string) (iso : Isotope) (q : Q)
    (made : nat) :
  Isotope_init made i = Ok iso → fortran_float f = Some q →
  readings made (i :: f :: ws) = (iso, q) :: readings (S made) ws.
Proof. intros Hi Hf. simpl. by rewrite Hi, Hf. Qed.

(** A run of component pairs is read whole, whatever follows it. *)
Lemma readings_flatten (pairs : list (string * string)) :
  ∀ (tl : list string) (made : nat),
    Forall component_words pairs →
    ∃ rs, readings made (flatten pairs ++ tl) = rs ++ readings (made + length pairs) tl
          ∧ readings made (flatten pairs) = rs
          ∧ Forall2 (λ p r, fortran_float p.2 = Some r.2) pairs rs.
Proof.
  induction pairs as [|[i f] pairs IH]; intros tl made Hpairs.
  - exists []. rewrite Nat.add_0_r. done.
  - apply Forall_cons in Hpairs as [[Hi [q Hq]] Hpairs].
    destruct (Hi made) as [iso Hiso]. simpl in Hiso, Hq.
    destruct (IH tl (S made) Hpairs) as (rs & Happ & Hrs & Hfloats).
    exists ((iso, q) :: rs).
    unfold flatten. rewrite bind_cons. cbn [fst snd app]. fold (flatten pairs).
    rewrite !(readings_pair _ _ _ iso q) by done.
    rewrite Happ, Hrs. cbn [length]. rewrite Nat.add_succ_r.
    split_and!; [done..|]. by constructor.
Qed.

(** The loop reads a run of component pairs and goes on with the rest. *)
Lemma parse_components_app (pairs : list (string * string)) :
  ∀ (tl : list string) (set_atom_frac : bool) (made : nat) (fr : option Q)
    (self : Material),
    Forall component_words pairs →
    parse_components (flatten pairs ++ tl) set_atom_frac made fr self
    = parse_components (flatten pairs) set_atom_frac made fr self
      ≫= parse_components tl (set_atom_frac || bool_decide (pairs ≠ []))
           (made + length pairs) (fraction_after fr pairs).
Proof.
  induction pairs as [|[i f] pairs IH]; intros tl saf made fr self Hpairs.
  - simpl. by rewrite orb_false_r, Nat.add_0_r.
  - apply Forall_cons in Hpairs as [[Hi [q Hq]] Hpairs].
    destruct (Hi made) as [iso Hiso]. simpl in Hiso, Hq.
    unfold flatten. rewrite bind_cons. cbn [fst snd app]. fold (flatten pairs).
    rewrite !(parse_components_pair _ _ _ iso q) by done.
    rewrite result_bind_assoc. rewrite orb_true_r.
    destruct (convention_round saf q self) as [self'|e]; [|done].
    cbn [mbind result_bind]. rewrite result_bind_assoc.
    destruct (MaterialComponent_init iso (Qabs q)) as [c|e]; [|done].
    cbn [mbind result_bind]. rewrite IH by done.
    cbn [length orb]. rewrite Nat.add_succ_r.
    replace (fraction_after (Some q) pairs) with (fraction_after fr ((i, f) :: pairs));
      [done|].
    unfold fraction_after. destruct pairs as [|p pairs]; [done|].
    rewrite last_cons_cons. destruct (last (p :: pairs)) eqn:Hlast; [done|].
    by apply last_None in Hlast.
Qed.

(** [__init__] is the loop run on the material of [started]. *)
Lemma init_started (input : Input) (comment : comments_arg) :
  __init__ input comment
  = parse_components (tail (words input)) false 0 None (started input comment).
Proof. done. Qed.

(** A fraction against the convention stops the loop. *)
Lemma parse_components_conflict (i f : string) (tl : list string) (q : Q)
    (made : nat) (fr : option Q) (self : Material) (is_atom : bool) :
  component_words (i, f) → fortran_float f = Some q →
  _is_atom_fraction self = Some is_atom → conflicts is_atom q →
  parse_components (i :: f :: tl) true made fr self
  = raise MalformedInputError
      "Material definitons cannot use atom and mass fraction at the same time".
Proof.
  intros [Hi _] Hq Hatom Hbad. destruct (Hi made) as [iso Hiso]. simpl in Hiso.
  rewrite (parse_components_pair _ _ _ iso q) by done.
  unfold convention_round. cbn [negb]. rewrite Hatom. simpl.
  apply switch_test in Hbad. by rewrite Hbad.
Qed.

(** C7, as amended: in every material that parsing produces the
    components are those of the pairs read from the card, stored in the
    order of the card, each with the absolute value of the fraction of
    its own pair, hence not negative; the first fraction fixes the
    convention (atom fractions when it is positive, mass fractions
    otherwise) and every fraction read agrees with it. A later fraction
    of the other sign (positive after a negative first one, negative
    after a positive first one) makes [__init__] raise
    [MalformedInputError] once the pairs before it have been stored; if
    storing one of them fails, as it does for a fraction of 0, which
    [MaterialComponent] refuses with [ValueError], [__init__] raises that
    error. In either case no material is produced. *)
Theorem parsed_fractions_share_one_convention
    (input : Input) (comment : comments_arg) :
  (∀ m : Material, __init__ input comment = Ok m →
     _material_components m = store_all (readings 0 (tail (words input))) []
     ∧ Forall (λ kv, (0 <= fraction kv.2)%Q) (_material_components m)
     ∧ match readings 0 (tail (words input)) with
       | [] => _is_atom_fraction m = None
       | first :: later =>
           _is_atom_fraction m = Some (Qgtb first.2 0)
           ∧ Forall (λ r, agrees (Qgtb first.2 0) r.2) (first :: later)
       end)
  ∧ (∀ (i0 f0 : string) (pairs : list (string * string)) (i f : string)
       (tl : list string) (q0 q : Q),
       tail (words input) = flatten ((i0, f0) :: pairs) ++ i :: f :: tl →
       Forall component_words ((i0, f0) :: pairs) → component_words (i, f) →
       fortran_float f0 = Some q0 → fortran_float f = Some q →
       (q0 < 0 ∧ 0 < q)%Q ∨ (0 < q0 ∧ q < 0)%Q →
       __init__ (Law := Law) input comment
       = (parse_components (flatten ((i0, f0) :: pairs)) false 0 None
            (started input comment)
          ≫= λ _ : Material,
               raise MalformedInputError
                 "Material definitons cannot use atom and mass fraction at the same time")
       ∧ ∀ m : Material, __init__ input comment ≠ Ok m).
Proof.
  split.
  - intros m Hm. rewrite init_started in Hm.
    pose proof (parse_components_stores _ _ _ _ _ _ Hm) as Hstored.
    split; [done|]. split.
    { rewrite Hstored. by apply store_all_magnitudes. }
    destruct (tail (words input)) as [|i0 [|f0 ws]] eqn:Hwords.
    + by injection Hm as <-.
    + simpl in Hm. destruct (Isotope_init 0 i0) as [iso|e]; [done|].
      simpl. repeat case_match; try done. by injection Hm as <-.
    + cbn [readings].
      destruct (Isotope_init 0 i0) as [iso0|e] eqn:Hi0.
      2:{ rewrite (parse_components_refused _ _ e) in Hm by done.
          repeat case_match; try done. by injection Hm as <-. }
      destruct (fortran_float f0) as [q0|] eqn:Hf0.
      2:{ simpl in Hm. by rewrite Hi0, Hf0 in Hm. }
      rewrite (parse_components_pair _ _ _ iso0 q0) in Hm by done.
      cbn [convention_round negb mbind result_bind] in Hm.
      destruct (MaterialComponent_init iso0 (Qabs q0)) as [c|]; [|done].
      cbn [mbind result_bind] in Hm.
      pose proof (parse_components_keeps_convention _ _ _ _ _ Hm) as Hkeep.
      simpl in Hkeep. split; [done|]. constructor.
      * simpl. destruct (Qgtb q0 0) eqn:Hsign; simpl.
        -- apply Qlt_le_weak. by apply Qgtb_true.
        -- by apply Qgtb_false.
      * eapply parse_components_agree; [|exact Hm]. done.
  - intros i0 f0 pairs i f tl q0 q Hwords Hpairs Hif Hq0 Hq Hsigns.
    assert (Hraise : __init__ (Law := Law) input comment
      = (parse_components (flatten ((i0, f0) :: pairs)) false 0 None
           (started input comment)
         ≫= λ _ : Material,
              raise MalformedInputError
                "Material definitons cannot use atom and mass fraction at the same time")).
    { rewrite init_started, Hwords, parse_components_app by done.
      destruct (parse_components (flatten ((i0, f0) :: pairs)) _ _ _ _)
        as [m'|e] eqn:Hm'; [|done].
      cbn [mbind result_bind orb].
      rewrite bool_decide_true by done. cbn [orb].
      apply Forall_cons in Hpairs as [[Hi0 _] Hpairs].
      destruct (Hi0 0%nat) as [iso0 Hiso0]. simpl in Hiso0.
      unfold flatten in Hm'. rewrite bind_cons in Hm'. cbn [fst snd app] in Hm'.
      fold (flatten pairs) in Hm'.
      rewrite (parse_components_pair _ _ _ iso0 q0) in Hm' by done.
      cbn [convention_round negb mbind result_bind] in Hm'.
      destruct (MaterialComponent_init iso0 (Qabs q0)) as [c|]; [|done].
      cbn [mbind result_bind] in Hm'.
      apply parse_components_keeps_convention in Hm'. simpl in Hm'.
      eapply parse_components_conflict; [done..|].
      destruct Hsigns as [[Hneg Hpos]|[Hpos Hneg]].
      * assert (Qgtb q0 0 = false) as ->; [|done].
        apply Qgtb_false. by apply Qlt_le_weak.
      * assert (Qgtb q0 0 = true) as ->; [|done]. by apply Qgtb_true. }
    split; [done|]. intros m. rewrite Hraise.
    by destruct (parse_components _ _ _ _ _).
Qed.

(** C10, as amended: when the first fraction of a material card is
    exactly 0 the loop takes the mass-fraction branch ([fraction > 0] is
    false, so [is_atom_fraction] is set to [False]) and goes on to store
    the component, which [MaterialComponent] refuses: the constructor
    raises [ValueError] for the fraction 0 and [__init__] raises that
    error, whatever the later fractions are. No material is produced. *)
Theorem zero_first_fraction_is_refused
    (input : Input) (comment : comments_arg)
    (i0 f0 : string) (rest : list string) (iso0 : Isotope) (q0 : Q) :
  tail (words input) = i0 :: f0 :: rest →
  Isotope_init 0 i0 = Ok iso0 → fortran_float f0 = Some q0 → (q0 == 0)%Q →
  __init__ input comment
  = (MaterialComponent_init iso0 (Qabs q0)
     ≫= λ component,
          parse_components rest true 1 (Some q0)
            (set_component iso0 component
               (set_is_atom_fraction false (started input comment))))
  ∧ ∃ e, kind e = ValueError
         ∧ MaterialComponent_check iso0 (Qabs q0) = Raise e
         ∧ __init__ (Law := Law) input comment = Raise e.
Proof.
  intros Hwords Hi0 Hq0 Hzero.
  assert (Qgtb q0 0 = false) as Hmass.
  { apply Qgtb_false. rewrite Hzero. apply Qle_refl. }
  assert (Hinit : __init__ input comment
    = (MaterialComponent_init iso0 (Qabs q0)
       ≫= λ component,
            parse_components rest true 1 (Some q0)
              (set_component iso0 component
                 (set_is_atom_fraction false (started input comment))))).
  { rewrite init_started, Hwords, (parse_components_pair _ _ _ iso0 q0) by done.
    cbn [convention_round negb mbind result_bind]. by rewrite Hmass. }
  split; [done|].
  assert (Hzero' : (Qabs q0 == 0)%Q) by (by rewrite Hzero).
  apply (MaterialComponent_zero iso0) in Hzero'.
  rewrite Hinit. unfold MaterialComponent_init.
  destruct (MaterialComponent_check iso0 (Qabs q0)) as [|e]; [done|].
  exists e. done.
Qed.

End parsing.

(** ** Materials: hashing and equality *)

Section hashing.
Context {Isotope Law : Type}.
Context `{IsotopeClass Isotope} `{Utilities} `{FloatFormat}.
Context `{ThermalScatteringClass Law} `{CommentFormat} `{PyHash}.

#[local] Abbreviation Material := (Material.Material Isotope Law).

(** The components in the order [__hash__] visits them: for each isotope
    of the sorted keys, its text and its fraction. *)
Definition sorted_components (self : Material) : list (string * Q) :=
  (λ i, (Isotope_str i,
         default 0%Q (fraction <$> dict_get i (_material_components self))))
  <$> sorted Isotope_lt (fst <$> _material_components self).

(** The hash of a number and a sequence of components. *)
Definition hash_of (number : Z) (components : list (string * Q)) : Z :=
  hash (HTuple2
          (foldl (λ temp_hash c, HInt (hash (HTuple3 temp_hash (HStr c.1) (HFloat c.2))))
                 (HStr "") components)
          (HInt number)).

Lemma hash_is_hash_of (self : Material) :
  __hash__ self = hash_of (_material_number self) (sorted_components self).
Proof.
  unfold __hash__, hash_of, sorted_components. f_equal. f_equal.
  generalize (HStr "").
  induction (sorted Isotope_lt (fst <$> _material_components self))
    as [|i isotopes IH]; intros temp_hash; simpl; [done|].
  by rewrite IH.
Qed.

(** C9: two materials are equal exactly when their hashes are; the hash
    is a function of the current number and of the sorted sequence of
    components only; so materials with the same number and components
    compare equal whatever their atom-or-mass flag, parameter string,
    original number and thermal scattering law are. *)
Theorem eq_is_hash_of_number_and_components (m1 m2 : Material) :
  (__eq__ m1 m2 = true ↔ __hash__ m1 = __hash__ m2)
  ∧ __hash__ m1 = hash_of (_material_number m1) (sorted_components m1)
  ∧ (_material_number m1 = _material_number m2 →
     sorted_components m1 = sorted_components m2 →
     __eq__ m1 m2 = true)
  ∧ (∀ (is_atom : option bool) (parameters : option string)
       (old_number : option Z) (law : option Law),
       __eq__ m1
         {| card := card m1;
            _problem := _problem m1;
            _material_components := _material_components m1;
            _thermal_scattering := law;
            _material_number := _material_number m1;
            _old_material_number := old_number;
            _is_atom_fraction := is_atom;
            _parameter_string := parameters |} = true).
Proof.
  split_and!.
  - unfold __eq__. apply bool_decide_eq_true.
  - apply hash_is_hash_of.
  - intros Hnumber Hcomponents. unfold __eq__. apply bool_decide_eq_true.
    rewrite !hash_is_hash_of. congruence.
  - intros. unfold __eq__. by apply bool_decide_eq_true.
Qed.

End hashing.

(** ** Materials: cloning *)

Section cloning.
Context {Isotope Law : Type}.
Context `{IsotopeClass Isotope} `{Utilities} `{FloatFormat}.
Context `{ThermalScatteringClass Law} `{CommentFormat} `{PyHash}.

#[local] Abbreviation Material := (Material.Material Isotope Law).

(** A material and the problem it reaches: when the problem holds the
    material, the numbers of its materials include the material's. *)
Definition registered (problem : Problem) (self : Material) : Prop :=
  _problem self = Some problem
  ∧ (holds_self problem = true →
     _material_number self ∈ numbers (materials problem)).

(** [n] is the first number from [start] on, in steps of 1, that is not held. *)
Definition first_free (held : gset Z) (start n : Z) : Prop :=
  (start ≤ n) ∧ (n ∉ held) ∧ (∀ k, start ≤ k < n → k ∈ held).

(** The loop over [itertools.count(starting_number, step=1)] stops at the
    first free number, after at most one round per held number. *)
Lemma clone_count_first_free (fuel : nat) :
  ∀ (problem : Problem) (start : Z) (self : Material),
    _problem self = Some problem → 0 < start →
    (size (filter (λ k : Z, (start ≤ k)%Z) (numbers (materials problem))) < fuel)%nat →
    ∃ n, first_free (numbers (materials problem)) start n
         ∧ clone_count fuel start self = Some (Ok (renumbered n self)).
Proof.
  induction fuel as [|fuel IH]; intros problem start self Hreg Hpos Hfuel; [lia|].
  simpl. rewrite number_setter_cases. simpl.
  destruct (Z.leb_spec start 0); [lia|]. rewrite Hreg.
  set (held := numbers (materials problem)) in *.
  destruct (decide (start ∈ held)) as [Hin|Hout].
  - simpl.
    destruct (IH problem (start + 1) self) as (n & (Hle & Hfree & Hbelow) & Hn);
      [done|lia| |].
    + fold held.
      assert (filter (λ k, start ≤ k) held
              = {[start]} ∪ filter (λ k, start + 1 ≤ k) held) as Hsplit.
      { apply set_eq. intros k.
        rewrite elem_of_union, !elem_of_filter, elem_of_singleton.
        split; [intros [??]|intros [->|[??]]].
        - destruct (decide (k = start)); [by left|right; split; [lia|done]].
        - split; [lia|done].
        - split; [lia|done]. }
      rewrite Hsplit, size_union, size_singleton in Hfuel; [lia|].
      apply disjoint_singleton_l. rewrite elem_of_filter. lia.
    + exists n. split; [|done]. split_and!; [lia|done|].
      intros k Hk. destruct (decide (k = start)) as [->|]; [done|].
      apply Hbelow. lia.
  - exists start. split; [|done]. split_and!; [lia|done|]. intros k. lia.
Qed.

(** With a positive step [request_number] returns a number that is not
    held. *)
Lemma request_number_scan_free (fuel : nat) :
  ∀ (held : gset Z) (start step : Z),
    0 < step →
    (size (filter (λ k : Z, (start ≤ k)%Z) held) < fuel)%nat →
    ∃ n, request_number_scan fuel held start step = Some n
         ∧ start ≤ n ∧ n ∉ held.
Proof.
  induction fuel as [|fuel IH]; intros held start step Hstep Hfuel; [lia|].
  simpl. destruct (decide (start ∈ held)) as [Hin|Hout]; [|by eauto with lia].
  destruct (IH held (start + step) step) as (n & Hn & Hle & Hfree); [done| |].
  - assert ({[start]} ∪ filter (λ k : Z, start + step ≤ k) held
            ⊆ filter (λ k : Z, start ≤ k) held) as Hsub.
    { intros k. rewrite elem_of_union, !elem_of_filter, elem_of_singleton.
      intros [->|[??]]; split; done || lia. }
    apply subseteq_size in Hsub.
    rewrite size_union, size_singleton in Hsub; [lia|].
    apply disjoint_singleton_l. rewrite elem_of_filter. lia.
  - exists n. split_and!; [done|lia|done].
Qed.

Lemma size_filter_le (held : gset Z) (start : Z) :
  (size (filter (λ k : Z, (start ≤ k)%Z) held) ≤ size held)%nat.
Proof. apply subseteq_size. intros k. rewrite elem_of_filter. tauto. Qed.

Lemma request_number_free (collection : Numbered_Object_Collection)
    (start step : Z) :
  0 < step →
  ∃ n, request_number collection start step = Some n
       ∧ start ≤ n ∧ n ∉ numbers collection.
Proof.
  intros Hstep. apply request_number_scan_free; [done|].
  pose proof (size_filter_le (numbers collection) start). lia.
Qed.

(** A problem holds as many numbers after one of its materials took a
    number that was free. *)
Lemma size_renumber (problem : Problem) (old number : Z) :
  (holds_self problem = true → old ∈ numbers (materials problem)) →
  number ∉ numbers (materials problem) →
  (size (numbers (materials (renumber old number problem)))
   ≤ size (numbers (materials problem)))%nat.
Proof.
  intros Hold Hfree. unfold renumber.
  destruct (holds_self problem); [|done]. cbn [materials numbers].
  rewrite size_union.
  2:{ apply disjoint_singleton_l. rewrite elem_of_difference. tauto. }
  rewrite size_difference by (apply singleton_subseteq_l; auto).
  rewrite !size_singleton.
  assert (size (numbers (materials problem)) ≠ 0%nat); [|lia].
  apply size_non_empty_iff. specialize (Hold eq_refl).
  intros Hempty. rewrite Hempty in Hold. by apply elem_of_empty in Hold.
Qed.

(** X1: what [clone] does for a material that reaches a problem. The
    copy first takes the number that [request_number] returns, which no
    material holds. Then the loop counts from [starting_number] in steps
    of 1, whatever [step] is, and keeps the first number that the
    problem of the copy does not hold at that time. When the problem
    holds the material these are the requested number and the numbers of
    the other materials: the number that the material had before counts
    as free, and the requested number is never kept. The loop ends
    within one round per held number. *)
Lemma clone_takes_first_free (fuel : nat) (problem : Problem) (self : Material)
    (starting_number step : Z) :
  registered problem self → 0 < starting_number → 0 < step →
  (size (numbers (materials problem)) < fuel)%nat →
  ∃ requested n,
    request_number (materials problem) starting_number step = Some requested
    ∧ (requested ∉ numbers (materials problem))
    ∧ clone fuel self starting_number step
      = Some (Ok (renumbered n (renumbered requested self)))
    ∧ _material_number (renumbered n (renumbered requested self)) = n
    ∧ (holds_self problem = true →
       first_free
         ({[requested]} ∪ (numbers (materials problem) ∖ {[_material_number self]}))
         starting_number n)
    ∧ (holds_self problem = false →
       first_free (numbers (materials problem)) starting_number n).
Proof.
  intros [Hreg Hown] Hstart Hstep Hfuel. unfold clone.
  cbn [collection Material_numbered]. rewrite Hreg.
  cbn [fmap option_fmap option_map].
  destruct (request_number_free (materials problem) starting_number step)
    as (r & -> & Hle & Hfree); [done|].
  cbn [Numbered.number_setter Material_numbered].
  rewrite number_setter_cases. simpl.
  destruct (Z.leb_spec r 0); [lia|]. rewrite Hreg.
  rewrite decide_False by done.
  destruct (clone_count_first_free fuel
              (renumber (_material_number self) r problem) starting_number
              (renumbered r self)) as (n & Hn & ->).
  - simpl. by rewrite Hreg.
  - done.
  - pose proof (size_filter_le
      (numbers (materials (renumber (_material_number self) r problem)))
      starting_number).
    pose proof (size_renumber problem (_material_number self) r Hown Hfree). lia.
  - exists r, n. split_and!; [done..| |].
    + intros Hheld. unfold renumber in Hn. by rewrite Hheld in Hn.
    + intros Hheld. unfold renumber in Hn. by rewrite Hheld in Hn.
Qed.

End cloning.

(** ** Materials: writing *)

Section writing.
Context {Isotope Law : Type}.
Context `{IsotopeClass Isotope} `{Utilities} `{FloatFormat}.
Context `{ThermalScatteringClass Law} `{CommentFormat} `{PyHash}.

#[local] Abbreviation Material := (Material.Material Isotope Law).

(** The lines of the thermal scattering law, if the material has one. *)
Definition law_lines (self : Material) (mcnp_version : version) : list string :=
  from_option (λ law, law_format law mcnp_version) [] (_thermal_scattering self).

(** The line of the first isotope and the line of a further one. *)
Definition first_line (number : Z) (c : MaterialComponent Isotope) : string :=
  "m" +:+ Str.ljust 8 (pretty number) +:+ " "
  +:+ Str.rjust 8 (mcnp_str (isotope c)) +:+ " "
  +:+ Str.rjust 11 (format_4g (fraction c)).

Definition further_line (c : MaterialComponent Isotope) : string :=
  Str.rjust 18 (mcnp_str (isotope c)) +:+ " "
  +:+ Str.rjust 11 (format_4g (fraction c)).

Lemma insert_sorted_elem (x y : Isotope) (xs : list Isotope) :
  y ∈ insert_sorted Isotope_lt x xs ↔ y = x ∨ y ∈ xs.
Proof.
  induction xs as [|z xs IH]; simpl.
  - rewrite elem_of_cons. tauto.
  - destruct (Isotope_lt z x); rewrite !elem_of_cons, ?IH; tauto.
Qed.

Lemma sorted_elem (y : Isotope) (xs : list Isotope) :
  y ∈ sorted Isotope_lt xs ↔ y ∈ xs.
Proof.
  unfold sorted. induction xs as [|x xs IH]; simpl; [done|].
  rewrite insert_sorted_elem, elem_of_cons, IH. tauto.
Qed.

Lemma component_of_key (self : Material) (k : Isotope) :
  k ∈ (_material_components self).*1 →
  ∃ c, dict_get k (_material_components self) = Some c
       ∧ component_of self k = Ok c.
Proof.
  unfold component_of.
  induction (_material_components self) as [|[k' v] d IH]; simpl;
    [by intros ?%elem_of_nil|].
  intros [->|Hin]%elem_of_cons; case_decide; eauto || done.
Qed.

Lemma mapM_components (self : Material) (f : MaterialComponent Isotope → string)
    (keys : list Isotope) :
  keys ⊆ (_material_components self).*1 →
  ∃ components : list (MaterialComponent Isotope),
    Forall2 (λ k c, dict_get k (_material_components self) = Some c)
            keys components
    ∧ mapM (λ i, component ← component_of self i; Ok (f component)) keys
      = Ok (f <$> components).
Proof.
  induction keys as [|k keys IH]; intros Hkeys.
  - exists []. by split; [constructor|].
  - destruct IH as (components & Hall & Hmap).
    { intros i Hi. apply Hkeys. by right. }
    destruct (component_of_key self k) as (c & Hget & Hc); [apply Hkeys; by left|].
    exists (c :: components). split; [by constructor|].
    cbn [mapM]. rewrite Hc. cbn [mbind result_bind]. rewrite Hmap. done.
Qed.

(** X4: an untouched material with components is written as its card
    is: the replayed lines, then the lines of its thermal scattering law. *)
Theorem format_untouched_material (self : Material) (mcnp_version : version) :
  mutated self = false → _material_components self ≠ [] →
  format_for_mcnp_input self mcnp_version
  = Ok (_format_for_mcnp_unmutated (card self) mcnp_version
        ++ law_lines self mcnp_version).
Proof.
  intros Hclean Hsome. unfold format_for_mcnp_input, validate, law_lines.
  destruct (_material_components self); [done|]. simpl.
  rewrite Hclean. simpl. destruct (_thermal_scattering self); simpl; [done|].
  by rewrite app_nil_r.
Qed.

Lemma insert_sorted_length (x : Isotope) (xs : list Isotope) :
  length (insert_sorted Isotope_lt x xs) = S (length xs).
Proof.
  induction xs as [|y xs IH]; simpl; [done|].
  destruct (Isotope_lt y x); simpl; by rewrite ?IH.
Qed.

Lemma sorted_length (xs : list Isotope) :
  length (sorted Isotope_lt xs) = length xs.
Proof.
  unfold sorted. induction xs as [|x xs IH]; simpl; [done|].
  by rewrite insert_sorted_length, IH.
Qed.

Lemma all_comments (comments : list Comment) (mcnp_version : version) :
  ∀ ret : list string,
    foldl (λ ret comment, ret ++ comment_format comment mcnp_version) ret comments
    = ret ++ (comments ≫= λ c, comment_format c mcnp_version).
Proof.
  induction comments as [|c comments IH]; intros ret.
  - simpl. by rewrite app_nil_r.
  - rewrite bind_cons. cbn [foldl]. rewrite IH. by rewrite <- app_assoc.
Qed.

Lemma format_mutated_card (c : MCNP_Card) (mcnp_version : version) :
  _mutated c = true →
  MCNP_Card.format_for_mcnp_input c mcnp_version
  = (_comments c ≫= λ c, comment_format c mcnp_version).
Proof.
  intros Hdirty. unfold MCNP_Card.format_for_mcnp_input. rewrite Hdirty.
  destruct (_comments c) as [|c0 comments] eqn:Hcomments; [done|].
  cbn [negb]. by rewrite all_comments.
Qed.

(** X5: a mutated material with components is written anew: every
    comment, then one line for each isotope, the isotopes in sorted
    order and each line with the component that the material has for
    its isotope, the first of them as [m<number> ...], then the law. The
    stored input lines take no part in it. *)
Theorem format_mutated_material (self : Material) (mcnp_version : version) :
  mutated self = true → _material_components self ≠ [] →
  ∃ (first : MaterialComponent Isotope) (further : list (MaterialComponent Isotope)),
    Forall2 (λ k c, dict_get k (_material_components self) = Some c)
            (sorted Isotope_lt (_material_components self).*1) (first :: further)
    ∧ format_for_mcnp_input self mcnp_version
      = Ok (((_comments (card self)) ≫= λ c, comment_format c mcnp_version)
            ++ first_line (_material_number self) first
               :: (further_line <$> further)
            ++ law_lines self mcnp_version).
Proof.
  intros Hdirty Hsome. unfold format_for_mcnp_input, validate, law_lines.
  pose proof (sorted_length (_material_components self).*1) as Hlength.
  rewrite length_fmap in Hlength.
  destruct (length (_material_components self)) as [|n] eqn:Hn.
  { by destruct (_material_components self). }
  cbn [Nat.eqb mbind result_bind]. rewrite Hdirty, format_mutated_card by done.
  destruct (sorted Isotope_lt (_material_components self).*1)
    as [|k keys] eqn:Hsorted; [done|].
  assert (Hkeys : k :: keys ⊆ (_material_components self).*1).
  { intros i Hi. apply sorted_elem. by rewrite Hsorted. }
  destruct (component_of_key self k) as (first & Hget & Hfirst);
    [apply Hkeys; by left|].
  destruct (mapM_components self further_line keys) as (further & Hall & Hmap).
  { intros i Hi. apply Hkeys. by right. }
  exists first, further. split; [by constructor|].
  rewrite Hfirst. cbn [mbind result_bind].
  unfold further_line in Hmap. rewrite Hmap. cbn [mbind result_bind].
  unfold first_line. destruct (_thermal_scattering self); simpl.
  - by rewrite <- !app_assoc.
  - by rewrite app_nil_r.
Qed.

End writing.

End MaterialFacts.

Module MaterialExamples.
Import MCNP_Card Numbered Material MaterialFacts Demo.

(** The setter on the card [m1 ...], alone and in a problem that holds
    the numbers 1, 2 and 3. *)
Example number_setter_str :
  number_setter (PyStr "7") (parsed water_input)
  = (raise TypeError "number must be an int", parsed water_input).
Proof. reflexivity. Qed.

Example number_setter_zero :
  number_setter (PyInt 0) (parsed water_input)
  = (raise ValueError "number must be > 0", parsed water_input).
Proof. reflexivity. Qed.

Example number_setter_held :
  number_setter (PyInt 3) (linked {[1; 2; 3]} (parsed water_input))
  = (raise NumberConflictError "Number 3 is already in use",
     linked {[1; 2; 3]} (parsed water_input)).
Proof. vm_compute. reflexivity. Qed.

Example number_setter_free :
  let '(r, m) := number_setter (PyInt 4) (linked {[1; 2; 3]} (parsed water_input)) in
  r = Ok tt ∧ _material_number m = 4 ∧ mutated m = true.
Proof. vm_compute. done. Qed.

(** C8 on the card [m2], untouched and after [number = 7]. *)
Lemma format_without_components_is_illegal_witness :
  format_for_mcnp_input (parsed empty_input) [6; 2; 0]
  = raise IllegalState "Material: 2 does not have any components defined."
  ∧ format_for_mcnp_input
      (number_setter (PyInt 7) (parsed empty_input)).2 [6; 2; 0]
  = raise IllegalState "Material: 7 does not have any components defined.".
Proof.
  split.
  - exact (format_without_components_is_illegal
             (parsed empty_input) [6; 2; 0] eq_refl).
  - exact (format_without_components_is_illegal
             (number_setter (PyInt 7) (parsed empty_input)).2
             [6; 2; 0] eq_refl).
Defined.

(** The card [m1 ...] is written back as it was read, and written anew
    after [number = 7]. *)
Lemma format_untouched_material_witness :
  format_for_mcnp_input (parsed water_input) [6; 2; 0]
  = Ok ["m1 1001.80c 0.5 8016.80c 0.5"].
Proof.
  exact (format_untouched_material (parsed water_input) [6; 2; 0] eq_refl
           ltac:(discriminate)).
Defined.

Lemma format_mutated_material_witness :
  ∃ (first : MaterialComponent zaid) (further : list (MaterialComponent zaid)),
    Forall2 (λ k c,
               dict_get k
                 (_material_components (number_setter (PyInt 7) (parsed water_input)).2)
               = Some c)
            [(0%nat, "1001.80c"); (1%nat, "8016.80c")] (first :: further)
    ∧ format_for_mcnp_input (number_setter (PyInt 7) (parsed water_input)).2 [6; 2; 0]
      = Ok ([] ++ first_line 7 first :: (further_line <$> further) ++ []).
Proof.
  exact (format_mutated_material (number_setter (PyInt 7) (parsed water_input)).2
           [6; 2; 0] eq_refl ltac:(discriminate)).
Defined.

(** C7 on [m3 26056.80c -0.75 6012.80c -0.25], which is parsed as mass
    fractions stored as 0.75 and 0.25 in the order of the card, and on
    [m4 26056.80c -0.75 6012.80c 0.25], which is refused. *)
Lemma parsed_fractions_share_one_convention_witness :
  (_material_components (parsed steel_input)
   = [((0%nat, "26056.80c"),
       {| isotope := (0%nat, "26056.80c"); fraction := Qabs (-(75 # 100)) |});
      ((1%nat, "6012.80c"),
       {| isotope := (1%nat, "6012.80c"); fraction := Qabs (-(25 # 100)) |})]
   ∧ Forall (λ kv, (0 <= fraction kv.2)%Q) (_material_components (parsed steel_input))
   ∧ _is_atom_fraction (parsed steel_input) = Some false
   ∧ Forall (λ r : zaid * Q, (r.2 <= 0)%Q)
            [((0%nat, "26056.80c"), -(75 # 100))%Q; ((1%nat, "6012.80c"), -(25 # 100))%Q])
  ∧ Material.__init__ (Law := list string) mixed_input NoComments
    = raise MalformedInputError
        "Material definitons cannot use atom and mass fraction at the same time".
Proof.
  split.
  - exact (proj1 (parsed_fractions_share_one_convention steel_input NoComments)
             (parsed steel_input) eq_refl).
  - etrans.
    + refine (proj1 (proj2
        (parsed_fractions_share_one_convention mixed_input NoComments)
        "26056.80c" "-0.75" [] "6012.80c" "0.25" [] (-(75 # 100))%Q (25 # 100)%Q
        eq_refl _ _ eq_refl eq_refl _)); [solve_component_words..|].
      left. split; reflexivity.
    + reflexivity.
Defined.

(** A card with a fraction of 0 between a negative and a positive one *)
Definition zero_between_input : Input := {|
  input_card := {| input_lines := ["m4 26056.80c -0.75 1001.80c 0 6012.80c 0.25"] |};
  words := ["m4"; "26056.80c"; "-0.75"; "1001.80c"; "0"; "6012.80c"; "0.25"];
  _input_number := 4
|}.

(** C7 as stated does not hold: on the card
    [m4 26056.80c -0.75 1001.80c 0 6012.80c 0.25] the positive fraction
    comes after a negative first one, and [__init__] raises the
    [ValueError] of [MaterialComponent] for the fraction 0 before it,
    not [MalformedInputError]. *)
Lemma conflict_behind_a_zero_fraction :
  raises (Material.__init__ (Law := list string) zero_between_input NoComments)
         ValueError
  ∧ ¬ raises (Material.__init__ (Law := list string) zero_between_input NoComments)
             MalformedInputError.
Proof. split; [reflexivity|vm_compute; discriminate]. Qed.

(** C10 as stated does not hold: after a first fraction of 0 a card with
    a negative fraction is not accepted, and one with a positive
    fraction does not raise [MalformedInputError]; either raises the
    [ValueError] of [MaterialComponent]. The cards are
    [m5 1001.80c 0 8016.80c -0.5] and [m5 1001.80c 0 8016.80c 0.5]. *)
Lemma zero_first_fraction_is_not_accepted :
  raises (Material.__init__ (Law := list string) (zero_first_input "-0.5") NoComments)
         ValueError
  ∧ raises (Material.__init__ (Law := list string) (zero_first_input "0.5") NoComments)
           ValueError.
Proof. split; reflexivity. Qed.

(** C10, as amended, on [m5 1001.80c 0 8016.80c -0.5]. *)
Lemma zero_first_fraction_is_refused_witness :
  ∃ e, kind e = ValueError
       ∧ Material.__init__ (Law := list string) (zero_first_input "-0.5") NoComments
         = Raise e.
Proof.
  destruct (zero_first_fraction_is_refused (Law := list string)
              (zero_first_input "-0.5") NoComments
              "1001.80c" "0" ["8016.80c"; "-0.5"] (0%nat, "1001.80c") (0 # 1)%Q
              ltac:(reflexivity) ltac:(reflexivity) ltac:(reflexivity)
              ltac:(reflexivity))
    as (_ & e & Hkind & _ & Hinit).
  exists e. split; [exact Hkind|exact Hinit].
Defined.

(** C9 on two readings of the same components: one card as atom
    fractions, the other with an original number, a parameter string
    and a thermal scattering law of its own. *)
Example eq_ignores_the_other_attributes :
  __eq__ (parsed water_input)
    {| Material.card := Material.card (parsed water_input);
       _problem := None;
       _material_components := _material_components (parsed water_input);
       _thermal_scattering := Some ["mt1 lwtr.10t"];
       _material_number := 1;
       _old_material_number := Some 9;
       _is_atom_fraction := Some false;
       _parameter_string := Some "nlib=80c" |} = true.
Proof. vm_compute. reflexivity. Qed.

(** C2: the material [m3] of a problem whose materials hold the numbers
    1 and 3 is cloned with [starting_number=1] and [step=3]. The scan in
    steps of 3 that the docstring describes, and that [request_number]
    performs, finds 4; the number the clone finally carries is 2, because
    the closing loop counts from [starting_number] in steps of 1. *)
Theorem clone_counts_in_steps_of_one :
  request_number {| numbers := {[1; 3]} |} 1 3 = Some 4
  ∧ ∃ m : DemoMaterial,
      clone 3 (linked {[1; 3]} (parsed steel_input)) 1 3 = Some (Ok m)
      ∧ number m = 2.
Proof. split; [by vm_compute|]. eexists. split; [by vm_compute|done]. Qed.

(** [clone] of the material 1 among the numbers 1, 2, 3 and 7 with
    [starting_number=2] and [step=5]: the copy takes 12 first, and of 2,
    3, 4, ... the first that no other material holds is 4. *)
Lemma clone_takes_first_free_witness :
  ∃ requested n,
    request_number {| numbers := {[1; 2; 3; 7]} |} 2 5 = Some requested
    ∧ clone 5 (linked {[1; 2; 3; 7]} (parsed water_input)) 2 5
      = Some (Ok (renumbered n
                    (renumbered requested (linked {[1; 2; 3; 7]} (parsed water_input)))))
    ∧ first_free ({[requested]} ∪ ({[1; 2; 3; 7]} ∖ {[1]})) 2 n.
Proof.
  destruct (clone_takes_first_free 5
              {| materials := {| numbers := {[1; 2; 3; 7]} |}; holds_self := true |}
              (linked {[1; 2; 3; 7]} (parsed water_input)) 2 5)
    as (requested & n & Hrequested & _ & Hclone & _ & Hheld & _);
    [split; [reflexivity|intros _; vm_compute; reflexivity]|lia|lia|vm_compute; lia|].
  exists requested, n. split; [exact Hrequested|]. split; [exact Hclone|].
  exact (Hheld eq_refl).
Defined.

(** The material 1 of a problem that holds 1, 2 and 3 is cloned with
    [starting_number=1], [step=1]: the copy takes 4 first, which leaves
    1 free in its problem, and 1 is the number it is returned with. *)
Example clone_among_1_2_3 :
  ∃ m : DemoMaterial,
    clone 4 (linked {[1; 2; 3]} (parsed water_input)) 1 1 = Some (Ok m)
    ∧ number m = 1.
Proof. eexists. split; [by vm_compute|done]. Qed.

End MaterialExamples.

(** ** Cards: writing an untouched card *)

Module MCNP_CardFacts.
Import MCNP_Card.

Section replay.
Context `{CommentFormat}.



(** The first comment of the card, written once in front. *)
Definition leading_comment (comments : list Comment) (mcnp_version : version)
    : list string :=
  match comments with
  | [] => []
  | c0 :: _ => comment_format c0 mcnp_version
  end.









End replay.

End MCNP_CardFacts.

Module MCNP_CardExamples.
Import TextWrap MCNP_Card MCNP_CardFacts Demo.

(** A two-line card under a title comment, and the same card with a
    comment cutting in before its second line. *)
Definition title_comment : Comment :=
  {| lines := ["water"]; is_cutting_comment := false; card_line := 0 |}.

Definition cutting_comment : Comment :=
  {| lines := ["oxygen"]; is_cutting_comment := true; card_line := 1 |}.

Definition water_card : Card :=
  {| input_lines := ["m1 1001.80c 2"; "     8016.80c 1"] |}.


Definition cut_card : MCNP_Card :=
  __init__ water_card (CommentList [title_comment; cutting_comment]).

Example cut_card_replayed :
  _format_for_mcnp_unmutated cut_card [6; 2; 0]
  = ["C water"; "m1 1001.80c 2"; "C oxygen"; "     8016.80c 1"].
Proof. vm_compute. reflexivity. Qed.


End MCNP_CardExamples.

(** ** Line wrapping *)

Module TextWrapFacts.
Import TextWrap.

(** *** Lengths of strings *)

Lemma len_nonneg (s : string) : 0 ≤ Str.len s.
Proof. unfold Str.len. lia. Qed.

Lemma len_app (s1 s2 : string) : Str.len (s1 +:+ s2) = Str.len s1 + Str.len s2.
Proof.
  unfold Str.len. induction s1 as [|c s1 IH]; simpl; [done|]. lia.
Qed.




(** The total length of the chunks of a line. *)
Definition total (line : list string) : Z :=
  foldr (λ c n, Str.len c + n) 0 line.

Lemma total_nonneg (line : list string) : 0 ≤ total line.
Proof. induction line as [|c line IH]; simpl; [done|]. pose proof (len_nonneg c). lia. Qed.

Lemma total_app (l1 l2 : list string) : total (l1 ++ l2) = total l1 + total l2.
Proof. induction l1 as [|c l1 IH]; simpl; lia. Qed.

Lemma len_join (line : list string) : Str.len (Str.join "" line) = total line.
Proof.
  unfold Str.join. induction line as [|c [|c' line] IH]; simpl in *; [done|lia|].
  rewrite !len_app, IH. change (Str.len "") with 0. lia.
Qed.



(** *** One round of [_wrap_chunks] *)














Section rounds.
Context (w : TextWrapper).

(** The indent of the next line, and the room it leaves. *)
Definition indent_of (lines : list string) : string :=
  match lines with [] => initial_indent w | _ => subsequent_indent w end.

Definition avail_of (lines : list string) : Z :=
  width w - Str.len (indent_of lines).





End rounds.

(** *** The whole loop *)

Section loop.
Context (w : TextWrapper).
Hypothesis room_first : 1 ≤ width w - Str.len (initial_indent w).
Hypothesis room_next : 1 ≤ width w - Str.len (subsequent_indent w).

(** The lines made of [bodies]: the first behind the initial indent,
    the others behind the subsequent indent. *)
Definition indent_lines (bodies : list string) : list string :=
  match bodies with
  | [] => []
  | b :: bs => (initial_indent w +:+ b) :: ((λ b, subsequent_indent w +:+ b) <$> bs)
  end.

(** The room every line has, whichever indent it gets. *)
Definition least_room : Z :=
  width w - Str.len (initial_indent w) `max` Str.len (subsequent_indent w).

Lemma indent_lines_snoc (bodies : list string) (b : string) :
  indent_lines (bodies ++ [b])
  = indent_lines bodies ++ [indent_of w (indent_lines bodies) +:+ b].
Proof.
  destruct bodies as [|b0 bodies]; [done|]. simpl. by rewrite fmap_app.
Qed.


Lemma least_room_avail (lines : list string) : least_room ≤ avail_of w lines.
Proof. unfold least_room, avail_of, indent_of. destruct lines; lia. Qed.



End loop.


End TextWrapFacts.

(** ** Cards: wrapping a line for MCNP 6.2 *)

Module MCNP_WrapFacts.
Import TextWrap MCNP_Card TextWrapFacts.

(** The indent of a continuation line. *)
Definition continuation_indent : string := "     ".

(** The lines [wrap_string_for_mcnp] makes of [bodies]: the first as it
    is when it starts a card and behind the indent otherwise, every later
    one behind the indent. *)
Definition mcnp_lines (is_first_line : bool) (bodies : list string) : list string :=
  match bodies with
  | [] => []
  | b :: bs =>
      (if is_first_line then b else continuation_indent +:+ b)
      :: ((λ b, continuation_indent +:+ b) <$> bs)
  end.

(** The wrapper that [wrap_string_for_mcnp] builds for MCNP 6.2. *)
Definition wrapper_6_2 (is_first_line : bool) : TextWrapper :=
  {| width := 128;
     initial_indent := Str.spaces (if is_first_line then 0 else 5);
     subsequent_indent := Str.spaces 5 |}.

Lemma indent_lines_6_2 (is_first_line : bool) (bodies : list string) :
  indent_lines (wrapper_6_2 is_first_line) bodies = mcnp_lines is_first_line bodies.
Proof. by destruct bodies, is_first_line. Qed.


(** X3: for a version that does not start with (6, 2) the width stays 0
    and the wrapper refuses it: [wrap_string_for_mcnp] raises
    [ValueError] whatever the text is. *)
Theorem wrap_string_for_mcnp_other_version `{Chunker}
    (string_ : string) (mcnp_version : version) (is_first_line : bool) :
  is_6_2 mcnp_version = false →
  wrap_string_for_mcnp string_ mcnp_version is_first_line
  = Some (raise ValueError "invalid width 0 (must be > 0)").
Proof. intros Hversion. unfold wrap_string_for_mcnp. by rewrite Hversion. Qed.

End MCNP_WrapFacts.

Module MCNP_WrapExamples.
Import TextWrap MCNP_Card TextWrapFacts MCNP_WrapFacts Demo.

Example wrap_lat_1_1_2 :
  wrap_string_for_mcnp "LAT 1 1 2" [6; 2; 0] true = Some (Ok ["LAT 1 1 2"]).
Proof. vm_compute. reflexivity. Qed.

(** With [is_first_line = False], as [LatticeInput.format_for_mcnp_input]
    calls it for a cell, the text goes on within a card and its first
    line comes back behind the indent. *)
Example continued_card_is_indented :
  wrap_string_for_mcnp "LAT=1" [6; 2; 0] false = Some (Ok ["     LAT=1"]).
Proof. vm_compute. reflexivity. Qed.

(** A word of 130 characters does not fit a line and is cut after the
    128th. *)
Example long_word_is_cut :
  wrap_string_for_mcnp (String.concat "" (replicate 130 "a")) [6; 2; 0] true
  = Some (Ok [String.concat "" (replicate 128 "a"); "     aa"]).
Proof. vm_compute. reflexivity. Qed.

(** MCNP 6.1 and a bare major version are refused. *)
Lemma wrap_string_for_mcnp_other_version_witness :
  wrap_string_for_mcnp "LAT 1 1 2" [6; 1; 0] true
  = Some (raise ValueError "invalid width 0 (must be > 0)")
  ∧ wrap_string_for_mcnp "LAT 1 1 2" [6] true
    = Some (raise ValueError "invalid width 0 (must be > 0)").
Proof.
  split.
  - exact (wrap_string_for_mcnp_other_version "LAT 1 1 2" [6; 1; 0] true eq_refl).
  - exact (wrap_string_for_mcnp_other_version "LAT 1 1 2" [6] true eq_refl).
Defined.

End MCNP_WrapExamples.

(** ** Materials: reading a card and writing it back *)

Module MaterialReadFacts.
Import MCNP_Card Numbered Material MaterialFacts.

Section dictionaries.
Context {K V : Type} `{EqDecision K}.

Lemma dict_get_set (i k : K) (v : V) (d : list (K * V)) :
  dict_get i (dict_set k v d) = if decide (i = k) then Some v else dict_get i d.
Proof.
  induction d as [|[k' v'] d IH]; simpl.
  - done.
  - destruct (decide (k = k')) as [->|Hk]; simpl.
    + by destruct (decide (i = k')).
    + rewrite IH. destruct (decide (i = k')) as [->|]; [|done].
      by rewrite decide_False by done.
Qed.

Lemma dict_set_keys (k : K) (v : V) (d : list (K * V)) :
  (dict_set k v d).*1 = if decide (k ∈ d.*1) then d.*1 else d.*1 ++ [k].
Proof.
  induction d as [|[k' v'] d IH].
  - case_decide as Hin; [by apply elem_of_nil in Hin|done].
  - cbn [dict_set]. destruct (decide (k = k')) as [->|Hk].
    + rewrite decide_True; [done|]. rewrite fmap_cons. by left.
    + rewrite !fmap_cons, IH. cbn [fst].
      destruct (decide (k ∈ d.*1)) as [Hin|Hout].
      * rewrite decide_True; [done|]. by right.
      * rewrite decide_False; [done|]. by intros [?|?]%elem_of_cons.
Qed.

Lemma dict_set_NoDup (k : K) (v : V) (d : list (K * V)) :
  NoDup d.*1 → NoDup (dict_set k v d).*1.
Proof.
  intros Hd. rewrite dict_set_keys. case_decide; [done|].
  apply NoDup_app. split_and!; [done| |apply NoDup_singleton].
  intros x Hx ->%list_elem_of_singleton. done.
Qed.

Lemma dict_get_None (k : K) (d : list (K * V)) :
  dict_get k d = None ↔ k ∉ d.*1.
Proof.
  induction d as [|[k' v'] d IH]; simpl.
  - split; [intros _; apply not_elem_of_nil|done].
  - rewrite not_elem_of_cons. case_decide; [|tauto]. split; [done|tauto].
Qed.

End dictionaries.

Section reading.
Context {Isotope Law : Type}.
Context `{IsotopeClass Isotope} `{MaterialComponentClass Isotope}.
Context `{Utilities} `{FloatFormat} `{FloatStr}.
Context `{ThermalScatteringClass Law} `{CommentFormat} `{PyHash}.

#[local] Abbreviation Material := (Material.Material Isotope Law).

(** The input of the card [card] whose words are [name] and then [ws]. *)
Definition reading (card : Card) (number : Z) (name : string) (ws : list string)
    : Input :=
  {| input_card := card; words := name :: ws; _input_number := number |}.

Lemma dict_set_length (k : Isotope) (v : MaterialComponent Isotope)
    (d : list (Isotope * MaterialComponent Isotope)) :
  (length d ≤ length (dict_set k v d))%nat.
Proof. induction d as [|[k' v'] d IHd]; simpl; [lia|]. case_decide; simpl; lia. Qed.

(** What the loop leaves alone, and that it only ever adds components. *)
Lemma parse_components_frame (ws : list string) :
  ∀ (set_atom_frac : bool) (made : nat) (fr : option Q) (self m : Material),
    parse_components ws set_atom_frac made fr self = Ok m →
    card m = card self ∧ _problem m = _problem self
    ∧ _thermal_scattering m = _thermal_scattering self
    ∧ _material_number m = _material_number self
    ∧ _old_material_number m = _old_material_number self
    ∧ (length (_material_components self) ≤ length (_material_components m))%nat.
Proof.
  induction ws as [|w|i f ws IH] using pairs_ind; intros saf made fr self m.
  - by intros [= <-].
  - destruct (Isotope_init made w) as [iso|e] eqn:Hw.
    + simpl. by rewrite Hw.
    + rewrite (parse_components_refused _ _ e) by done.
      repeat case_match; try done. by intros [= <-].
  - destruct (Isotope_init made i) as [iso|e] eqn:Hi.
    + destruct (fortran_float f) as [q|] eqn:Hf.
      * rewrite (parse_components_pair _ _ _ iso q) by done.
        destruct (convention_round saf q self) as [self'|] eqn:Hround; [|done].
        apply convention_round_frame in Hround
          as (Hcard & Hproblem & Hsame & Hlaw & Hnumber & Hold & _).
        cbn [mbind result_bind].
        destruct (MaterialComponent_init iso (Qabs q)) as [c|] eqn:Hc; [|done].
        cbn [mbind result_bind]. intros Hm. apply IH in Hm. simpl in Hm.
        pose proof (dict_set_length iso c (_material_components self')).
        rewrite Hcard, Hproblem, Hlaw, Hnumber, Hold in Hm. rewrite <- Hsame.
        intuition lia.
      * simpl. by rewrite Hi, Hf.
    + rewrite (parse_components_refused _ _ e) by done.
      repeat case_match; try done. by intros [= <-].
Qed.

(** Component pairs leave the parameter string alone. *)
Lemma parse_components_parameters (pairs : list (string * string)) :
  ∀ (set_atom_frac : bool) (made : nat) (fr : option Q) (self m : Material),
    Forall component_words pairs →
    parse_components (flatten pairs) set_atom_frac made fr self = Ok m →
    _parameter_string m = _parameter_string self.
Proof.
  induction pairs as [|[i f] pairs IH]; intros saf made fr self m Hpairs.
  - by intros [= <-].
  - apply Forall_cons in Hpairs as [[Hi [q Hq]] Hpairs].
    destruct (Hi made) as [iso Hiso]. simpl in Hiso, Hq.
    unfold flatten. rewrite bind_cons. cbn [fst snd app]. fold (flatten pairs).
    rewrite (parse_components_pair _ _ _ iso q) by done.
    destruct (convention_round saf q self) as [self'|e] eqn:Hself; [|done].
    apply convention_round_frame in Hself as (_ & _ & _ & _ & _ & _ & Hsame).
    cbn [mbind result_bind].
    destruct (MaterialComponent_init iso (Qabs q)) as [c|]; [|done].
    cbn [mbind result_bind].
    intros Hm. apply IH in Hm; [|done]. simpl in Hm. by rewrite Hm.
Qed.

(** A card without comments is replayed as its input lines. *)
Lemma replay_lines (mcnp_version : version) (lines : list string) :
  ∀ (start : Z) (ret : list string),
    foldl (λ ret '(i, line),
             match (∅ : gmap Z Comment) !! i with
             | Some comment => ret ++ comment_format comment mcnp_version
             | None => ret
             end ++ [line])
          ret (zip (seqZ start (Z.of_nat (length lines))) lines)
    = ret ++ lines.
Proof.
  induction lines as [|line lines IH]; intros start ret.
  - simpl. by rewrite app_nil_r.
  - rewrite length_cons, Nat2Z.inj_succ, seqZ_cons, Z.pred_succ by lia.
    cbn [zip zip_with foldl]. rewrite lookup_empty, IH. by rewrite <- app_assoc.
Qed.

Lemma replay_without_comments (c : MCNP_Card) (mcnp_version : version) :
  _comments c = [] → _format_for_mcnp_unmutated c mcnp_version = _input_lines c.
Proof.
  intros Hnone. unfold _format_for_mcnp_unmutated, cutting_comments, enumerate.
  rewrite Hnone. cbn [foldl]. apply (replay_lines mcnp_version _ 0 []).
Qed.

(** X6: a material that [__init__] has read is untouched and carries the
    number of its card twice; it is written back as
    [_format_for_mcnp_unmutated] replays the card, and with no comments
    as exactly the input lines, provided that it has a component (it has
    one when the card starts with an isotope); without a component it
    cannot be written. *)
Theorem parsed_material_is_written_back
    (input : Input) (comment : comments_arg) (mcnp_version : version) (m : Material) :
  __init__ input comment = Ok m →
  (mutated m = false
   ∧ _material_number m = _input_number input
   ∧ _old_material_number m = Some (_input_number input))
  ∧ format_for_mcnp_input m mcnp_version
    = (if decide (_material_components m = [])
       then raise IllegalState
              ("Material: " +:+ pretty (_input_number input)
               +:+ " does not have any components defined.")
       else Ok (_format_for_mcnp_unmutated
                  (MCNP_Card.__init__ (input_card input) comment) mcnp_version))
  ∧ (comment = NoComments → _material_components m ≠ [] →
     format_for_mcnp_input m mcnp_version = Ok (input_lines (input_card input)))
  ∧ (∀ i0 ws, tail (words input) = i0 :: ws →
     (∃ isotope, Isotope_init 0 i0 = Ok isotope) →
     _material_components m ≠ []).
Proof.
  intros Hm. unfold __init__ in Hm.
  pose proof (parse_components_frame _ _ _ _ _ _ Hm)
    as (Hcard & _ & Hlaw & Hnumber & Hold & Hlen).
  simpl in Hcard, Hlaw, Hnumber, Hold, Hlen.
  assert (Hclean : mutated m = false).
  { unfold mutated. rewrite Hcard. by destruct comment. }
  assert (Hformat : format_for_mcnp_input m mcnp_version
    = (if decide (_material_components m = [])
       then raise IllegalState
              ("Material: " +:+ pretty (_input_number input)
               +:+ " does not have any components defined.")
       else Ok (_format_for_mcnp_unmutated
                  (MCNP_Card.__init__ (input_card input) comment) mcnp_version))).
  { unfold format_for_mcnp_input, validate. rewrite Hnumber.
    destruct (_material_components m) as [|kv d]; [done|].
    rewrite decide_False by done. cbn [length Nat.eqb mbind result_bind].
    rewrite Hclean, Hlaw, Hcard. done. }
  split_and!; [done..| |].
  - intros -> Hsome. rewrite Hformat, decide_False by done.
    by rewrite replay_without_comments.
  - intros i0 ws Hwords [iso Hi] Hnone. rewrite Hwords in Hm.
    destruct ws as [|f0 ws]; [simpl in Hm; by rewrite Hi in Hm|].
    destruct (fortran_float f0) as [q|] eqn:Hf; [|simpl in Hm; by rewrite Hi, Hf in Hm].
    rewrite (parse_components_pair _ _ _ iso q) in Hm by done.
    cbn [convention_round negb mbind result_bind] in Hm.
    destruct (MaterialComponent_init iso (Qabs q)) as [c|]; [|done].
    cbn [mbind result_bind] in Hm.
    apply parse_components_frame in Hm as (_ & _ & _ & _ & _ & Hgrow).
    rewrite Hnone in Hgrow. simpl in Hgrow.
    rewrite Nat.le_0_r in Hgrow. discriminate.
Qed.

(** X7: the words from the first one that [Isotope] refuses with
    [MalformedInputError] on are kept as the parameter string, joined by
    single blanks, and none of them is read as a component: the material
    is the one read from the words before them, with that parameter
    string. A card of components only has the empty parameter string. A
    word that [Isotope] refuses with [ValueError] does not start the
    parameters: [__init__] raises [MalformedInputError] with the
    fraction of the pair before it in the message, and
    [UnboundLocalError] when there is no pair before it. *)
Theorem parameters_start_at_first_non_isotope
    (card : Card) (number : Z) (name : string) (pairs : list (string * string))
    (w : string) (rest : list string) (comment : comments_arg) :
  Forall component_words pairs →
  (raises (Isotope_init (length pairs) w) MalformedInputError →
   __init__ (reading card number name (flatten pairs ++ w :: rest)) comment
   = (__init__ (reading card number name (flatten pairs)) comment
      ≫= λ m : Material, Ok (set_parameter_string (Str.join " " (w :: rest)) m)))
  ∧ (∀ m : Material,
       __init__ (reading card number name (flatten pairs)) comment = Ok m →
       _parameter_string m = Some "")
  ∧ (raises (Isotope_init (length pairs) w) ValueError →
     __init__ (Law := Law)
       (reading card number name (flatten pairs ++ w :: rest)) comment
     = (__init__ (reading card number name (flatten pairs)) comment
        ≫= λ _ : Material,
             match fraction_after None pairs with
             | Some fraction =>
                 raise MalformedInputError
                   (float_str fraction +:+ " could not be parsed as a material fraction")
             | None =>
                 raise UnboundLocalError
                   "cannot access local variable 'fraction' where it is not associated with a value"
             end)).
Proof.
  intros Hpairs. rewrite !init_started. unfold started.
  cbn [words reading tail input_card _input_number].
  assert (Hkeeps : ∀ m : Material,
    parse_components (flatten pairs) false 0 None
      {| Material.card := MCNP_Card.__init__ card comment;
         _problem := None; _material_components := [];
         _thermal_scattering := None; _material_number := number;
         _old_material_number := Some number; _is_atom_fraction := None;
         _parameter_string := Some "" |} = Ok m →
    _parameter_string m = Some "").
  { intros m Hm. by apply parse_components_parameters in Hm. }
  split_and!; [|done|].
  - intros Hw. rewrite parse_components_app by done.
    destruct (parse_components (flatten pairs) _ _ _ _) as [m|e] eqn:Hm; [|done].
    cbn [mbind result_bind]. rewrite Nat.add_0_l.
    destruct (Isotope_init (length pairs) w) as [|e] eqn:Hinit; [done|].
    simpl in Hw. rewrite (parse_components_refused _ _ e) by done.
    rewrite decide_True by done. by rewrite (Hkeeps m eq_refl).
  - intros Hw. rewrite parse_components_app by done.
    destruct (parse_components (flatten pairs) _ _ _ _) as [m|e] eqn:Hm; [|done].
    cbn [mbind result_bind]. rewrite Nat.add_0_l.
    destruct (Isotope_init (length pairs) w) as [|e] eqn:Hinit; [done|].
    simpl in Hw. rewrite (parse_components_refused _ _ e) by done.
    rewrite decide_False by (rewrite Hw; done). by rewrite decide_True by done.
Qed.

(** X8: an isotope that is the last word of the card has no fraction:
    [next] on the exhausted iterator raises [StopIteration], which
    [__init__] lets through; an isotope followed by a word that is not a
    number raises [MalformedInputError] with that word in the message.
    Either error is raised only after the components before it have been
    read without an error of their own. *)
Theorem component_without_fraction_is_an_error
    (card : Card) (number : Z) (name : string) (pairs : list (string * string))
    (w : string) (comment : comments_arg) :
  Forall component_words pairs →
  (∃ isotope, Isotope_init (length pairs) w = Ok isotope) →
  __init__ (Law := Law) (reading card number name (flatten pairs ++ [w])) comment
  = (__init__ (reading card number name (flatten pairs)) comment
     ≫= λ _ : Material, raise StopIteration "")
  ∧ ∀ (f : string) (rest : list string),
      fortran_float f = None →
      __init__ (Law := Law)
        (reading card number name (flatten pairs ++ w :: f :: rest)) comment
      = (__init__ (reading card number name (flatten pairs)) comment
         ≫= λ _ : Material,
              raise MalformedInputError
                (f +:+ " could not be parsed as a material fraction")).
Proof.
  intros Hpairs [iso Hw]. unfold __init__.
  cbn [words reading tail input_card _input_number].
  split; [|intros f rest Hf]; rewrite parse_components_app by done;
    (destruct (parse_components (flatten pairs) _ _ _ _) as [m|e]; [|done]);
    cbn [mbind result_bind parse_components]; rewrite Nat.add_0_l, Hw; [done|].
  by rewrite Hf.
Qed.

Lemma dict_set_fresh (k : Isotope) (v : MaterialComponent Isotope)
    (d : list (Isotope * MaterialComponent Isotope)) :
  k ∉ d.*1 → dict_set k v d = d ++ [(k, v)].
Proof.
  induction d as [|[k' v'] d IH]; [done|].
  rewrite fmap_cons, not_elem_of_cons. intros [Hne Hout]. simpl.
  rewrite decide_False by done. by rewrite IH.
Qed.

(** Readings under distinct keys are stored one after the other. *)
Lemma store_all_fresh (rs : list (Isotope * Q)) :
  ∀ d : list (Isotope * MaterialComponent Isotope),
    NoDup (d.*1 ++ rs.*1) →
    store_all rs d = d ++ ((λ r, (r.1, component_of_reading r)) <$> rs).
Proof.
  induction rs as [|r rs IH]; intros d Hdistinct.
  - simpl. by rewrite app_nil_r.
  - rewrite fmap_cons in Hdistinct.
    apply NoDup_app in Hdistinct as Hparts. destruct Hparts as (_ & Hout & _).
    assert (r.1 ∉ d.*1) as Hfresh.
    { intros Hin. apply (Hout _ Hin). by left. }
    unfold store_all. cbn [foldl]. fold (store_all rs (dict_set r.1 (component_of_reading r) d)).
    rewrite dict_set_fresh by done. rewrite IH.
    + rewrite fmap_cons, <- app_assoc. done.
    + rewrite fmap_app, <- app_assoc. done.
Qed.

(** X9: the components of a card of component pairs are stored pair by
    pair: the loop reads one isotope object and one fraction from every
    pair and stores, in the order of the card, the component of each
    under its isotope. When the isotope objects are distinct dictionary
    keys, as the objects of a class without [__eq__] are even for a
    repeated word, the material has exactly one component per pair, each
    with the magnitude of the fraction of its own pair. *)
Theorem components_are_stored_pair_by_pair
    (card : Card) (number : Z) (name : string) (pairs : list (string * string))
    (comment : comments_arg) (m : Material) :
  Forall component_words pairs →
  __init__ (reading card number name (flatten pairs)) comment = Ok m →
  Forall2 (λ p r, fortran_float p.2 = Some r.2) pairs (readings 0 (flatten pairs))
  ∧ _material_components m = store_all (readings 0 (flatten pairs)) []
  ∧ (NoDup (readings 0 (flatten pairs)).*1 →
     _material_components m
     = (λ r, (r.1, {| isotope := r.1; fraction := Qabs r.2 |}))
       <$> readings 0 (flatten pairs)).
Proof.
  intros Hpairs Hm. rewrite init_started in Hm.
  apply parse_components_stores in Hm.
  cbn [words reading tail started _material_components] in Hm.
  destruct (readings_flatten pairs [] 0 Hpairs) as (rs & _ & Hrs & Hfloats).
  rewrite Hrs in *. split_and!; [done..|].
  intros Hdistinct. rewrite Hm. by rewrite store_all_fresh.
Qed.

End reading.

End MaterialReadFacts.

(** ** Materials: sequences of assignments, and clones at the edges *)

Module MaterialNumberFacts.
Import MCNP_Card Numbered Material MaterialFacts.

Section numbers.
Context {Isotope Law : Type}.
Context `{IsotopeClass Isotope} `{Utilities} `{FloatFormat}.
Context `{ThermalScatteringClass Law} `{CommentFormat} `{PyHash}.

#[local] Abbreviation Material := (Material.Material Isotope Law).

(** The numbers that the other materials of the problem of [self] hold. *)
Definition others (self : Material) : gset Z :=
  match _problem self with
  | Some problem =>
      if holds_self problem
      then numbers (materials problem) ∖ {[_material_number self]}
      else numbers (materials problem)
  | None => ∅
  end.

(** The values that [self] may take for its number: positive integers
    that no other material of its problem holds. *)
Definition allowed (self : Material) (v : value) : bool :=
  isinstance_int v && (0 <? int_of v) && bool_decide (int_of v ∉ others self).

(** A material whose problem, if it holds the material, has its number. *)
Definition in_step (self : Material) : Prop :=
  ∀ problem, _problem self = Some problem → holds_self problem = true →
             _material_number self ∈ numbers (materials problem).

Lemma renumber_others (held : gset Z) (old number : Z) :
  number ∉ held →
  ({[number]} ∪ (held ∖ {[old]})) ∖ {[number]} = held ∖ {[old]}.
Proof.
  intros Hfree. apply set_eq. intros k.
  rewrite !elem_of_difference, elem_of_union, elem_of_difference, !elem_of_singleton.
  split; [tauto|]. intros [Hk ?]. split_and!; [by right|]. by intros ->.
Qed.

(** One assignment: a value that is allowed becomes the number, unless
    the material has it already and is held by its problem, in which
    case the assignment is refused and the number stays. *)
Lemma number_setter_allowed (v : value) (self : Material) :
  in_step self →
  let self' := (number_setter v self).2 in
  _material_number self'
  = (if allowed self v then int_of v else _material_number self)
  ∧ others self' = others self
  ∧ in_step self'
  ∧ (holds_self <$> _problem self') = (holds_self <$> _problem self)
  ∧ (self' = self ∨ self' = renumbered (int_of v) self).
Proof.
  intros Hstep. cbn zeta. rewrite number_setter_cases. unfold allowed.
  destruct (isinstance_int v); [|by split_and!; auto]. simpl.
  destruct (Z.leb_spec (int_of v) 0), (Z.ltb_spec 0 (int_of v)); try lia;
    [by split_and!; auto|]. simpl.
  unfold others, in_step in *.
  destruct (_problem self) as [problem|] eqn:Hproblem.
  - specialize (Hstep problem eq_refl).
    destruct (decide (int_of v ∈ numbers (materials problem))) as [Hin|Hout];
      cbn [snd].
    + rewrite Hproblem. split_and!; auto; [|by intros ? [= <-]].
      destruct (holds_self problem); [|by rewrite bool_decide_false by tauto].
      case_bool_decide as Hv; [|done].
      by apply not_elem_of_difference in Hv as [?|Heq%elem_of_singleton].
    + cbn [renumbered set_material_number set_card _material_number _problem card].
      rewrite Hproblem. cbn [fmap option_fmap option_map]. unfold renumber.
      destruct (holds_self problem) eqn:Hheld; cbn [holds_self materials numbers].
      * rewrite bool_decide_true.
        2:{ rewrite elem_of_difference. tauto. }
        split_and!; auto; [by apply renumber_others|].
        intros ? [= <-] _. cbn [materials numbers].
        apply elem_of_union. left. by apply elem_of_singleton.
      * rewrite bool_decide_true by done. rewrite Hheld.
        split_and!; auto. intros ? [= <-]. cbn [holds_self]. by rewrite Hheld.
  - rewrite bool_decide_true by apply not_elem_of_empty.
    simpl. rewrite Hproblem. split_and!; auto. by intros ? [=].
Qed.

(** X10: after any sequence of assignments to [number], each error
    caught by the caller, the material carries the last value that is a
    positive integer held by no other material of its problem, or its
    former number if there is none. A material in a problem is refused
    the number it has, which leaves it with that number; the number it
    has left is free again for it. The numbers of the other materials,
    the original number, the components and the comments are as before;
    the material is mutated if it was, and whenever its number has
    changed. *)
Theorem number_is_last_allowed (self : Material) (calls : list value) :
  in_step self →
  _material_number (assign_numbers calls self)
  = default (_material_number self)
      (last (int_of <$> filter (λ v, allowed self v = true) calls))
  ∧ others (assign_numbers calls self) = others self
  ∧ in_step (assign_numbers calls self)
  ∧ (mutated self = true → mutated (assign_numbers calls self) = true)
  ∧ (_material_number (assign_numbers calls self) ≠ _material_number self →
     mutated (assign_numbers calls self) = true)
  ∧ _old_material_number (assign_numbers calls self) = _old_material_number self
  ∧ _material_components (assign_numbers calls self) = _material_components self
  ∧ _comments (card (assign_numbers calls self)) = _comments (card self).
Proof.
  intros Hstep. induction calls as [|v calls IH] using rev_ind; [done|].
  destruct IH as (Hnumber & Hothers & Hstep' & Hdirty & Hchanged & Hold
                  & Hcomponents & Hcomments).
  unfold assign_numbers in *. rewrite foldl_app. cbn [foldl].
  set (m := foldl _ self calls) in *.
  destruct (number_setter_allowed v m Hstep')
    as (Hnumber' & Hothers' & Hstep'' & _ & Hcases).
  cbn zeta in *.
  assert (allowed m v = allowed self v) as Hsame.
  { unfold allowed. by rewrite Hothers. }
  rewrite Hsame in Hnumber'.
  rewrite filter_app, filter_cons, filter_nil.
  assert (Hnumber'' : _material_number (number_setter v m).2
    = default (_material_number self)
        (last (int_of <$> filter (λ v, allowed self v = true) calls
                          ++ (if decide (allowed self v = true) then [v] else [])))).
  { rewrite Hnumber'. destruct (allowed self v) eqn:Hv.
    - rewrite decide_True by done. rewrite fmap_app.
      change (int_of <$> [v]) with [int_of v]. by rewrite last_snoc.
    - rewrite decide_False by (by intros ?). by rewrite app_nil_r. }
  split; [done|]. split; [congruence|]. split; [done|].
  clear Hnumber''.
  destruct Hcases as [Hcase|Hcase]; rewrite Hcase in *.
  - split_and!; try done.
  - split_and!; try done.
Qed.

(** X11: a material that belongs to no problem is cloned with exactly
    [starting_number] when that is positive, whatever [step] is; and
    [clone] raises [ValueError] for a [starting_number] that is not
    positive, in a problem (with a positive [step]) as well as outside
    one. One round of the closing loop suffices for both. *)
Theorem clone_outside_a_problem_or_from_below_one
    (fuel : nat) (self : Material) (starting_number step : Z) :
  (0 < fuel)%nat →
  (_problem self = None → 0 < starting_number →
   clone fuel self starting_number step
   = Some (Ok (renumbered starting_number self)))
  ∧ (_problem self = None ∨ 0 < step → starting_number ≤ 0 →
     clone fuel self starting_number step
     = Some (raise ValueError "number must be > 0")).
Proof.
  intros Hfuel. destruct fuel as [|fuel]; [lia|].
  assert (Hlow : ∀ m : Material, starting_number ≤ 0 →
    clone_count (S fuel) starting_number m
    = Some (raise ValueError "number must be > 0")).
  { intros m Hstart. cbn [clone_count Numbered.number_setter Material_numbered].
    rewrite number_setter_cases. simpl.
    destruct (Z.leb_spec starting_number 0); [done|lia]. }
  split.
  - intros Hnone Hstart. unfold clone.
    cbn [collection Material_numbered]. rewrite Hnone.
    cbn [fmap option_fmap option_map clone_count Numbered.number_setter
         Material_numbered].
    rewrite number_setter_cases, Hnone. simpl.
    destruct (Z.leb_spec starting_number 0); [lia|done].
  - intros Hwhere Hstart. unfold clone. cbn [collection Material_numbered].
    destruct (_problem self) as [problem|] eqn:Hproblem;
      cbn [fmap option_fmap option_map]; [|by apply Hlow].
    destruct Hwhere as [?|Hstep]; [done|].
    destruct (request_number_free (materials problem) starting_number step)
      as (r & -> & Hle & Hfree); [done|].
    cbn [Numbered.number_setter Material_numbered].
    rewrite number_setter_cases, Hproblem. simpl.
    destruct (Z.leb_spec r 0); [done|].
    rewrite decide_False by done. by apply Hlow.
Qed.

End numbers.

End MaterialNumberFacts.

(** ** Materials: the hash and the order of insertion *)

Module MaterialHashFacts.
Import MCNP_Card Numbered Material MaterialFacts MaterialReadFacts.

Section permutations.
Context {K V : Type} `{EqDecision K}.

(** In a dictionary a key is bound to the one value it is listed with. *)
Lemma dict_get_Some (k : K) (v : V) (d : list (K * V)) :
  NoDup d.*1 → dict_get k d = Some v ↔ (k, v) ∈ d.
Proof.
  induction d as [|[k' v'] d IH]; simpl.
  - intros _. split; [done|by intros ?%elem_of_nil].
  - intros [Hfresh Hd]%NoDup_cons. rewrite elem_of_cons, <- IH by done.
    destruct (decide (k = k')) as [->|Hne].
    + split; [intros [= ->]; by left|].
      intros [[= ->]|Hin]; [done|].
      apply dict_get_None in Hfresh. congruence.
    + split; [by right|]. intros [[= ? ?]|?]; done.
Qed.

Lemma dict_get_Permutation (k : K) (d1 d2 : list (K * V)) :
  NoDup d1.*1 → d1 ≡ₚ d2 → dict_get k d1 = dict_get k d2.
Proof.
  intros Hd1 Hperm.
  assert (Hd2 : NoDup d2.*1) by (by rewrite <- Hperm).
  destruct (dict_get k d1) as [v|] eqn:H1.
  - symmetry. apply dict_get_Some; [done|]. rewrite <- Hperm.
    by apply dict_get_Some.
  - destruct (dict_get k d2) as [v|] eqn:H2; [|done].
    apply dict_get_Some in H2; [|done]. rewrite <- Hperm in H2.
    apply dict_get_Some in H2; [|done]. congruence.
Qed.

End permutations.

Section orders.
Context {K : Type} (lt : K → K → bool).

(** [lt] is a strict total order among the items of [keys]. *)
Definition strict_total_on (keys : list K) : Prop :=
  (∀ x y z, x ∈ keys → y ∈ keys → z ∈ keys →
     lt x y = true → lt y z = true → lt x z = true)
  ∧ (∀ x y, x ∈ keys → y ∈ keys → lt x y = true → lt y x = true → False)
  ∧ (∀ x y, x ∈ keys → y ∈ keys → x ≠ y → lt x y = true ∨ lt y x = true).

Lemma insert_sorted_Permutation (x : K) (xs : list K) :
  insert_sorted lt x xs ≡ₚ x :: xs.
Proof.
  induction xs as [|y xs IH]; simpl; [done|].
  destruct (lt y x); [|done]. rewrite IH. apply perm_swap.
Qed.

Lemma sorted_Permutation (xs : list K) : sorted lt xs ≡ₚ xs.
Proof.
  unfold sorted. induction xs as [|x xs IH]; simpl; [done|].
  by rewrite insert_sorted_Permutation, IH.
Qed.

Lemma insert_sorted_StronglySorted (keys : list K) (x : K) (xs : list K) :
  strict_total_on keys → x ∈ keys → xs ⊆ keys → x ∉ xs →
  StronglySorted (λ a b, lt a b = true) xs →
  StronglySorted (λ a b, lt a b = true) (insert_sorted lt x xs).
Proof.
  intros (Htrans & _ & Htotal) Hx Hxs Hfresh Hsorted.
  induction Hsorted as [|y xs Hsorted IH Hy]; simpl.
  - by repeat constructor.
  - assert (Hy_in : y ∈ keys) by (apply Hxs; by left).
    assert (Hrest : xs ⊆ keys) by (intros z Hz; apply Hxs; by right).
    apply not_elem_of_cons in Hfresh as [Hne Hfresh].
    destruct (lt y x) eqn:Hyx.
    + constructor; [by apply IH|].
      rewrite insert_sorted_Permutation. by constructor.
    + assert (Hxy : lt x y = true).
      { destruct (Htotal x y) as [?|?]; [done..| |congruence]. done. }
      constructor; [by constructor|]. constructor; [done|].
      rewrite Forall_forall in Hy |- *. intros z Hz.
      apply (Htrans x y z); auto.
Qed.

Lemma sorted_StronglySorted (keys : list K) :
  strict_total_on keys → NoDup keys →
  StronglySorted (λ a b, lt a b = true) (sorted lt keys).
Proof.
  intros Horder Hdistinct.
  assert (Hsub : keys ⊆ keys) by done. revert Hsub Hdistinct.
  generalize keys at 1 3 4 as xs.
  induction xs as [|x xs IH]; [constructor|].
  intros Hsub [Hfresh Hdistinct]%NoDup_cons.
  change (sorted lt (x :: xs)) with (insert_sorted lt x (sorted lt xs)).
  apply (insert_sorted_StronglySorted keys); [done| | | |].
  - apply Hsub. by left.
  - intros z Hz. apply Hsub. right. by rewrite sorted_Permutation in Hz.
  - intros Hin. by rewrite sorted_Permutation in Hin.
  - apply IH; [|done]. intros z Hz. apply Hsub. by right.
Qed.

(** Sorting cancels the order of the input. *)
Lemma sorted_order_free (keys1 keys2 : list K) :
  strict_total_on keys1 → NoDup keys1 → keys1 ≡ₚ keys2 →
  sorted lt keys1 = sorted lt keys2.
Proof.
  intros Horder Hdistinct Hperm.
  assert (Horder2 : strict_total_on keys2).
  { destruct Horder as (Htrans & Hasym & Htotal).
    split_and!; intros *; rewrite <- !Hperm; eauto. }
  apply (StronglySorted_unique_strong (λ a b, lt a b = true)).
  - intros x1 x2 Hx1 Hx2 H12 H21.
    rewrite sorted_Permutation in Hx1, Hx2.
    destruct Horder as (_ & Hasym & _). rewrite <- Hperm in Hx2.
    destruct (Hasym x1 x2); done.
  - by apply sorted_StronglySorted.
  - apply sorted_StronglySorted; [done|]. by rewrite <- Hperm.
  - by rewrite !sorted_Permutation.
Qed.

End orders.

Section hashing.
Context {Isotope Law : Type}.
Context `{IsotopeClass Isotope} `{Utilities} `{FloatFormat}.
Context `{ThermalScatteringClass Law} `{CommentFormat} `{PyHash}.

#[local] Abbreviation Material := (Material.Material Isotope Law).

(** X12: the hash does not depend on the order in which the components
    were put into the dictionary: when [__lt__] is a strict total order
    among the isotopes of a material, every material with the same
    number and the same components in another order has the same hash,
    and the two compare equal. *)
Theorem hash_ignores_insertion_order (m1 m2 : Material) :
  strict_total_on Isotope_lt (_material_components m1).*1 →
  NoDup (_material_components m1).*1 →
  _material_components m1 ≡ₚ _material_components m2 →
  _material_number m1 = _material_number m2 →
  sorted_components m1 = sorted_components m2
  ∧ __hash__ m1 = __hash__ m2
  ∧ __eq__ m1 m2 = true.
Proof.
  intros Horder Hdistinct Hperm Hnumber.
  assert (Hsame : sorted_components m1 = sorted_components m2).
  { unfold sorted_components.
    rewrite (sorted_order_free Isotope_lt _ (_material_components m2).*1)
      by (done || by rewrite Hperm).
    apply list_fmap_ext. intros _ iso _.
    by rewrite (dict_get_Permutation iso _ _ Hdistinct Hperm). }
  assert (Hhash : __hash__ m1 = __hash__ m2).
  { rewrite !hash_is_hash_of. congruence. }
  split_and!; [done..|]. unfold __eq__. by apply bool_decide_eq_true.
Qed.

End hashing.

End MaterialHashFacts.

(** ** Materials: thermal scattering pointers and element names *)

Module MaterialPointerFacts.
Import MCNP_Card Numbered Material MaterialFacts MaterialHashFacts.

Section pointers.
Context {Isotope Law Other Element : Type}.
Context `{IsotopeClass Isotope} `{ThermalScatteringNumber Law}.
Context `{EqDecision Law} `{EqDecision Other} `{ElementClass Isotope Element}.

#[local] Abbreviation Material := (Material.Material Isotope Law).
#[local] Abbreviation data_inputs := (list (data_input Law Other)).

(** An [MT] input that names the number of the material. *)
Definition names (self : Material) (input : data_input Law Other) : Prop :=
  match input with
  | MT law => law_old_number law = _material_number self
  | OtherInput _ => False
  end.

#[local] Instance names_dec (self : Material) (input : data_input Law Other) :
  Decision (names self input).
Proof. destruct input; simpl; apply _. Defined.

(** What the loop makes of the inputs that name the material once the
    material has a law. *)
Definition no_second_law (self : Material) (inputs : data_inputs) : result unit :=
  if decide (Forall (λ input, ¬ names self input) inputs)
  then Ok tt
  else raise MalformedInputError
         "Multiple MT inputs were specified for this material.".

Lemma update_pointers_loop_others (inputs : data_inputs) :
  ∀ (self : Material) (all : data_inputs),
    Forall (λ input, ¬ names self input) inputs →
    update_pointers_loop inputs (self, all) = (Ok tt, (self, all)).
Proof.
  induction inputs as [|input inputs IH]; intros self all Hnone; [done|].
  apply Forall_cons in Hnone as [Hinput Hnone].
  cbn [update_pointers_loop]. unfold bind_m.
  destruct input as [law|other]; simpl in *.
  - rewrite decide_False by done. by apply IH.
  - by apply IH.
Qed.

Lemma update_pointers_loop_has_law (inputs : data_inputs) :
  ∀ (self : Material) (all : data_inputs),
    is_Some (_thermal_scattering self) →
    update_pointers_loop inputs (self, all)
    = (no_second_law self inputs, (self, all)).
Proof.
  unfold no_second_law.
  induction inputs as [|input inputs IH]; intros self all Hlaw; [done|].
  cbn [update_pointers_loop]. unfold bind_m.
  destruct input as [law|other]; simpl.
  - destruct (decide (law_old_number law = _material_number self)) as [Hname|Hname].
    + destruct Hlaw as [law' ->]. rewrite decide_False; [done|].
      by intros [? _]%Forall_cons.
    + rewrite IH by done. apply pair_eq. split; [|done].
      apply (decide_ext _ _). rewrite Forall_cons. simpl. tauto.
  - rewrite IH by done. apply pair_eq. split; [|done].
    apply (decide_ext _ _). rewrite Forall_cons. simpl. tauto.
Qed.

Lemma list_remove_first {A} `{EqDecision A} (x : A) (before after : list A) :
  x ∉ before → list_remove x (before ++ x :: after) = Ok (before ++ after).
Proof.
  induction before as [|y before IH]; simpl.
  - intros _. by rewrite decide_True.
  - intros [Hne Hout]%not_elem_of_cons. rewrite decide_False by done.
    by rewrite IH.
Qed.

(** X16: [update_pointers] gives the material the first [MT] input of
    the list whose number is the current number of the material, and
    takes that input out of the caller's list; the other inputs stay, in
    their order. A second such input raises [MalformedInputError], as
    does any such input when the material already has a law; the first
    one has then been taken all the same. With no such input nothing
    changes. *)
Theorem update_pointers_takes_the_first_law (self : Material) :
  (∀ (before after : data_inputs) (law : Law),
     _thermal_scattering self = None →
     Forall (λ input, ¬ names self input) before →
     law_old_number law = _material_number self →
     update_pointers (self, before ++ MT law :: after)
     = (no_second_law self after,
        (set_thermal_scattering law self, before ++ after)))
  ∧ (∀ inputs : data_inputs,
       Forall (λ input, ¬ names self input) inputs →
       update_pointers (self, inputs) = (Ok tt, (self, inputs)))
  ∧ (∀ inputs : data_inputs,
       is_Some (_thermal_scattering self) →
       update_pointers (self, inputs) = (no_second_law self inputs, (self, inputs))).
Proof.
  split_and!.
  - intros before after law Hnone Hbefore Hlaw.
    assert (Hloop : ∀ all : data_inputs,
      update_pointers_loop (before ++ MT law :: after) (self, all)
      = update_pointers_loop (MT law :: after) (self, all)).
    { clear Hnone Hlaw. induction Hbefore as [|input before Hinput _ IH];
        intros all'; [done|].
      cbn [app update_pointers_loop]. unfold bind_m.
      destruct input as [law'|other]; simpl in *; [|apply IH].
      rewrite decide_False by done. apply IH. }
    unfold update_pointers. rewrite Hloop.
    cbn [update_pointers_loop]. unfold bind_m.
    rewrite decide_True, Hnone by done.
    rewrite list_remove_first.
    + rewrite update_pointers_loop_has_law by (simpl; eauto). done.
    + intros Hin. rewrite Forall_forall in Hbefore.
      by apply (Hbefore _ Hin).
  - intros inputs Hnone. by apply update_pointers_loop_others.
  - intros inputs Hlaw. by apply update_pointers_loop_has_law.
Qed.

(** The state of the loop of [_get_material_elements] after the isotopes
    [isotopes]: the elements seen, latest first, and their names. *)
Lemma elements_loop (components : list (Isotope * Q)) :
  ∀ seen : list Element,
    NoDup seen →
    ∃ new : list Element,
      foldl (λ '(elements_set, elements) '(isotope, _),
               if decide (element isotope ∈ elements_set)
               then (elements_set, elements)
               else (element isotope :: elements_set,
                     elements ++ [element_name (element isotope)]))
            (seen, element_name <$> reverse seen) components
      = (reverse new ++ seen, element_name <$> reverse (reverse new ++ seen))
      ∧ NoDup (reverse new ++ seen)
      ∧ ∀ e, e ∈ new ↔ ((e ∉ seen) ∧ ∃ iso, iso ∈ components.*1 ∧ element iso = e).
Proof.
  induction components as [|[iso q] components IH]; intros seen Hseen.
  - exists []. split_and!; [done..|]. intros e. split; [by intros ?%elem_of_nil|].
    by intros (_ & iso & ?%elem_of_nil & _).
  - cbn [foldl]. destruct (decide (element iso ∈ seen)) as [Hin|Hout].
    + destruct (IH seen Hseen) as (new & -> & Hdistinct & Hnew).
      exists new. split_and!; [done..|]. intros e. rewrite Hnew.
      split; intros [Hfresh (iso' & Hiso' & <-)]; (split; [done|]).
      * exists iso'. split; [by right|done].
      * apply elem_of_cons in Hiso' as [->|?]; [done|]. by exists iso'.
    + destruct (IH (element iso :: seen)) as (new & Hloop & Hdistinct & Hnew).
      { by constructor. }
      rewrite reverse_cons, fmap_app in Hloop. cbn [fmap list_fmap] in Hloop.
      rewrite Hloop. exists (element iso :: new).
      rewrite reverse_cons, <- !app_assoc. cbn [app].
      split_and!; [done..|]. intros e. rewrite elem_of_cons, Hnew, not_elem_of_cons.
      split.
      * intros [->|[[Hne Hfresh] (iso' & Hiso' & <-)]].
        -- split; [done|]. exists iso. split; [by left|done].
        -- split; [done|]. exists iso'. split; [by right|done].
      * intros [Hfresh (iso' & Hiso' & <-)].
        destruct (decide (element iso' = element iso)) as [?|Hne]; [by left|].
        right. split; [done|]. apply elem_of_cons in Hiso' as [->|?]; [done|].
        by exists iso'.
Qed.

(** X17: [_get_material_elements] names each element of the material
    once, however many of its isotopes the material holds: the names are
    those of a duplicate-free list of elements that holds exactly the
    elements of the isotopes of the material. *)
Theorem elements_are_named_once (self : Material) :
  ∃ elements : list Element,
    _get_material_elements self = element_name <$> elements
    ∧ NoDup elements
    ∧ ∀ e, e ∈ elements
           ↔ ∃ iso, iso ∈ (_material_components self).*1 ∧ element iso = e.
Proof.
  unfold _get_material_elements.
  set (components := (λ '(iso, component), (iso, fraction component))
                     <$> _material_components self).
  assert (Hkeys : (sorted component_lt components).*1 ≡ₚ (_material_components self).*1).
  { rewrite sorted_Permutation.
    replace (components.*1) with ((_material_components self).*1); [done|].
    subst components. rewrite <- list_fmap_compose.
    apply list_fmap_ext. by intros ? [??] ?. }
  destruct (elements_loop (sorted component_lt components) [])
    as (new & Hloop & Hdistinct & Hnew); [constructor|].
  simpl in Hloop. rewrite Hloop. cbn [snd].
  exists (reverse (reverse new ++ [])). split_and!; [done| |].
  - by rewrite reverse_Permutation.
  - intros e. rewrite elem_of_reverse, app_nil_r, elem_of_reverse, Hnew.
    split.
    + intros [_ (iso & Hiso & <-)]. exists iso. by rewrite <- Hkeys.
    + intros (iso & Hiso & <-). split; [apply not_elem_of_nil|].
      exists iso. by rewrite Hkeys.
Qed.

End pointers.

End MaterialPointerFacts.

Module MaterialMoreExamples.
Import MCNP_Card Numbered Material MaterialFacts MaterialReadFacts.
Import MaterialNumberFacts MaterialHashFacts MaterialPointerFacts Demo.

(** X6 on the card [m1 1001.80c 0.5 8016.80c 0.5]. *)
Lemma parsed_material_is_written_back_witness :
  format_for_mcnp_input (parsed water_input) [6; 2; 0]
  = Ok ["m1 1001.80c 0.5 8016.80c 0.5"].
Proof.
  assert (Hread : Material.__init__ water_input NoComments = Ok (parsed water_input))
    by reflexivity.
  apply (proj1 (proj2 (proj2
    (parsed_material_is_written_back water_input NoComments [6; 2; 0]
       (parsed water_input) Hread)))); [reflexivity|discriminate].
Defined.

(** The card [m1 1001.80c 0.5 nlib=80c 8016.80c 0.5] and what is left
    of it before the parameters. *)
Definition parameter_card : Card :=
  {| input_lines := ["m1 1001.80c 0.5 nlib=80c 8016.80c 0.5"] |}.

Lemma hydrogen_pair : Forall component_words [("1001.80c", "0.5")].
Proof. solve_component_words. Qed.

(** X7: the isotope behind [nlib=80c] is part of the parameter string,
    and [estep=0.5], which [Isotope] refuses with [ValueError], is
    reported as a fraction that could not be parsed. *)
Lemma parameters_start_at_first_non_isotope_witness :
  Material.__init__ (Law := list string)
    (reading parameter_card 1 "m1" ["1001.80c"; "0.5"; "nlib=80c"; "8016.80c"; "0.5"])
    NoComments
  = Ok (set_parameter_string "nlib=80c 8016.80c 0.5"
          (parsed (reading parameter_card 1 "m1" ["1001.80c"; "0.5"])))
  ∧ raises (Material.__init__ (Law := list string)
              (reading parameter_card 1 "m1" ["1001.80c"; "0.5"; "estep=0.5"])
              NoComments)
           MalformedInputError.
Proof.
  split.
  - exact (proj1 (parameters_start_at_first_non_isotope (Law := list string)
                    parameter_card 1 "m1"
                    [("1001.80c", "0.5")] "nlib=80c" ["8016.80c"; "0.5"] NoComments
                    hydrogen_pair) eq_refl).
  - rewrite (proj2 (proj2 (parameters_start_at_first_non_isotope (Law := list string)
                    parameter_card 1 "m1"
                    [("1001.80c", "0.5")] "estep=0.5" [] NoComments
                    hydrogen_pair)) eq_refl).
    reflexivity.
Defined.

(** X8 on [m1 1001.80c 0.5 8016.80c] and [m1 1001.80c 0.5 8016.80c half]. *)
Lemma component_without_fraction_is_an_error_witness :
  Material.__init__ (Law := list string)
    (reading parameter_card 1 "m1" ["1001.80c"; "0.5"; "8016.80c"]) NoComments
  = raise StopIteration ""
  ∧ Material.__init__ (Law := list string)
      (reading parameter_card 1 "m1" ["1001.80c"; "0.5"; "8016.80c"; "half"])
      NoComments
    = raise MalformedInputError "half could not be parsed as a material fraction".
Proof.
  destruct (component_without_fraction_is_an_error (Law := list string)
              parameter_card 1 "m1" [("1001.80c", "0.5")] "8016.80c" NoComments
              hydrogen_pair (ex_intro _ (1%nat, "8016.80c") eq_refl))
    as [Hlast Hword].
  split; [exact Hlast|exact (Hword "half" [] eq_refl)].
Defined.

(** X9 on [m1 1001.80c 0.5 8016.80c 0.25 1001.80c 0.75]: the two
    isotopes made from [1001.80c] are two objects, and the material has
    three components. *)
Definition repeated_input : Input :=
  reading {| input_lines := ["m1 1001.80c 0.5 8016.80c 0.25 1001.80c 0.75"] |} 1 "m1"
    ["1001.80c"; "0.5"; "8016.80c"; "0.25"; "1001.80c"; "0.75"].

Lemma components_are_stored_pair_by_pair_witness :
  _material_components (parsed repeated_input)
  = [((0%nat, "1001.80c"),
      {| isotope := (0%nat, "1001.80c"); fraction := Qabs (5 # 10) |});
     ((1%nat, "8016.80c"),
      {| isotope := (1%nat, "8016.80c"); fraction := Qabs (25 # 100) |});
     ((2%nat, "1001.80c"),
      {| isotope := (2%nat, "1001.80c"); fraction := Qabs (75 # 100) |})].
Proof.
  destruct (components_are_stored_pair_by_pair (Law := list string)
              {| input_lines := ["m1 1001.80c 0.5 8016.80c 0.25 1001.80c 0.75"] |}
              1 "m1"
              [("1001.80c", "0.5"); ("8016.80c", "0.25"); ("1001.80c", "0.75")]
              NoComments (parsed repeated_input))
    as (_ & _ & Hstored).
  - solve_component_words.
  - reflexivity.
  - apply Hstored. apply (bool_decide_unpack _). vm_compute. exact I.
Defined.

(** X11: clones of the card [m1 ...] outside a problem, and from 0 and
    from -3 in a problem that holds 1 and 2. *)
Lemma clone_outside_a_problem_or_from_below_one_witness :
  clone 1 (parsed water_input) 5 3 = Some (Ok (renumbered 5 (parsed water_input)))
  ∧ clone 1 (parsed water_input) 0 1 = Some (raise ValueError "number must be > 0")
  ∧ clone 1 (linked {[1; 2]} (parsed water_input)) (-3) 2
    = Some (raise ValueError "number must be > 0").
Proof.
  split_and!.
  - apply (clone_outside_a_problem_or_from_below_one 1 (parsed water_input) 5 3);
      [lia|reflexivity|lia].
  - apply (clone_outside_a_problem_or_from_below_one 1 (parsed water_input) 0 1);
      [lia|by left|lia].
  - apply (clone_outside_a_problem_or_from_below_one 1
             (linked {[1; 2]} (parsed water_input)) (-3) 2);
      [lia|right; lia|lia].
Defined.

(** X10 on the card [m1 ...] in a problem that holds 1, 2 and 3: of
    five assignments the first takes 7, the string, the number 2 of
    another material and 0 are refused, and 1, which the material has
    left, is taken again. *)
Lemma number_is_last_allowed_witness :
  _material_number
    (assign_numbers [PyInt 7; PyStr "8"; PyInt 2; PyInt 1; PyInt 0]
       (linked {[1; 2; 3]} (parsed water_input))) = 1
  ∧ _old_material_number
      (assign_numbers [PyInt 7; PyStr "8"; PyInt 2; PyInt 1; PyInt 0]
         (linked {[1; 2; 3]} (parsed water_input))) = Some 1.
Proof.
  destruct (number_is_last_allowed (linked {[1; 2; 3]} (parsed water_input))
              [PyInt 7; PyStr "8"; PyInt 2; PyInt 1; PyInt 0])
    as (Hnumber & _ & _ & _ & _ & Hold & _).
  - intros problem [= <-] _. vm_compute. reflexivity.
  - split; [rewrite Hnumber|rewrite Hold]; reflexivity.
Defined.

(** X12: the card [m1 ...] with its two components put into the
    dictionary in the other order. *)
Definition water_swapped : DemoMaterial :=
  {| Material.card := Material.card (parsed water_input);
     _problem := None;
     _material_components := reverse (_material_components (parsed water_input));
     _thermal_scattering := None;
     _material_number := 1;
     _old_material_number := Some 1;
     _is_atom_fraction := Some true;
     _parameter_string := Some "" |}.

Lemma hash_ignores_insertion_order_witness :
  __hash__ (parsed water_input) = __hash__ water_swapped
  ∧ __eq__ (parsed water_input) water_swapped = true.
Proof.
  refine (proj2 (hash_ignores_insertion_order (parsed water_input)
                   water_swapped _ _ _ eq_refl)).
  - assert (Hkeys : ∀ x : zaid,
      x ∈ (_material_components (parsed water_input)).*1 →
      x = (0%nat, "1001.80c") ∨ x = (1%nat, "8016.80c")).
    { intros x Hx. change (x ∈ [(0%nat, "1001.80c"); (1%nat, "8016.80c")]) in Hx.
      apply elem_of_cons in Hx as [->|Hx]; [by left|].
      apply elem_of_cons in Hx as [->|Hx]; [by right|].
      by apply elem_of_nil in Hx. }
    split_and!.
    + intros x y z [->| ->]%Hkeys [->| ->]%Hkeys [->| ->]%Hkeys;
        vm_compute; congruence.
    + intros x y [->| ->]%Hkeys [->| ->]%Hkeys; vm_compute; congruence.
    + intros x y [->| ->]%Hkeys [->| ->]%Hkeys Hne; try done;
        vm_compute; auto.
  - apply (bool_decide_unpack _). vm_compute. exact I.
  - vm_compute. apply perm_swap.
Defined.

(** X16: the [MT] input of material 1 among the data inputs of a
    problem, and two of them. *)
#[local] Instance numbered_law : ThermalScatteringNumber (Z * list string) := fst.

Definition water : Material.Material zaid (Z * list string) :=
  match Material.__init__ water_input NoComments with
  | Ok m => m
  | Raise _ => Material.__init__blank None
  end.

Lemma update_pointers_takes_the_first_law_witness :
  update_pointers
    (water, [OtherInput "sdef"; MT (1, ["mt1 lwtr.10t"]); MT (2, ["mt2 grph.10t"])])
  = (Ok tt,
     (set_thermal_scattering (1, ["mt1 lwtr.10t"]) water,
      [OtherInput "sdef"; MT (2, ["mt2 grph.10t"])]))
  ∧ update_pointers (Other := string)
      (water, [MT (1, ["mt1 lwtr.10t"]); MT (1, ["mt1 hwtr.10t"])])
    = (raise MalformedInputError "Multiple MT inputs were specified for this material.",
       (set_thermal_scattering (1, ["mt1 lwtr.10t"]) water,
        [MT (1, ["mt1 hwtr.10t"])])).
Proof.
  split.
  - etrans.
    + apply (proj1 (update_pointers_takes_the_first_law (Other := string) water)
               [OtherInput "sdef"] [MT (2, ["mt2 grph.10t"])] (1, ["mt1 lwtr.10t"]));
        [reflexivity| |reflexivity].
      repeat constructor. simpl. tauto.
    + vm_compute. reflexivity.
  - etrans.
    + apply (proj1 (update_pointers_takes_the_first_law (Other := string) water)
               [] [MT (1, ["mt1 hwtr.10t"])] (1, ["mt1 lwtr.10t"]));
        [reflexivity|constructor|reflexivity].
    + vm_compute. reflexivity.
Defined.

End MaterialMoreExamples.

(** ** Lattice inputs: the setter, repeated pushes, and reading *)

Module LatticeInputMoreFacts.
Import MCNP_Card LatticeInput LatticeInputFacts.

(** The integer of a member of [Lattice]. *)
Definition Lattice_value (lattice : Lattice) : Z :=
  match lattice with HEXAHEDRA => 1 | HEXAGONAL => 2 end.

Lemma Lattice_of_value (lattice : Lattice) :
  Lattice_of (Lattice_value lattice) = Ok lattice.
Proof. by destruct lattice. Qed.

Lemma Lattice_of_other (n : Z) :
  n ≠ 1 → n ≠ 2 → ∃ e, Lattice_of n = Raise e.
Proof.
  intros H1 H2. unfold Lattice_of.
  destruct (Z.eqb_spec n 1); [done|]. destruct (Z.eqb_spec n 2); [done|].
  by eexists.
Qed.

(** X13: the [lattice] setter takes a [Lattice], the integers 1 and 2,
    and [None]; it then stores one lattice or none, never a list, and
    marks the input as mutated; assigning [None] is what [del] does. Any
    other integer raises [ValueError] and any other value [TypeError],
    with messages whose braces are not filled in, and the input is
    exactly as before the call. *)
Theorem lattice_setter_errors_leave_input (self : LatticeInput) :
  (∀ lattice : Lattice,
     lattice_setter (ALattice lattice) self
     = (Ok tt, set_lattice_attr (One lattice) self)
     ∧ lattice_setter (AValue (PyInt (Lattice_value lattice))) self
       = (Ok tt, set_lattice_attr (One lattice) self))
  ∧ (lattice_setter (AValue PyNone) self = (Ok tt, set_lattice_attr NoLattice self)
     ∧ lattice_deleter self = lattice_setter (AValue PyNone) self)
  ∧ (∀ n : Z, n ≠ 1 → n ≠ 2 →
     lattice_setter (AValue (PyInt n)) self
     = (raise ValueError "Value: {value} is not a valid Lattice number", self))
  ∧ (∀ v : value, isinstance_int v = false → v ≠ PyNone →
     lattice_setter (AValue v) self
     = (raise TypeError
          "lattice must be set to a Lattice, or an integer, {value} given",
        self))
  ∧ (∀ (value : lattice_arg) (r : result unit) (self' : LatticeInput),
     lattice_setter value self = (r, self') →
     match r with
     | Ok _ => _mutated (card self') = true
               ∧ (_lattice self' = NoLattice ∨ ∃ lattice, _lattice self' = One lattice)
     | Raise e => self' = self ∧ kind e ∈ [TypeError; ValueError]
     end).
Proof.
  refine (conj _ (conj _ (conj _ (conj _ _)))).
  - intros lattice. split; [done|].
    unfold lattice_setter. simpl. by rewrite Lattice_of_value.
  - done.
  - intros n H1 H2. unfold lattice_setter. simpl.
    by destruct (Lattice_of_other n H1 H2) as [e ->].
  - intros v Hint Hnone. unfold lattice_setter.
    destruct v; simpl in *; done.
  - intros value r self'. unfold lattice_setter.
    destruct value as [lattice|[n|q|s|]]; simpl.
    + intros [= <- <-]. eauto.
    + destruct (Lattice_of n) as [lattice|e]; intros [= <- <-]; simpl.
      * eauto.
      * split; [done|]. set_solver.
    + intros [= <- <-]. split; [done|]. set_solver.
    + intros [= <- <-]. split; [done|]. set_solver.
    + intros [= <- <-]. eauto.
Qed.

(** The cells keep what [_check_redundant_definitions] and the loop read
    of them when lattices are assigned. *)
Lemma push_each_length (cells : list Cell) :
  ∀ entries, length (push_each cells entries) = length cells.
Proof.
  induction cells as [|c cells IH]; intros [|[l|] entries]; simpl; auto.
Qed.

Lemma push_each_numbers (cells : list Cell) :
  ∀ entries, cell_number <$> push_each cells entries = cell_number <$> cells.
Proof.
  induction cells as [|c cells IH]; intros [|[l|] entries]; simpl; auto;
    by rewrite IH.
Qed.

Lemma push_each_check (cells : list Cell) :
  ∀ entries,
    _check_redundant_definitions (push_each cells entries)
    = _check_redundant_definitions cells.
Proof.
  unfold _check_redundant_definitions.
  induction cells as [|c cells IH]; intros [|[l|] entries]; simpl; auto.
  - rewrite !filter_cons. simpl. specialize (IH entries).
    case_decide; [done|]. exact IH.
  - rewrite !filter_cons. specialize (IH entries).
    case_decide; [done|]. exact IH.
Qed.

Lemma push_each_twice (cells : list Cell) :
  ∀ entries, push_each (push_each cells entries) entries = push_each cells entries.
Proof.
  induction cells as [|c cells IH]; intros [|[l|] entries]; simpl; auto;
    by rewrite IH.
Qed.

Lemma push_result_length (cells cells' : list Cell) (entries : list entry) :
  length cells' = length cells →
  push_result cells' entries = push_result cells entries.
Proof. intros Hlen. unfold push_result. by rewrite Hlen. Qed.

(** The loop over the cells of a problem. *)
Lemma push_pairs_cells (cells : list Cell) (entries : list entry) :
  push_pairs 0 (zip_longest cells entries) cells
  = (push_result cells entries, push_each cells entries).
Proof. apply (push_pairs_positional cells entries []). Qed.

(** X14: [push_to_cells] can be run again: on the input and the problem
    that a first run leaves, whether it returned or raised, a second run
    ends in the same way and changes nothing more. The cells of the
    problem are the same in number and carry the same numbers after it. *)
Theorem push_to_cells_is_idempotent (self : LatticeInput) (problem : option Problem) :
  push_to_cells (push_to_cells (self, problem)).2 = push_to_cells (self, problem)
  ∧ ∀ (cells_before : list Cell) (r : result unit) (self' : LatticeInput)
      (problem' : option Problem),
      problem = Some {| cells := cells_before |} →
      push_to_cells (self, problem) = (r, (self', problem')) →
      ∃ cells_after,
        problem' = Some {| cells := cells_after |}
        ∧ cell_number <$> cells_after = cell_number <$> cells_before.
Proof.
  destruct problem as [[cells]|]; [|split; [done|]; by intros].
  unfold push_to_cells. cbn [LatticeInput.cells].
  destruct (_in_cell_block self) eqn:Hblock.
  { cbn [negb snd]. rewrite Hblock. split; [done|].
    intros ???? [= <-] [= <- <- <-]. eauto. }
  cbn [negb _lattice set_starting_num_cells].
  destruct (_lattice self) as [|lattice|[|e entries]] eqn:Hlattice.
  - cbn [snd _in_cell_block set_starting_num_cells _lattice LatticeInput.cells].
    rewrite Hblock, Hlattice. split; [done|].
    intros ???? [= <-] [= <- <- <-]. eauto.
  - destruct (_check_redundant_definitions cells) eqn:Hcheck;
      cbn [snd _in_cell_block set_starting_num_cells _lattice LatticeInput.cells];
      rewrite Hblock, Hlattice, Hcheck;
      (split; [done|]); intros ???? [= <-] [= <- <- <-]; eauto.
  - cbn [snd _in_cell_block set_starting_num_cells _lattice LatticeInput.cells].
    rewrite Hblock, Hlattice. split; [done|].
    intros ???? [= <-] [= <- <- <-]. eauto.
  - destruct (_check_redundant_definitions cells) eqn:Hcheck.
    + rewrite push_pairs_cells.
      cbn [snd _in_cell_block set_starting_num_cells _lattice LatticeInput.cells].
      rewrite Hblock, Hlattice, push_each_check, Hcheck, push_pairs_cells.
      rewrite push_each_twice, push_each_length.
      rewrite (push_result_length cells) by apply push_each_length.
      split; [done|]. intros ???? [= <-] [= <- <- <-].
      eexists. split; [done|]. apply push_each_numbers.
    + cbn [snd _in_cell_block set_starting_num_cells _lattice LatticeInput.cells].
      rewrite Hblock, Hlattice, Hcheck. split; [done|].
      intros ???? [= <-] [= <- <- <-]. eauto.
Qed.

Section reading.
Context {ValueNode : Type} `{ValueNodeClass ValueNode}.

(** What a word of the input stands for, if it can be read. *)
Definition entry_of (w : word ValueNode) : option entry :=
  match w with
  | WordValue node => Value <$> lattice_of_node node
  | WordJump => Some Jump
  | WordOther _ => None
  end.

(** The loop reads a run of words that can be read and goes on with the
    rest. *)
Lemma parse_words_app (good : list (word ValueNode)) :
  ∀ (rest : list (word ValueNode)) (entries lattice : list entry),
    Forall2 (λ w e, entry_of w = Some e) good entries →
    parse_words (good ++ rest) lattice = parse_words rest (lattice ++ entries).
Proof.
  induction good as [|w good IH]; intros rest entries lattice Hread.
  - apply Forall2_nil_inv_l in Hread as ->. simpl. by rewrite app_nil_r.
  - apply Forall2_cons_inv_l in Hread as (e & entries' & He & Hread & ->).
    destruct w as [node| |text]; simpl in *; [| |done].
    + destruct (lattice_of_node node) as [l|]; [|done]. injection He as <-.
      rewrite (IH rest entries') by done. by rewrite <- app_assoc.
    + injection He as <-. rewrite (IH rest entries') by done.
      by rewrite <- app_assoc.
Qed.

(** X15: [__init__] reads the words of a data-block input in their
    order: a word that is 1 or 2 gives its lattice, a jump stays a jump,
    and the list has one entry per word; the first word that cannot be
    read stops it, with [MalformedInputError] for a value that is not 1
    or 2 and [TypeError] for a word that is neither a value nor a jump.
    On a cell card the value behind the key is the lattice of the cell,
    [ValueError] when it is not 1 or 2, and there is no lattice without
    a key. The input that comes out is not marked as mutated. *)
Theorem init_reads_the_words_in_order (self : LatticeInput)
    (key : option string) (val : ValueNode) :
  (_in_cell_block self = false →
   (∀ (words : list (word ValueNode)) (entries : list entry),
      Forall2 (λ w e, entry_of w = Some e) words entries →
      __init__ self (Some words) key val = Ok (assign_lattice (Many entries) self))
   ∧ (∀ (good : list (word ValueNode)) (entries : list entry)
        (node : ValueNode) (rest : list (word ValueNode)),
        Forall2 (λ w e, entry_of w = Some e) good entries →
        lattice_of_node node = None →
        __init__ self (Some (good ++ WordValue node :: rest)) key val
        = raise MalformedInputError
            ("Cell lattice must be 1 or 2. " +:+ ValueNode_str node +:+ " given."))
   ∧ (∀ (good : list (word ValueNode)) (entries : list entry)
        (text : string) (rest : list (word ValueNode)),
        Forall2 (λ w e, entry_of w = Some e) good entries →
        __init__ self (Some (good ++ WordOther text :: rest)) key val
        = raise TypeError
            ("Word: " +:+ text +:+ " cannot be parsed as a lattice as a str, or Jump"))
   ∧ __init__ self None key val = Ok (assign_lattice NoLattice self))
  ∧ (_in_cell_block self = true →
     ∀ input : option (list (word ValueNode)),
       __init__ self input key val
       = match key with
         | Some (String _ _) =>
             match _convert_to_int val with
             | Some 1 => Ok (assign_lattice (One HEXAHEDRA) self)
             | Some 2 => Ok (assign_lattice (One HEXAGONAL) self)
             | _ => raise ValueError "Cell Lattice must be 1 or 2"
             end
         | _ => Ok (assign_lattice NoLattice self)
         end)
  ∧ (∀ (input : option (list (word ValueNode))) (self' : LatticeInput),
       __init__ self input key val = Ok self' → card self' = card self).
Proof.
  refine (conj _ (conj _ _)).
  - intros Hblock. unfold __init__. cbn [_in_cell_block assign_lattice].
    rewrite Hblock. split_and!; [| | |done].
    + intros words entries Hread.
      rewrite <- (app_nil_r words), (parse_words_app words [] entries) by done.
      done.
    + intros good entries node rest Hread Hnode.
      rewrite (parse_words_app good _ entries) by done. simpl.
      by rewrite Hnode.
    + intros good entries text rest Hread.
      by rewrite (parse_words_app good _ entries).
  - intros Hblock input. unfold __init__. cbn [_in_cell_block assign_lattice].
    rewrite Hblock. destruct key as [[|c key]|]; [done| |done].
    unfold lattice_of_node. destruct (_convert_to_int val) as [n|]; [|done].
    simpl. unfold Lattice_of.
    destruct n as [|[p|p|]|]; try done; destruct p; done.
  - intros input self'. unfold __init__. cbn [_in_cell_block assign_lattice].
    destruct (_in_cell_block self).
    + destruct key as [[|c key]|]; [by intros [= <-]| |by intros [= <-]].
      destruct (lattice_of_node val); [by intros [= <-]|done].
    + destruct input as [words|]; [|by intros [= <-]].
      destruct (parse_words words []); [by intros [= <-]|done].
Qed.

End reading.

End LatticeInputMoreFacts.

Module LatticeInputMoreExamples.
Import MCNP_Card LatticeInput LatticeInputFacts LatticeInputMoreFacts.

(** A value node that is its integer. *)
#[local] Instance integer_node : ValueNodeClass Z := {|
  _convert_to_int := Some;
  ValueNode_str := pretty
|}.

(** X15 on the words of [LAT 1 J 2] and of [LAT 1 3], and on the cell
    parameter [LAT=2]. *)
Lemma init_reads_the_words_in_order_witness :
  __init__ (data_block "LAT 1 J 2" []) (Some [WordValue 1; WordJump; WordValue 2])
    None 0
  = Ok (data_block "LAT 1 J 2" [Value HEXAHEDRA; Jump; Value HEXAGONAL])
  ∧ __init__ (data_block "LAT 1 3" []) (Some [WordValue 1; WordValue 3]) None 0
    = raise MalformedInputError "Cell lattice must be 1 or 2. 3 given."
  ∧ __init__ (cell_lattice_input (plain_cell 1)) None (Some "LAT") 2
    = Ok (assign_lattice (One HEXAGONAL) (cell_lattice_input (plain_cell 1))).
Proof.
  split_and!.
  - apply (proj1 (proj1 (init_reads_the_words_in_order
             (data_block "LAT 1 J 2" []) None 0) eq_refl)
             [WordValue 1; WordJump; WordValue 2]
             [Value HEXAHEDRA; Jump; Value HEXAGONAL]).
    repeat constructor.
  - etrans.
    + apply (proj1 (proj2 (proj1 (init_reads_the_words_in_order
               (data_block "LAT 1 3" []) None 0) eq_refl))
               [WordValue 1] [Value HEXAHEDRA] 3 []); [|reflexivity].
      repeat constructor.
    + vm_compute. reflexivity.
  - etrans.
    + apply (proj1 (proj2 (init_reads_the_words_in_order
               (cell_lattice_input (plain_cell 1)) (Some "LAT") 2)) eq_refl None).
    + reflexivity.
Defined.

End LatticeInputMoreExamples.

(** ** Cards: comments *)

Module MCNP_CardMoreFacts.
Import MCNP_Card MCNP_CardFacts MaterialFacts.

Section comments.
Context `{CommentFormat}.

(** X19: a card as it was read writes, of its comments, the first one
    only; once its comments are assigned, [format_for_mcnp_input] writes
    every comment, in the order of the list. The assignment marks the
    card as mutated and leaves its input lines alone. *)
Theorem comments_setter_writes_every_comment
    (input_card : Card) (comments new_comments : list Comment)
    (mcnp_version : version) :
  let self := __init__ input_card (CommentList comments) in
  format_for_mcnp_input self mcnp_version = leading_comment comments mcnp_version
  ∧ _mutated (set_comments new_comments self) = true
  ∧ _input_lines (set_comments new_comments self) = input_lines input_card
  ∧ format_for_mcnp_input (set_comments new_comments self) mcnp_version
    = (new_comments ≫= λ c, comment_format c mcnp_version)
  ∧ format_for_mcnp_input (set_comments comments self) mcnp_version
    = leading_comment comments mcnp_version
      ++ (tail comments ≫= λ c, comment_format c mcnp_version).
Proof.
  intros self. split_and!; [by destruct comments|done|done| |].
  - by rewrite format_mutated_card.
  - rewrite format_mutated_card by done. by destruct comments.
Qed.

End comments.

End MCNP_CardMoreFacts.

(** ** Cards: wrapping words *)

Module WrapWordsFacts.
Import TextWrap MCNP_Card TextWrapFacts MCNP_WrapFacts.

(** *** The chunks of words joined by blanks *)

Lemma filter_all {A} (P : A → Prop) `{∀ x, Decision (P x)} (l : list A) :
  Forall P l → filter P l = l.
Proof.
  induction 1 as [|x l Hx _ IH]; [done|]. by rewrite filter_cons, decide_True, IH.
Qed.

Lemma append_cons (c : ascii) (s1 s2 : string) :
  String c s1 +:+ s2 = String c (s1 +:+ s2).
Proof. done. Qed.

Lemma append_assoc (s1 s2 s3 : string) : (s1 +:+ s2) +:+ s3 = s1 +:+ (s2 +:+ s3).
Proof. induction s1 as [|c s1 IH]; [done|]. by rewrite !append_cons, IH. Qed.

Lemma append_nil_r (s : string) : s +:+ "" = s.
Proof. induction s as [|c s IH]; [done|]. by rewrite append_cons, IH. Qed.

(** A character of a word: neither white space nor a hyphen. *)
Definition word_char (c : ascii) : bool :=
  negb (Str.isspace c) && negb (Ascii.eqb c "-"%char).

(** A word that the wrapper takes as one chunk. *)
Definition plain_word (w : string) : Prop :=
  w ≠ "" ∧ Str.all_chars word_char w = true.

(** Each word behind a blank, and the chunks of a line of words. *)
Definition spaced (ws : list string) : list string := ws ≫= λ w, [" "; w].

Definition chunks_of (ws : list string) : list string :=
  match ws with
  | [] => []
  | w :: ws => w :: spaced ws
  end.

(** The text behind the first word. *)
Fixpoint tail_text (ws : list string) : string :=
  match ws with
  | [] => ""
  | w :: ws => " " +:+ w +:+ tail_text ws
  end.

Lemma join_words (w : string) (ws : list string) :
  Str.join " " (w :: ws) = w +:+ tail_text ws.
Proof.
  unfold Str.join. revert w. induction ws as [|w' ws IH]; intros w.
  - simpl. by rewrite append_nil_r.
  - change (String.concat " " (w :: w' :: ws))
      with (w +:+ " " +:+ String.concat " " (w' :: ws)).
    by rewrite IH.
Qed.

Lemma join_spaced (w : string) (ws : list string) :
  Str.join "" (w :: spaced ws) = w +:+ tail_text ws.
Proof.
  unfold Str.join. revert w. induction ws as [|w' ws IH]; intros w.
  - simpl. by rewrite append_nil_r.
  - change (spaced (w' :: ws)) with (" " :: w' :: spaced ws).
    change (String.concat "" (w :: " " :: w' :: spaced ws))
      with (w +:+ "" +:+ " " +:+ "" +:+ String.concat "" (w' :: spaced ws)).
    by rewrite IH.
Qed.

Lemma word_char_not_munged (c : ascii) :
  word_char c || Ascii.eqb c " " = true →
  Ascii.eqb c "009" = false ∧ Ascii.eqb c "010" = false
  ∧ Ascii.eqb c "011" = false ∧ Ascii.eqb c "012" = false
  ∧ Ascii.eqb c "013" = false.
Proof.
  destruct c as [[] [] [] [] [] [] [] []]; vm_compute; intros; split_and!; done.
Qed.

Lemma word_char_not_blank (c : ascii) :
  word_char c = true → Ascii.eqb c " " = false ∧ Str.isspace c = false.
Proof.
  destruct c as [[] [] [] [] [] [] [] []]; vm_compute; intros; split_and!; done.
Qed.

Lemma munge_words (text : string) :
  ∀ col : nat,
    Str.all_chars (λ c, word_char c || Ascii.eqb c " ") text = true →
    _munge_whitespace col text = text.
Proof.
  induction text as [|c text IH]; intros col; [done|].
  simpl. intros [Hc Htext]%andb_true_iff.
  destruct (word_char_not_munged c Hc) as (-> & -> & -> & -> & ->). simpl.
  by rewrite IH.
Qed.

Lemma all_chars_app (p : ascii → bool) (s1 s2 : string) :
  Str.all_chars p (s1 +:+ s2) = Str.all_chars p s1 && Str.all_chars p s2.
Proof.
  induction s1 as [|c s1 IH]; [done|].
  rewrite append_cons. simpl. by rewrite IH, andb_assoc.
Qed.

Lemma all_chars_impl (p q : ascii → bool) (s : string) :
  (∀ c, p c = true → q c = true) →
  Str.all_chars p s = true → Str.all_chars q s = true.
Proof.
  intros Hpq. induction s as [|c s IH]; simpl; [done|].
  intros [Hc Hs]%andb_true_iff. by rewrite (Hpq c Hc), IH.
Qed.

Lemma all_chars_tail_text (ws : list string) :
  Forall plain_word ws →
  Str.all_chars (λ c, word_char c || Ascii.eqb c " ") (tail_text ws) = true.
Proof.
  induction 1 as [|w ws [_ Hw] _ IH]; [done|].
  cbn [tail_text]. rewrite !all_chars_app, IH, andb_true_r.
  simpl. eapply all_chars_impl; [|exact Hw].
  intros c ->. done.
Qed.

Lemma runs_word (w : string) :
  ∀ (cur rest : string),
    cur ≠ "" → Str.all_chars word_char w = true →
    runs cur false (w +:+ rest) = runs (cur +:+ w) false rest.
Proof.
  induction w as [|c w IH]; intros cur rest Hcur.
  - intros _. by rewrite append_nil_r.
  - simpl. intros [Hc Hw]%andb_true_iff.
    destruct (word_char_not_blank c Hc) as [-> _].
    destruct cur as [|c0 cur]; [done|]. cbn [Bool.eqb].
    rewrite IH by done. by rewrite append_assoc.
Qed.

Lemma runs_start (w : string) (rest : string) (cur_space : bool) :
  plain_word w → runs "" cur_space (w +:+ rest) = runs w false rest.
Proof.
  intros [Hsome Hw]. destruct w as [|c w]; [done|].
  simpl in Hw. apply andb_true_iff in Hw as [Hc Hw].
  rewrite append_cons. cbn [runs].
  destruct (word_char_not_blank c Hc) as [-> _].
  by rewrite runs_word.
Qed.

Lemma runs_tail_text (ws : list string) :
  ∀ cur : string,
    cur ≠ "" → Forall plain_word ws →
    runs cur false (tail_text ws) = cur :: spaced ws.
Proof.
  induction ws as [|w ws IH]; intros cur Hcur Hws.
  - by destruct cur.
  - apply Forall_cons in Hws as [Hw Hws]. cbn [tail_text].
    change (" " +:+ w +:+ tail_text ws) with (String " " (w +:+ tail_text ws)).
    destruct cur as [|c0 cur]; [done|].
    change (runs (String c0 cur) false (String " " (w +:+ tail_text ws)))
      with (String c0 cur :: runs " " true (w +:+ tail_text ws)).
    f_equal. destruct Hw as [Hsome Hw]. destruct w as [|c w]; [done|].
    simpl in Hw. apply andb_true_iff in Hw as [Hc Hw].
    change (String c w +:+ tail_text ws) with (String c (w +:+ tail_text ws)).
    cbn [runs]. destruct (word_char_not_blank c Hc) as [-> _]. cbn [Bool.eqb].
    rewrite runs_word by done. change (String c "" +:+ w) with (String c w).
    rewrite IH by done. done.
Qed.

(** The wrapper cuts words joined by blanks into the words and the
    blanks between them. *)
Lemma split_chunks_words (ws : list string) :
  Forall plain_word ws →
  _split_chunks (H := split_plain) (Str.join " " ws) = chunks_of ws.
Proof.
  intros Hws. unfold _split_chunks, wordsep_split, split_plain.
  destruct ws as [|w ws]; [done|].
  apply Forall_cons in Hws as [Hw Hws].
  rewrite join_words, munge_words.
  2:{ rewrite all_chars_app, all_chars_tail_text, andb_true_r by done.
      destruct Hw as [_ Hw]. eapply all_chars_impl; [|exact Hw]. by intros c ->. }
  rewrite (runs_start w) by done.
  rewrite runs_tail_text by (done || apply Hw).
  apply filter_all. constructor; [by destruct Hw as [? _], w|].
  clear Hw. induction Hws as [|w' ws [Hw' _] _ IH]; [constructor|].
  change (spaced (w' :: ws)) with (" " :: w' :: spaced ws).
  repeat constructor; [by destruct w'|done].
Qed.

(** *** Filling a line with words *)

Lemma plain_not_blank (w : string) : plain_word w → Str.is_blank w = false.
Proof.
  intros [Hsome Hw]. destruct w as [|c w]; [done|].
  simpl in Hw. apply andb_true_iff in Hw as [Hc _].
  destruct (word_char_not_blank c Hc) as [_ Hspace].
  unfold Str.is_blank. simpl. by rewrite Hspace.
Qed.

Lemma plain_len (w : string) : plain_word w → 1 ≤ Str.len w.
Proof. intros [Hsome _]. destruct w; [done|]. unfold Str.len. simpl. lia. Qed.

Lemma total_cons (c : string) (line : list string) :
  total (c :: line) = Str.len c + total line.
Proof. done. Qed.

Lemma spaced_cons (w : string) (ws : list string) :
  spaced (w :: ws) = " " :: w :: spaced ws.
Proof. done. Qed.

Lemma spaced_app (ws1 ws2 : list string) :
  spaced (ws1 ++ ws2) = spaced ws1 ++ spaced ws2.
Proof. unfold spaced. by rewrite bind_app. Qed.

Lemma len_join_words (w : string) (ws : list string) :
  Str.len (Str.join " " (w :: ws)) = Str.len w + total (spaced ws).
Proof. by rewrite join_words, <- join_spaced, len_join. Qed.

Lemma last_spaced (ws : list string) :
  ∀ w : string,
    Forall plain_word (w :: ws) →
    ∃ x, last (w :: spaced ws) = Some x ∧ plain_word x.
Proof.
  induction ws as [|w' ws IH]; intros w [Hw Hws]%Forall_cons.
  - by exists w.
  - rewrite spaced_cons, !last_cons_cons. by apply IH.
Qed.

(** The inner loop on words behind blanks: it takes [k] of them, and
    stops in front of a blank that does not fit, or behind a blank in
    front of a word that does not fit. *)
Lemma fill_spaced (avail : Z) (ws : list string) :
  ∀ (cur : list string) (cur_len : Z),
    cur_len ≤ avail →
    ∃ k : nat,
      (k ≤ length ws)%nat
      ∧ cur_len + total (spaced (take k ws)) ≤ avail
      ∧ ((fill_line avail cur cur_len (spaced ws)
          = (cur ++ spaced (take k ws),
             cur_len + total (spaced (take k ws)),
             spaced (drop k ws))
          ∧ (drop k ws = [] ∨ avail < cur_len + total (spaced (take k ws)) + 1))
         ∨ ∃ x ws',
             drop k ws = x :: ws'
             ∧ fill_line avail cur cur_len (spaced ws)
               = (cur ++ spaced (take k ws) ++ [" "],
                  cur_len + total (spaced (take k ws)) + 1,
                  x :: spaced ws')
             ∧ avail < cur_len + total (spaced (take k ws)) + 1 + Str.len x).
Proof.
  induction ws as [|w ws IH]; intros cur cur_len Hcur.
  - exists 0%nat. split; [done|]. simpl. rewrite app_nil_r, Z.add_0_r.
    split; [done|]. left. auto.
  - rewrite spaced_cons. cbn [fill_line]. change (Str.len " ") with 1.
    destruct (Z.leb_spec (cur_len + 1) avail) as [Hblank|Hblank].
    + destruct (Z.leb_spec (cur_len + 1 + Str.len w) avail) as [Hword|Hword].
      * rewrite <- app_assoc. cbn [app].
        destruct (IH (cur ++ [" "; w]) (cur_len + 1 + Str.len w) Hword)
          as (k & Hk & Hroom & Hfill).
        exists (S k). split; [simpl; lia|].
        cbn [take drop]. rewrite spaced_cons, !total_cons.
        change (Str.len " ") with 1.
        replace (cur_len + (1 + (Str.len w + total (spaced (take k ws)))))
          with (cur_len + 1 + Str.len w + total (spaced (take k ws))) by lia.
        split; [done|].
        rewrite <- !app_assoc in Hfill. cbn [app] in Hfill.
        destruct Hfill as [[-> Hstop]|(x & ws' & Hdrop & -> & Hstop)].
        -- left. done.
        -- right. by exists x, ws'.
      * exists 0%nat. split; [lia|]. cbn [take drop].
        change (total (spaced [])) with 0.
        rewrite Z.add_0_r. split; [done|]. right. exists w, ws.
        cbn [app]. split_and!; [done|done|lia].
    + exists 0%nat. split; [lia|]. cbn [take drop].
      change (total (spaced [])) with 0. change (spaced []) with ([] : list string).
      rewrite app_nil_r, Z.add_0_r. split; [done|].
      left. rewrite spaced_cons. split; [done|]. right. lia.
Qed.

Section words.
Context (w : TextWrapper).

(** One round of the outer loop on words that fit the line. *)
Lemma wrap_line_words (lines : list string) (w0 : string) (ws chunks : list string) :
  Forall plain_word (w0 :: ws) →
  Forall (λ x, Str.len x ≤ avail_of w lines) (w0 :: ws) →
  chunks = w0 :: spaced ws ∨ (lines ≠ [] ∧ chunks = spaced (w0 :: ws)) →
  ∃ (k : nat) (rest : list string),
    (k ≤ length ws)%nat
    ∧ wrap_line w lines chunks
      = (lines ++ [indent_of w lines +:+ Str.join " " (w0 :: take k ws)], rest)
    ∧ (rest = chunks_of (drop k ws) ∨ rest = spaced (drop k ws))
    ∧ Str.len (Str.join " " (w0 :: take k ws)) ≤ avail_of w lines
    ∧ (∀ x ws', drop k ws = x :: ws' →
       avail_of w lines < Str.len (Str.join " " (w0 :: take k ws)) + 1 + Str.len x).
Proof.
  intros Hplain Hfit Hchunks.
  pose proof Hplain as [Hw0 Hws]%Forall_cons.
  pose proof Hfit as [Hfit0 Hfits]%Forall_cons.
  pose proof (plain_len w0 Hw0) as Hlen0.
  unfold wrap_line. fold (indent_of w lines). fold (avail_of w lines).
  assert (match chunks, lines with
          | c :: rest, _ :: _ => if Str.is_blank c then rest else chunks
          | _, _ => chunks
          end = w0 :: spaced ws) as ->.
  { destruct Hchunks as [->|[Hlines ->]].
    - destruct lines; [done|]. by rewrite plain_not_blank.
    - destruct lines; [done|]. by rewrite spaced_cons. }
  cbn [fill_line]. rewrite Z.add_0_l.
  destruct (Z.leb_spec (Str.len w0) (avail_of w lines)); [|lia].
  cbn [app].
  destruct (fill_spaced (avail_of w lines) ws [w0] (Str.len w0))
    as (k & Hk & Hroom & Hfill); [done|].
  assert (Hdrop_fit : ∀ x ws', drop k ws = x :: ws' → Str.len x ≤ avail_of w lines).
  { intros x ws' Hdrop. rewrite Forall_forall in Hfits. apply Hfits.
    rewrite <- (take_drop k ws), Hdrop. apply elem_of_app. right. by left. }
  assert (Hline : Str.join "" (w0 :: spaced (take k ws))
                  = Str.join " " (w0 :: take k ws)).
  { by rewrite join_spaced, join_words. }
  assert (Hplain_taken : Forall plain_word (w0 :: take k ws)).
  { constructor; [done|]. by apply Forall_take. }
  destruct (last_spaced (take k ws) w0 Hplain_taken) as (y & Hlast & Hy).
  exists k.
  destruct Hfill as [[-> Hstop]|(x & ws' & Hdrop & -> & Hstop)].
  - exists (spaced (drop k ws)). rewrite len_join_words. split; [done|].
    assert (match spaced (drop k ws) with
            | c :: _ =>
                if Str.len c >? avail_of w lines
                then _handle_long_word (spaced (drop k ws))
                       ([w0] ++ spaced (take k ws))
                       (Str.len w0 + total (spaced (take k ws))) (avail_of w lines)
                else (spaced (drop k ws), [w0] ++ spaced (take k ws))
            | [] => (spaced (drop k ws), [w0] ++ spaced (take k ws))
            end = (spaced (drop k ws), w0 :: spaced (take k ws))) as ->.
    { destruct (drop k ws) as [|x ws']; [done|]. rewrite spaced_cons.
      change (Str.len " ") with 1.
      destruct (Z.gtb_spec 1 (avail_of w lines)); [lia|done]. }
    rewrite Hlast, plain_not_blank by done. rewrite Hline.
    split_and!; [done|by right|done|].
    intros x ws' Hdrop. destruct Hstop as [Hnone|Hfull]; [congruence|].
    pose proof (len_nonneg x). lia.
  - exists (x :: spaced ws'). rewrite len_join_words. split; [done|].
    destruct (Z.gtb_spec (Str.len x) (avail_of w lines)) as [Hlong|_].
    { specialize (Hdrop_fit x ws' Hdrop). lia. }
    replace ([w0] ++ spaced (take k ws) ++ [" "])
      with ((w0 :: spaced (take k ws)) ++ [" "]) by done.
    rewrite last_snoc. change (Str.is_blank " ") with true. cbn match.
    rewrite removelast_last, Hline.
    split_and!; [done|left; by rewrite Hdrop|done|].
    intros x' ws'' Hdrop'. rewrite Hdrop in Hdrop'. injection Hdrop' as <- <-. lia.
Qed.

(** Lines filled with words: the words of a line fit its room, and the
    first word of the next line would not have fitted behind them. *)
Fixpoint filled (room next_room : Z) (groups : list (list string)) : Prop :=
  match groups with
  | [] => True
  | g :: rest =>
      Str.len (Str.join " " g) ≤ room
      ∧ match rest with
        | (x :: _) :: _ => room < Str.len (Str.join " " g) + 1 + Str.len x
        | _ => True
        end
      ∧ filled next_room next_room rest
  end.

Lemma avail_of_next (bodies : list string) (body : string) :
  avail_of w (indent_lines w (bodies ++ [body]))
  = width w - Str.len (subsequent_indent w).
Proof. unfold avail_of, indent_of. by destruct bodies. Qed.

(** The outer loop on words that fit every line: each round writes one
    line of whole words. *)
Lemma wrap_loop_words (n : nat) :
  ∀ (ws bodies chunks : list string) (fuel : nat),
    (length ws ≤ n)%nat → (n ≤ fuel)%nat →
    Forall plain_word ws → Forall (λ x, Str.len x ≤ least_room w) ws →
    chunks = chunks_of ws ∨ (bodies ≠ [] ∧ chunks = spaced ws) →
    ∃ groups : list (list string),
      wrap_loop fuel w (indent_lines w bodies) chunks
      = Some (indent_lines w (bodies ++ (Str.join " " <$> groups)))
      ∧ concat groups = ws
      ∧ Forall (λ g, g ≠ []) groups
      ∧ filled (avail_of w (indent_lines w bodies))
               (width w - Str.len (subsequent_indent w)) groups.
Proof.
  induction n as [|n IH]; intros ws bodies chunks fuel Hn Hfuel Hplain Hfit Hchunks.
  - destruct ws; [|simpl in Hn; lia].
    assert (chunks = []) as -> by (by destruct Hchunks as [->|[_ ->]]).
    exists []. simpl. rewrite app_nil_r. by destruct fuel.
  - destruct ws as [|w0 ws].
    { assert (chunks = []) as -> by (by destruct Hchunks as [->|[_ ->]]).
      exists []. simpl. rewrite app_nil_r. by destruct fuel. }
    destruct fuel as [|fuel]; [lia|].
    destruct (wrap_line_words (indent_lines w bodies) w0 ws chunks)
      as (k & rest & Hk & Hround & Hrest & Hroom & Hnext); [done| |..].
    { eapply Forall_impl; [exact Hfit|]. simpl. intros x Hx.
      pose proof (least_room_avail w (indent_lines w bodies)). lia. }
    { destruct Hchunks as [->|[Hsome ->]]; [by left|right].
      split; [|done]. by destruct bodies. }
    assert (Hchunks_some : chunks ≠ []).
    { by destruct Hchunks as [->|[_ ->]]. }
    cbn [wrap_loop]. destruct chunks as [|c chunks]; [done|].
    rewrite Hround, <- indent_lines_snoc.
    apply Forall_cons in Hplain as [Hw0 Hplain].
    apply Forall_cons in Hfit as [Hfit0 Hfit].
    destruct (IH (drop k ws) (bodies ++ [Str.join " " (w0 :: take k ws)]) rest fuel)
      as (groups & Hloop & Hconcat & Hsome & Hfilled).
    + rewrite length_drop. simpl in Hn. lia.
    + lia.
    + by apply Forall_drop.
    + by apply Forall_drop.
    + destruct Hrest as [->| ->]; [by left|right].
      split; [|done]. by destruct bodies.
    + exists ((w0 :: take k ws) :: groups).
      rewrite fmap_cons.
      replace (bodies ++ Str.join " " (w0 :: take k ws) :: (Str.join " " <$> groups))
        with ((bodies ++ [Str.join " " (w0 :: take k ws)])
              ++ (Str.join " " <$> groups))
        by (by rewrite <- app_assoc).
      split_and!; [done| |by constructor|].
      * rewrite concat_cons, Hconcat. cbn [app]. by rewrite take_drop.
      * rewrite avail_of_next in Hfilled. cbn [filled].
        split_and!; [done| |done].
        destruct groups as [|[|x g] groups]; [done..|].
        apply (Hnext x (g ++ concat groups)). by rewrite <- Hconcat.
Qed.

End words.

Lemma weight_chunks_of (ws : list string) :
  (length ws ≤ weight (chunks_of ws))%nat.
Proof.
  destruct ws as [|w ws]; [done|]. simpl.
  assert (length ws ≤ weight (spaced ws))%nat; [|lia].
  induction ws as [|w' ws IH]; [done|]. rewrite spaced_cons. simpl in *. lia.
Qed.

Lemma total_spaced_app (ws1 ws2 : list string) :
  total (spaced (ws1 ++ ws2)) = total (spaced ws1) + total (spaced ws2).
Proof. by rewrite spaced_app, total_app. Qed.

(** Words that fit the first line together are one group. *)
Lemma filled_one_line (room next_room : Z) (groups : list (list string))
    (ws : list string) :
  filled room next_room groups → concat groups = ws →
  Forall (λ g, g ≠ []) groups →
  ws ≠ [] → Str.len (Str.join " " ws) ≤ room →
  groups = [ws].
Proof.
  intros Hfilled Hconcat Hsome Hws Hroom.
  destruct groups as [|g [|g2 groups]].
  - by rewrite <- Hconcat in Hws.
  - simpl in Hconcat. rewrite app_nil_r in Hconcat. by subst.
  - exfalso. apply Forall_cons in Hsome as [Hg [Hg2 _]%Forall_cons].
    destruct g as [|w0 g]; [done|]. destruct g2 as [|x g2]; [done|].
    destruct Hfilled as (_ & Hfull & _).
    rewrite <- Hconcat in Hroom. rewrite !concat_cons in Hroom.
    cbn [app] in Hroom. rewrite !len_join_words in *.
    rewrite total_spaced_app in Hroom. cbn [app] in Hroom.
    rewrite spaced_cons, !total_cons in Hroom. change (Str.len " ") with 1 in Hroom.
    pose proof (total_nonneg (spaced (g2 ++ concat groups))). lia.
Qed.

(** [wrap_string_for_mcnp] for MCNP 6.2 on words joined by single
    blanks: every line is made of whole words. *)
Lemma wrap_string_for_mcnp_words
    (words : list string) (mcnp_version : version) (is_first_line : bool) :
  is_6_2 mcnp_version = true →
  Forall plain_word words → Forall (λ x, Str.len x ≤ 123) words →
  ∃ groups : list (list string),
    wrap_string_for_mcnp (H := split_plain) (Str.join " " words)
      mcnp_version is_first_line
    = Some (Ok (mcnp_lines is_first_line (Str.join " " <$> groups)))
    ∧ concat groups = words
    ∧ Forall (λ g, g ≠ []) groups
    ∧ filled (if is_first_line then 128 else 123) 123 groups.
Proof.
  intros Hversion Hplain Hfit.
  unfold wrap_string_for_mcnp, wrap. rewrite Hversion.
  fold (wrapper_6_2 is_first_line).
  rewrite split_chunks_words by done. unfold _wrap_chunks.
  cbn [width wrapper_6_2]. cbn [Z.leb Z.compare].
  destruct (wrap_loop_words (wrapper_6_2 is_first_line) (length words) words []
              (chunks_of words) (weight (chunks_of words)))
    as (groups & Hloop & Hconcat & Hsome & Hfilled);
    [done|apply weight_chunks_of|done| |by left|].
  { eapply Forall_impl; [exact Hfit|]. simpl. intros x Hx.
    unfold least_room. by destruct is_first_line. }
  exists groups. simpl in Hloop. rewrite Hloop, indent_lines_6_2.
  assert (filled (if is_first_line then 128 else 123) 123 groups) as Hlines.
  { by destruct is_first_line. }
  by split_and!.
Qed.

(** X18: [wrap_words_for_mcnp] for MCNP 6.2, on words without white
    space or hyphens of at most 123 characters each: every line is made
    of whole words joined by single blanks, behind the indent that
    [wrap_string_for_mcnp] gives it; the lines hold all the words in
    their order, and no line is empty; a line is as full as it can be,
    in that its words fit the 128 columns (123 behind an indent) and the
    first word of the next line would not have fitted behind them. Words
    that fit one line together are written on one line. *)
Theorem wrap_words_for_mcnp_fills_lines
    (words : list string) (mcnp_version : version) (is_first_line : bool) :
  is_6_2 mcnp_version = true →
  Forall plain_word words → Forall (λ x, Str.len x ≤ 123) words →
  ∃ groups : list (list string),
    wrap_words_for_mcnp (H := split_plain) words mcnp_version is_first_line
    = Some (Ok (mcnp_lines is_first_line (Str.join " " <$> groups)))
    ∧ concat groups = words
    ∧ Forall (λ g, g ≠ []) groups
    ∧ filled (if is_first_line then 128 else 123) 123 groups
    ∧ (words ≠ [] →
       Str.len (Str.join " " words) ≤ (if is_first_line then 128 else 123) →
       groups = [words]).
Proof.
  intros Hversion Hplain Hfit. unfold wrap_words_for_mcnp.
  destruct (wrap_string_for_mcnp_words words mcnp_version is_first_line)
    as (groups & Hwrap & Hconcat & Hsome & Hlines); [done..|].
  exists groups. split_and!; [done..|].
  intros Hwords Hroom. by eapply filled_one_line.
Qed.


End WrapWordsFacts.

Module WrapWordsExamples.
Import TextWrap MCNP_Card TextWrapFacts MCNP_WrapFacts WrapWordsFacts.

(** X18 on the words of a regenerated [LAT] input. *)
Lemma wrap_words_for_mcnp_fills_lines_witness :
  wrap_words_for_mcnp (H := split_plain) ["LAT"; "1"; "2R"; "3J"] [6; 2; 0] true
  = Some (Ok ["LAT 1 2R 3J"]).
Proof.
  destruct (wrap_words_for_mcnp_fills_lines ["LAT"; "1"; "2R"; "3J"] [6; 2; 0] true)
    as (groups & -> & _ & _ & _ & Hone).
  - reflexivity.
  - repeat constructor; (discriminate || reflexivity).
  - repeat constructor; vm_compute; discriminate.
  - rewrite Hone; [reflexivity|discriminate|vm_compute; discriminate].
Defined.



(** Forty words of three characters do not fit 128 columns: the first
    line takes 32 of them, the second the other eight behind the indent. *)
Example forty_words_on_two_lines :
  wrap_words_for_mcnp (H := split_plain) ("LAT" :: replicate 39 "20R") [6; 2; 0] true
  = Some (Ok [Str.join " " ("LAT" :: replicate 31 "20R");
              "     " +:+ Str.join " " (replicate 8 "20R")]).
Proof. vm_compute. reflexivity. Qed.

End WrapWordsExamples.
